(** * Pricing and aggregation engine of the quote generator

    A shallow embedding of [src/models/calculation.py] (class [Calculator])
    and of the project, rate-card and controller models around it, with
    the properties of their functions.

    Modelling conventions.
    - Line items and rate-card records are Python dicts with string keys;
      they are association lists in insertion order ([dict]).  The values
      the calculator inspects are [None], booleans, numbers, strings and
      nested dicts ([pyval]).  Arrays are left out: the only array of a
      record (the [options] list of a material block) is never read by the
      calculator.
    - A call either returns a value or raises a built-in exception
      ([result]).
    - Numbers are embedded twice.
      In the modules [Py] to [RateCard] a Python number is the rational it
      denotes and arithmetic is exact ([Q], compared with [==]); strings
      are byte strings.  These modules carry the properties in which
      arithmetic plays no part, or which state the code's own expression in
      the code's own order, so that they hold of doubles as they hold of
      rationals.
      In the modules [Ieee], [IeeeController] and [IeeeShape] an [int] is
      an integer ([Z]), a
      [float] is an IEEE 754 binary64 number (the primitive floats, whose
      operations [FloatAxioms] specifies bit by bit) and a [str] is the
      list of its code points.  There [float(...)] rounds a numeral or an
      int to the nearest double with ties to even, raises [OverflowError]
      on an int beyond the double range and reads [inf] and [nan];
      [str.strip] removes Unicode whitespace; sums and products round,
      overflow and yield nan as the doubles of the code do.  These modules
      carry the properties on which rounding, overflow, nan or the exact
      reading of a numeral bear. *)

From Stdlib Require Import QArith ZArith NArith String Ascii List Bool
  Permutation Floats Lia.
Import ListNotations.

Set Warnings "-register-all".

(* ================================================================== *)
(** ** Python values, exceptions and results *)

Module Py.

Inductive exn : Type :=
| KeyError
| ValueError
| TypeError
| AttributeError.

Inductive result (A : Type) : Type :=
| Ok (a : A)
| Raise (e : exn).

Arguments Ok {A} a.
Arguments Raise {A} e.

Definition bind {A B : Type} (r : result A) (k : A -> result B) : result B :=
  match r with
  | Ok a => k a
  | Raise e => Raise e
  end.

Inductive pyval : Type :=
| VNone
| VBool (b : bool)
| VNum (q : Q)
| VStr (s : string)
| VDict (d : list (string * pyval)).

Definition dict : Type := list (string * pyval).

(** [d.get(k)] without default: the first binding of [k]. *)
Fixpoint dget (k : string) (d : dict) : option pyval :=
  match d with
  | [] => None
  | (k', v) :: d' => if String.eqb k k' then Some v else dget k d'
  end.

(** [d.get(k, default)]. *)
Definition get_default (d : dict) (k : string) (default : pyval) : pyval :=
  match dget k d with
  | Some v => v
  | None => default
  end.

(** [d[k]]. *)
Definition getitem (d : dict) (k : string) : result pyval :=
  match dget k d with
  | Some v => Ok v
  | None => Raise KeyError
  end.

(** The record [d] without its key [k]. *)
Fixpoint dremove (k : string) (d : dict) : dict :=
  match d with
  | [] => []
  | (k', v) :: d' =>
      if String.eqb k k' then dremove k d' else (k', v) :: dremove k d'
  end.

(** Truth value of an object ([bool(v)]). *)
Definition truthy (v : pyval) : bool :=
  match v with
  | VNone => false
  | VBool b => b
  | VNum q => negb (Qeq_bool q 0)
  | VStr s => negb (String.eqb s EmptyString)
  | VDict d => match d with [] => false | _ :: _ => true end
  end.

(** [a or b]. *)
Definition py_or (a b : pyval) : pyval := if truthy a then a else b.

(** [v == "literal"] for a string literal. *)
Definition eq_str (v : pyval) (lit : string) : bool :=
  match v with
  | VStr s => String.eqb s lit
  | _ => false
  end.

(** The number a bool or a number stands for in arithmetic. *)
Definition num_of (v : pyval) : option Q :=
  match v with
  | VBool b => Some (if b then 1 else 0)
  | VNum q => Some q
  | _ => None
  end.

(* ------------------------------------------------------------------ *)
(** *** Strings *)

(** [str.isspace] on ASCII: tab, line feed, vertical tab, form feed,
    carriage return, the four separators 28 to 31, and space. *)
Definition is_space (c : ascii) : bool :=
  let n := nat_of_ascii c in
  ((9 <=? n) && (n <=? 13)) || ((28 <=? n) && (n <=? 32)).

Fixpoint lstrip (s : string) : string :=
  match s with
  | EmptyString => EmptyString
  | String c r => if is_space c then lstrip r else s
  end.

Fixpoint rstrip (s : string) : string :=
  match s with
  | EmptyString => EmptyString
  | String c r =>
      match rstrip r with
      | EmptyString => if is_space c then EmptyString else String c EmptyString
      | r' => String c r'
      end
  end.

(** [s.strip()]. *)
Definition strip (s : string) : string := lstrip (rstrip s).

Definition lower_char (c : ascii) : ascii :=
  let n := nat_of_ascii c in
  if (65 <=? n) && (n <=? 90) then ascii_of_nat (n + 32) else c.

(** [s.lower()] on ASCII. *)
Fixpoint lower (s : string) : string :=
  match s with
  | EmptyString => EmptyString
  | String c r => String (lower_char c) (lower r)
  end.

(** [s.split(sep)] for a one-character separator: never empty. *)
Fixpoint split (sep : ascii) (s : string) : list string :=
  match s with
  | EmptyString => [EmptyString]
  | String c r =>
      if Ascii.eqb c sep then EmptyString :: split sep r
      else match split sep r with
           | h :: t => String c h :: t
           | [] => [String c EmptyString]
           end
  end.

(** [s.split(sep, 1)] when [sep in s]: the parts before and after the first
    occurrence; [None] when [sep] does not occur. *)
Fixpoint split_first (sep : ascii) (s : string) : option (string * string) :=
  match s with
  | EmptyString => None
  | String c r =>
      if Ascii.eqb c sep then Some (EmptyString, r)
      else match split_first sep r with
           | Some (a, b) => Some (String c a, b)
           | None => None
           end
  end.

(** [sub in s] on strings. *)
Fixpoint substring_of (sub s : string) : bool :=
  String.prefix sub s ||
  match s with
  | EmptyString => false
  | String _ r => substring_of sub r
  end.

(* ------------------------------------------------------------------ *)
(** *** [float(...)] *)

Definition digit_of (c : ascii) : option Z :=
  let n := nat_of_ascii c in
  if (48 <=? n) && (n <=? 57) then Some (Z.of_nat (n - 48)) else None.

(** The rest of a digit part after its first digit: digits, each
    optionally preceded by one underscore.  Returns the accumulated value,
    the number of digits read and the unread rest. *)
Fixpoint digits_rest (acc : Z) (n : nat) (s : string) : Z * nat * string :=
  match s with
  | EmptyString => (acc, n, s)
  | String c r =>
      match digit_of c with
      | Some d => digits_rest (10 * acc + d) (S n) r
      | None =>
          if Ascii.eqb c "_"%char then
            match r with
            | EmptyString => (acc, n, s)
            | String c' r' =>
                match digit_of c' with
                | Some d => digits_rest (10 * acc + d) (S n) r'
                | None => (acc, n, s)
                end
            end
          else (acc, n, s)
      end
  end.

(** A digit part: at least one digit. *)
Definition digit_part (acc : Z) (s : string) : option (Z * nat * string) :=
  match s with
  | EmptyString => None
  | String c r =>
      match digit_of c with
      | Some d => Some (digits_rest (10 * acc + d) 1 r)
      | None => None
      end
  end.

(** An optional sign: [true] for minus. *)
Definition sign_of (s : string) : bool * string :=
  match s with
  | String "-"%char r => (true, r)
  | String "+"%char r => (false, r)
  | _ => (false, s)
  end.

Definition pow10 (e : Z) : Q :=
  match e with
  | Z0 => 1
  | Zpos p => inject_Z (Z.pow_pos 10 p)
  | Zneg p => 1 # (Pos.pow 10 p)
  end.

(** An optional exponent [e[+-]digits] that must reach the end of the
    string. *)
Definition exponent_of (s : string) : option Z :=
  match s with
  | EmptyString => Some 0%Z
  | String c r =>
      if Ascii.eqb c "e"%char || Ascii.eqb c "E"%char then
        let '(neg, r1) := sign_of r in
        match digit_part 0 r1 with
        | Some (e, _, EmptyString) => Some (if neg then (- e)%Z else e)
        | _ => None
        end
      else None
  end.

(** [float(s)] for a string: surrounding whitespace is ignored, then a
    sign, an integer part, a fraction and an exponent; at least one digit
    in the integer part or the fraction.  [None] stands for [ValueError]. *)
Definition float_of_string (s : string) : option Q :=
  let '(neg, s1) := sign_of (strip s) in
  let '(ip, ni, s2) :=
    match digit_part 0 s1 with
    | Some r => r
    | None => (0%Z, O, s1)
    end in
  let '(m, nf, s3) :=
    match s2 with
    | String "."%char r =>
        match digit_part ip r with
        | Some (m, nf, r') => (m, nf, r')
        | None => (ip, O, r)
        end
    | _ => (ip, O, s2)
    end in
  match (ni + nf)%nat with
  | O => None
  | S _ =>
      match exponent_of s3 with
      | Some e =>
          let v := inject_Z m * pow10 (e - Z.of_nat nf) in
          Some (if neg then - v else v)
      | None => None
      end
  end.

(** [x in container].  A dict is searched by key, and its keys are
    strings; a dict is not hashable.  A string is searched for a substring.
    Nothing else is a container. *)
Definition py_in (x container : pyval) : result bool :=
  match container with
  | VDict d =>
      match x with
      | VStr s => Ok (match dget s d with Some _ => true | None => false end)
      | VDict _ => Raise TypeError
      | _ => Ok false
      end
  | VStr t =>
      match x with
      | VStr s => Ok (substring_of s t)
      | _ => Raise TypeError
      end
  | _ => Raise TypeError
  end.

(** [v * x] for a float [x]: only a number or a bool multiplies. *)
Definition py_mul (v : pyval) (x : Q) : result Q :=
  match num_of v with
  | Some p => Ok (p * x)
  | None => Raise TypeError
  end.

(** [float(v)]. *)
Definition py_float (v : pyval) : result Q :=
  match v with
  | VNone => Raise TypeError
  | VBool b => Ok (if b then 1 else 0)
  | VNum q => Ok q
  | VStr s =>
      match float_of_string s with
      | Some q => Ok q
      | None => Raise ValueError
      end
  | VDict _ => Raise TypeError
  end.

End Py.


(* ================================================================== *)
(** ** The calculator *)

Module Calculator.

Import Py.

Notation "x <- c1 ;; c2" := (bind c1 (fun x => c2))
  (at level 61, c1 at next level, right associativity).

#[local] Open Scope string_scope.
#[local] Open Scope Q_scope.

(** [float(item.get(k, 0) or 0)]. *)
Definition float_field (item : dict) (k : string) : result Q :=
  py_float (py_or (get_default item k (VNum 0)) (VNum 0)).

(** The base amount by unit of measure (lines 19 to 31). *)
Definition base_amount (uom : pyval) (length height quantity rate : Q) : Q :=
  if eq_str uom "SFT" then
    let area := length * height in
    area * quantity * rate
  else if eq_str uom "RFT" then length * quantity * rate
  else if eq_str uom "NOS" then quantity * rate
  else quantity * rate.

(** A per-unit rate already read as a number, scaled by unit of measure
    (lines 69 to 77). *)
Definition scaled (uom : pyval) (r length height quantity : Q) : Q :=
  if eq_str uom "SFT" then r * length * height * quantity
  else if eq_str uom "RFT" then r * length * quantity
  else r * quantity.

(** The surcharge [price] of the selected material scaled by unit of
    measure (lines 44 to 49); [price] is whatever the mapping holds. *)
Definition material_scaled (uom price : pyval) (length height quantity : Q)
  : result Q :=
  if eq_str uom "SFT" then
    a <- py_mul price length ;; Ok (a * height * quantity)
  else if eq_str uom "RFT" then
    a <- py_mul price length ;; Ok (a * quantity)
  else py_mul price quantity.

(** Lines 34 to 52: the running total after the material surcharge. *)
Definition material_total (item : dict) (uom : pyval)
  (length height quantity base : Q) : result Q :=
  match dget "material" item with
  | None => Ok base
  | Some (VDict material) =>
      if truthy (get_default material "selected" VNone) then
        let selected_material := get_default material "selected" VNone in
        let price_additions :=
          get_default material "price_additions" (VDict []) in
        found <- py_in selected_material price_additions ;;
        material_addition <-
          (if found then
             match price_additions, selected_material with
             | VDict d, VStr s =>
                 price <- getitem d s ;;
                 material_scaled uom price length height quantity
             | _, _ => Raise TypeError
             end
           else Ok 0) ;;
        Ok (base + material_addition)
      else Ok base
  | Some _ => Raise AttributeError
  end.

(** Lines 60 to 77: the loop over a mapping of add-ons. *)
Fixpoint add_on_loop (uom : pyval) (length height quantity : Q)
  (add_ons : dict) (add_on_cost : Q) : result Q :=
  match add_ons with
  | [] => Ok add_on_cost
  | (_, VDict add_on_info) :: rest =>
      if truthy (get_default add_on_info "selected" (VBool false)) then
        add_on_rate <- float_field add_on_info "rate_per_unit" ;;
        add_on_loop uom length height quantity rest
          (add_on_cost + scaled uom add_on_rate length height quantity)
      else add_on_loop uom length height quantity rest add_on_cost
  | (_, _) :: _ => Raise AttributeError
  end.

(** Lines 84 to 93: the loop over the names of a legacy string. *)
Fixpoint legacy_loop (uom : pyval) (length height quantity : Q)
  (add_on_names : list string) (add_on_cost : Q) : Q :=
  match add_on_names with
  | [] => add_on_cost
  | add_on :: rest =>
      legacy_loop uom length height quantity rest
        (if String.eqb add_on "profile door" then
           if eq_str uom "SFT"
           then add_on_cost + 150 * length * height * quantity
           else add_on_cost
         else if String.eqb add_on "lights" then
           if eq_str uom "SFT"
           then add_on_cost + 250 * length * height * quantity
           else add_on_cost
         else add_on_cost)
  end.

(** Line 81: the names of a legacy string, trimmed and lower-cased. *)
Definition legacy_names (s : string) : list string :=
  map (fun x => lower (strip x)) (split "," s).

(** Lines 55 to 93: the add-on cost, from a mapping or else from a
    non-empty legacy string. *)
Definition add_on_total (item : dict) (uom : pyval)
  (length height quantity : Q) : result Q :=
  match dget "add_ons" item with
  | Some (VDict add_ons) => add_on_loop uom length height quantity add_ons 0
  | Some (VStr s) =>
      if truthy (VStr s)
      then Ok (legacy_loop uom length height quantity (legacy_names s) 0)
      else Ok 0
  | _ => Ok 0
  end.

Definition calculate_item_amount (item : dict) : result Q :=
  let uom := get_default item "uom" (VStr "NOS") in
  length <- float_field item "length" ;;
  height <- float_field item "height" ;;
  quantity <- float_field item "quantity" ;;
  rate <- float_field item "rate" ;;
  let base := base_amount uom length height quantity rate in
  total_amount <- material_total item uom length height quantity base ;;
  add_on_cost <- add_on_total item uom length height quantity ;;
  Ok (total_amount + add_on_cost).

(* ------------------------------------------------------------------ *)
(** *** Aggregation *)

(** A mapping built by the aggregation functions: keys are hashable
    values, totals are numbers, in insertion order. *)
Definition totals : Type := list (pyval * Q).

Definition hashable (v : pyval) : bool :=
  match v with
  | VDict _ => false
  | _ => true
  end.

(** Equality of dict keys: [None], strings, and numbers with bools
    compared by value. *)
Definition key_eqb (a b : pyval) : bool :=
  match a, b with
  | VNone, VNone => true
  | VStr s, VStr t => String.eqb s t
  | _, _ =>
      match num_of a, num_of b with
      | Some x, Some y => Qeq_bool x y
      | _, _ => false
      end
  end.

Fixpoint totals_get (k : pyval) (m : totals) : option Q :=
  match m with
  | [] => None
  | (k', v) :: m' => if key_eqb k k' then Some v else totals_get k m'
  end.

(** [m[k] = 0] for a key that is not in [m]. *)
Definition totals_init (k : pyval) (m : totals) : totals :=
  (m ++ [(k, 0)])%list.

(** [m[k] += x] for a key of [m]. *)
Fixpoint totals_add (k : pyval) (x : Q) (m : totals) : totals :=
  match m with
  | [] => []
  | (k', v) :: m' =>
      if key_eqb k k' then (k', v + x) :: m'
      else (k', v) :: totals_add k x m'
  end.

(** One round of the grouping loops: [if key not in m: m[key] = 0] and
    then [m[key] += amount] for the already evaluated [amount]. *)
Definition accumulate (key amount : pyval) (m : totals) : result totals :=
  if hashable key then
    let m1 :=
      match totals_get key m with
      | Some _ => m
      | None => totals_init key m
      end in
    match num_of amount with
    | Some a => Ok (totals_add key a m1)
    | None => Raise TypeError
    end
  else Raise TypeError.

Fixpoint room_loop (line_items : list dict) (room_totals : totals)
  : result totals :=
  match line_items with
  | [] => Ok room_totals
  | item :: rest =>
      room <- getitem item "room" ;;
      amount <- getitem item "amount" ;;
      room_totals' <- accumulate room amount room_totals ;;
      room_loop rest room_totals'
  end.

Definition calculate_room_totals (line_items : list dict) : result totals :=
  room_loop line_items [].

Definition calculate_subtotal (room_totals : totals) : Q :=
  fold_left Qplus (map snd room_totals) 0.

Definition calculate_gst (subtotal gst_percent : Q) : Q :=
  subtotal * (gst_percent / 100).

Definition calculate_discount (subtotal discount_percent : Q) : Q :=
  subtotal * (discount_percent / 100).

Definition calculate_grand_total (subtotal gst_amount discount_amount : Q)
  : Q :=
  subtotal + gst_amount - discount_amount.

Fixpoint breakdown_loop (line_items : list dict) (breakdown : totals)
  : result totals :=
  match line_items with
  | [] => Ok breakdown
  | item :: rest =>
      let uom := get_default item "uom" (VStr "Unknown") in
      if hashable uom then
        let breakdown1 :=
          match totals_get uom breakdown with
          | Some _ => breakdown
          | None => totals_init uom breakdown
          end in
        amount <- getitem item "amount" ;;
        match num_of amount with
        | Some a => breakdown_loop rest (totals_add uom a breakdown1)
        | None => Raise TypeError
        end
      else Raise TypeError
  end.

Definition get_item_breakdown_by_type (line_items : list dict)
  : result totals :=
  breakdown_loop line_items [].

(* ------------------------------------------------------------------ *)
(** *** Rate cards *)

Definition price_map : Type := list (string * Q).

Fixpoint price_get (k : string) (m : price_map) : option Q :=
  match m with
  | [] => None
  | (k', v) :: m' => if String.eqb k k' then Some v else price_get k m'
  end.

(** [m[k] = v]. *)
Fixpoint price_set (k : string) (v : Q) (m : price_map) : price_map :=
  match m with
  | [] => [(k, v)]
  | (k', v') :: m' =>
      if String.eqb k k' then (k', v) :: m'
      else (k', v') :: price_set k v m'
  end.

(** Lines 155 to 165: the loop over the comma-separated pairs. *)
Fixpoint parse_pairs (pairs : list string) (prices : price_map)
  : price_map :=
  match pairs with
  | [] => prices
  | segment :: rest =>
      match split_first ":" segment with
      | Some (name, price_str) =>
          let name := strip name in
          match float_of_string (strip price_str) with
          | Some price => parse_pairs rest (price_set name price prices)
          | None => parse_pairs rest prices
          end
      | None => parse_pairs rest prices
      end
  end.

Definition parse_price_mapping (price_string : pyval) : result price_map :=
  if negb (truthy price_string) then Ok []
  else
    match price_string with
    | VStr s => Ok (parse_pairs (split "," s) [])
    | _ => Raise AttributeError
    end.

Record material_options : Type := {
  options : list string;
  base_material : option string;
  price_additions : price_map
}.

(** Lines 202 to 217: the default surcharge of an option. *)
Definition default_price (option : string) : Q :=
  let option_lower := lower option in
  if String.eqb option_lower "laminate" then 0
  else if String.eqb option_lower "veneer" then 500
  else if String.eqb option_lower "pu" then 800
  else if String.eqb option_lower "acrylic" then 600
  else if String.eqb option_lower "premium" then 400
  else if String.eqb option_lower "texture" then 200
  else 300.

(** Lines 196 to 217: the loop over the options after the first. *)
Fixpoint set_prices (others : list string) (material_prices : price_map)
  (additions : price_map) : price_map :=
  match others with
  | [] => additions
  | option :: rest =>
      set_prices rest material_prices
        (price_set option
           (match price_get option material_prices with
            | Some p => p
            | None => default_price option
            end)
           additions)
  end.

Definition get_material_options_from_rate_card (rate_card_item : dict)
  : result material_options :=
  let empty :=
    {| options := []; base_material := None; price_additions := [] |} in
  match dget "material_options" rate_card_item with
  | None => Ok empty
  | Some v =>
      if truthy v then
        match v with
        | VStr options_str =>
            let options_list := map strip (split "," options_str) in
            match options_list with
            | [] => Ok empty
            | base :: others =>
                material_prices <-
                  (match dget "material_prices" rate_card_item with
                   | Some p =>
                       if truthy p then parse_price_mapping p else Ok []
                   | None => Ok []
                   end) ;;
                Ok {| options := options_list;
                      base_material := Some base;
                      price_additions :=
                        set_prices others material_prices [(base, 0)] |}
            end
        | _ => Raise AttributeError
        end
      else Ok empty
  end.

(** The material block a caller stores in a line item: the price
    additions of a rate card as a dict, together with the selection. *)
Definition material_block (m : material_options) (selected : pyval) : pyval :=
  VDict [("base_material",
          match base_material m with Some b => VStr b | None => VNone end);
         ("price_additions",
          VDict (map (fun kv => (fst kv, VNum (snd kv))) (price_additions m)));
         ("selected", selected)].

End Calculator.

(* ================================================================== *)
(** ** Shapes of records and the quantities the properties speak of *)

Module Shape.

Import Py Calculator.

#[local] Open Scope string_scope.
#[local] Open Scope Q_scope.

(** A value [float(v or 0)] accepts: anything false (read as 0), a bool,
    a number, or a string holding a numeral. *)
Definition numeric_value (v : pyval) : bool :=
  negb (truthy v) ||
  match v with
  | VBool _ | VNum _ => true
  | VStr s => match float_of_string s with Some _ => true | None => false end
  | _ => false
  end.

(** The field [k] is absent or holds a numeric value. *)
Definition numeric_field (item : dict) (k : string) : bool :=
  match dget k item with
  | None => true
  | Some v => numeric_value v
  end.

(** The material block, when present, is a dict; its selection, when
    there is one, is a string; and its price additions are then a dict
    holding a number for the selection if it holds anything. *)
Definition material_shaped (item : dict) : bool :=
  match dget "material" item with
  | None => true
  | Some (VDict material) =>
      if truthy (get_default material "selected" VNone) then
        match get_default material "selected" VNone,
              get_default material "price_additions" (VDict []) with
        | VStr s, VDict d =>
            match dget s d with
            | Some p => match num_of p with Some _ => true | None => false end
            | None => true
            end
        | _, _ => false
        end
      else true
  | Some _ => false
  end.

Definition add_on_shaped (info : pyval) : bool :=
  match info with
  | VDict i =>
      negb (truthy (get_default i "selected" (VBool false)))
      || numeric_field i "rate_per_unit"
  | _ => false
  end.

(** The add-ons, when a mapping, map every name to a dict whose rate is
    numeric if it is selected. *)
Definition add_ons_shaped (item : dict) : bool :=
  match dget "add_ons" item with
  | Some (VDict add_ons) => forallb (fun kv => add_on_shaped (snd kv)) add_ons
  | _ => true
  end.


Definition unselected (info : pyval) : bool :=
  match info with
  | VDict i => negb (truthy (get_default i "selected" (VBool false)))
  | _ => false
  end.

(** No add-on is chosen: no [add_ons] key, a mapping with nothing
    selected, or an empty legacy string. *)
Definition no_add_ons (item : dict) : bool :=
  match dget "add_ons" item with
  | None => true
  | Some (VDict add_ons) => forallb (fun kv => unselected (snd kv)) add_ons
  | Some (VStr s) => String.eqb s ""
  | Some _ => false
  end.


(** The unit of measure the calculator reads from an item. *)
Definition uom_of (item : dict) : pyval :=
  get_default item "uom" (VStr "NOS").


(** The rate of one entry of an add-on mapping: 0 unless selected. *)
Definition add_on_rate (info : pyval) : Q :=
  match info with
  | VDict i =>
      if truthy (get_default i "selected" (VBool false)) then
        match float_field i "rate_per_unit" with
        | Ok x => x
        | Raise _ => 0
        end
      else 0
  | _ => 0
  end.





(** An item of the aggregation has both keys the loop subscripts. *)
Definition complete (item : dict) : bool :=
  match dget "room" item, dget "amount" item with
  | Some _, Some _ => true
  | _, _ => false
  end.


(** The sum of the amounts of the items of room [k]: [None] when no item
    is of that room. *)
Fixpoint room_sum (k : pyval) (line_items : list dict) : option Q :=
  match line_items with
  | [] => None
  | item :: rest =>
      match dget "room" item, dget "amount" item with
      | Some room, Some amount =>
          if key_eqb k room then
            Some (match num_of amount with Some a => a | None => 0 end
                  + match room_sum k rest with Some s => s | None => 0 end)
          else room_sum k rest
      | _, _ => room_sum k rest
      end
  end.



(** The name and the price of a segment that is a well-formed
    [name:number] pair: a colon, and a numeral after the first colon. *)
Definition segment_pair (segment : string) : option (string * Q) :=
  match split_first ":" segment with
  | Some (name, price_str) =>
      match float_of_string (strip price_str) with
      | Some price => Some (strip name, price)
      | None => None
      end
  | None => None
  end.

(** The price of the last well-formed segment named [name]. *)
Fixpoint last_price (name : string) (segments : list string) : option Q :=
  match segments with
  | [] => None
  | segment :: rest =>
      match last_price name rest with
      | Some p => Some p
      | None =>
          match segment_pair segment with
          | Some (k, p) => if String.eqb name k then Some p else None
          | None => None
          end
      end
  end.

End Shape.

(* ================================================================== *)
(** ** Sample records *)

Module Samples.

Import Py Calculator.

#[local] Open Scope string_scope.
#[local] Open Scope Q_scope.

Definition plain_sft_item : dict :=
  [("uom", VStr "SFT"); ("length", VNum 10); ("height", VNum 8);
   ("quantity", VNum 2); ("rate", VNum 150)].

Definition legacy_item : dict :=
  [("uom", VStr "SFT"); ("length", VNum 10); ("height", VNum 8);
   ("quantity", VNum 1); ("rate", VNum 150);
   ("add_ons", VStr "Profile Door, handles ,LIGHTS")].

Definition repeated_base_card : dict :=
  [("material_options", VStr "Veneer, PU, Veneer")].

Definition repeated_base_options : material_options :=
  {| options := ["Veneer"; "PU"; "Veneer"];
     base_material := Some "Veneer";
     price_additions := [("Veneer", 500); ("PU", 800)] |}.

End Samples.

(* ================================================================== *)
(** ** Add-ons of a rate card *)

Module AddOns.

Import Py Calculator.

#[local] Open Scope string_scope.
#[local] Open Scope Q_scope.

(** [d[k] = v] on a record: in place when the key is there, at the end
    otherwise. *)
Fixpoint dset (k : string) (v : pyval) (d : dict) : dict :=
  match d with
  | [] => [(k, v)]
  | (k', v') :: d' =>
      if String.eqb k k' then (k', v) :: d' else (k', v') :: dset k v d'
  end.

(** The rupee sign of the descriptions, U+20B9 in UTF-8. *)
Definition rupee : string :=
  String (ascii_of_nat 226)
    (String (ascii_of_nat 130) (String (ascii_of_nat 185) EmptyString)).

Section Descriptions.

(** How Python prints a float inside a description.  Descriptions are
    display text; the embedding leaves the printing of numbers open. *)
Variable float_str : Q -> string.

(** Lines 243 to 260: the rate and the description of one add-on. *)
Definition add_on_defaults (add_on : string) (addon_prices : price_map)
  : Q * string :=
  match price_get add_on addon_prices with
  | Some rate_per_unit =>
      (rate_per_unit,
       add_on ++ " (" ++ rupee ++ float_str rate_per_unit ++ " per unit)")
  | None =>
      if String.eqb (lower add_on) "profile door"
      then (150, "Premium profile door finish")
      else if String.eqb (lower add_on) "lights"
      then (250, "LED strip lighting")
      else (100, "Additional " ++ add_on ++ " feature")
  end.

(** Lines 263 to 267: the entry stored for an add-on. *)
Definition add_on_entry (rate_per_unit : Q) (description : string) : pyval :=
  VDict [("selected", VBool false);
         ("rate_per_unit", VNum rate_per_unit);
         ("description", VStr description)].

(** Lines 242 to 267: the loop over the listed add-ons. *)
Fixpoint add_on_entries (add_ons_list : list string)
  (addon_prices : price_map) (add_ons : dict) : dict :=
  match add_ons_list with
  | [] => add_ons
  | add_on :: rest =>
      let rd := add_on_defaults add_on addon_prices in
      add_on_entries rest addon_prices
        (dset add_on (add_on_entry (fst rd) (snd rd)) add_ons)
  end.

Definition get_add_ons_from_rate_card (rate_card_item : dict)
  : result dict :=
  match dget "add_ons" rate_card_item with
  | None => Ok []
  | Some v =>
      if truthy v then
        match v with
        | VStr add_ons_str =>
            if negb (String.eqb (lower add_ons_str) "none") then
              let add_ons_list := map strip (split "," add_ons_str) in
              addon_prices <-
                (match dget "addon_prices" rate_card_item with
                 | Some p =>
                     if truthy p then parse_price_mapping p else Ok []
                 | None => Ok []
                 end) ;;
              Ok (add_on_entries add_ons_list addon_prices [])
            else Ok []
        | _ => Raise AttributeError
        end
      else Ok []
  end.

End Descriptions.

End AddOns.

(* ================================================================== *)
(** ** Quantities of the further properties *)

Module Sums.

Import Py Calculator Shape.

#[local] Open Scope string_scope.
#[local] Open Scope Q_scope.












End Sums.

(* ================================================================== *)
(** ** The project model *)

(** [src/models/project.py].  The embedding tracks the data of a project:
    its info, rooms, line items and settings.  The listeners a project
    notifies after a change are callbacks of the views and are not part
    of it, nor is the reading and writing of files.  Rooms and line items
    are dicts; an index is an integer. *)
Module Project.

Import Py Calculator AddOns.

#[local] Open Scope string_scope.

(** [a == b] on values: [None], strings, numbers with bools by value,
    and dicts key by key. *)
Fixpoint py_eqb (a b : pyval) : bool :=
  match a, b with
  | VNone, VNone => true
  | VStr s, VStr t => String.eqb s t
  | VDict d1, VDict d2 =>
      Nat.eqb (List.length d1) (List.length d2)
      && (fix all (d : list (string * pyval)) : bool :=
            match d with
            | [] => true
            | (k, v) :: r =>
                match dget k d2 with
                | Some v2 => py_eqb v v2
                | None => false
                end && all r
            end) d1
  | VDict _, _ => false
  | _, VDict _ => false
  | _, _ =>
      match num_of a, num_of b with
      | Some x, Some y => Qeq_bool x y
      | _, _ => false
      end
  end.

Record project : Type := {
  project_info : dict;
  rooms : list dict;
  line_items : list dict;
  settings : dict
}.

(** Lines 13 to 25, and [create_new]. *)
Definition new_project : project :=
  {| project_info :=
       [("name", VStr ""); ("client_name", VStr "");
        ("site_address", VStr ""); ("contact_info", VStr "");
        ("project_type", VStr "")];
     rooms := [];
     line_items := [];
     settings := [("gst", VNum 18); ("discount", VNum 0)] |}.

(** [0 <= index < len(l)]. *)
Definition in_range {A : Type} (index : Z) (l : list A) : bool :=
  (0 <=? index)%Z && (index <? Z.of_nat (List.length l))%Z.

(** [l[n] = x] for an index in range. *)
Fixpoint list_set {A : Type} (n : nat) (x : A) (l : list A) : list A :=
  match l, n with
  | [], _ => []
  | _ :: t, O => x :: t
  | h :: t, S n' => h :: list_set n' x t
  end.

(** [del l[n]] for an index in range. *)
Fixpoint list_del {A : Type} (n : nat) (l : list A) : list A :=
  match l, n with
  | [], _ => []
  | _ :: t, O => t
  | h :: t, S n' => h :: list_del n' t
  end.

(** [d.update(other)]. *)
Definition dict_update (d other : dict) : dict :=
  fold_left (fun acc kv => dset (fst kv) (snd kv) acc) other d.

Definition get_project_info (p : project) : dict := project_info p.

Definition set_project_info (p : project) (info : dict) : project :=
  {| project_info := dict_update (project_info p) info;
     rooms := rooms p;
     line_items := line_items p;
     settings := settings p |}.

Definition get_rooms (p : project) : list dict := rooms p.

(** Returns the index of the new room. *)
Definition add_room (p : project) (room : dict) : Z * project :=
  (Z.of_nat (List.length (rooms p)),
   {| project_info := project_info p;
      rooms := (rooms p ++ [room])%list;
      line_items := line_items p;
      settings := settings p |}).

Definition update_room (p : project) (index : Z) (room : dict)
  : bool * project :=
  if in_range index (rooms p) then
    (true,
     {| project_info := project_info p;
        rooms := list_set (Z.to_nat index) room (rooms p);
        line_items := line_items p;
        settings := settings p |})
  else (false, p).

(** The comprehension [[item for item in items if item["room"] != name]]. *)
Fixpoint items_not_of (room_name : pyval) (items : list dict)
  : result (list dict) :=
  match items with
  | [] => Ok []
  | item :: rest =>
      room <- getitem item "room" ;;
      kept <- items_not_of room_name rest ;;
      Ok (if negb (py_eqb room room_name) then item :: kept else kept)
  end.

(** The comprehension [[item.copy() for item in items if item["room"] == room]]. *)
Fixpoint items_of (room : pyval) (items : list dict) : result (list dict) :=
  match items with
  | [] => Ok []
  | item :: rest =>
      r <- getitem item "room" ;;
      kept <- items_of room rest ;;
      Ok (if py_eqb r room then item :: kept else kept)
  end.

(** The outcome of the call and the project it leaves behind: the room
    is deleted before the line items are filtered. *)
Definition delete_room (p : project) (index : Z) : result bool * project :=
  if in_range index (rooms p) then
    match getitem (nth (Z.to_nat index) (rooms p) []) "name" with
    | Raise e => (Raise e, p)
    | Ok room_name =>
        let rooms' := list_del (Z.to_nat index) (rooms p) in
        match items_not_of room_name (line_items p) with
        | Raise e =>
            (Raise e,
             {| project_info := project_info p;
                rooms := rooms';
                line_items := line_items p;
                settings := settings p |})
        | Ok items' =>
            (Ok true,
             {| project_info := project_info p;
                rooms := rooms';
                line_items := items';
                settings := settings p |})
        end
    end
  else (Ok false, p).

(** [get_line_items(room)]; the default [room] is [None]. *)
Definition get_line_items (p : project) (room : pyval)
  : result (list dict) :=
  if truthy room then items_of room (line_items p)
  else Ok (line_items p).

(** Returns the index of the new item. *)
Definition add_line_item (p : project) (item : dict) : Z * project :=
  (Z.of_nat (List.length (line_items p)),
   {| project_info := project_info p;
      rooms := rooms p;
      line_items := (line_items p ++ [item])%list;
      settings := settings p |}).

Definition update_line_item (p : project) (index : Z) (item : dict)
  : bool * project :=
  if in_range index (line_items p) then
    (true,
     {| project_info := project_info p;
        rooms := rooms p;
        line_items := list_set (Z.to_nat index) item (line_items p);
        settings := settings p |})
  else (false, p).

Definition delete_line_item (p : project) (index : Z) : bool * project :=
  if in_range index (line_items p) then
    (true,
     {| project_info := project_info p;
        rooms := rooms p;
        line_items := list_del (Z.to_nat index) (line_items p);
        settings := settings p |})
  else (false, p).

Definition get_settings (p : project) : dict := settings p.

Definition update_settings (p : project) (new_settings : dict) : project :=
  {| project_info := project_info p;
     rooms := rooms p;
     line_items := line_items p;
     settings := dict_update (settings p) new_settings |}.

Definition create_new (p : project) : project := new_project.

End Project.

(* ================================================================== *)
(** ** The calculation controller *)

(** [src/controllers/calculation_controller.py]: the calculator applied
    to the line items and the settings of a project. *)
Module Controller.

Import Py Calculator AddOns Project.

#[local] Open Scope string_scope.
#[local] Open Scope Q_scope.

Definition calculate_item_amount (item : dict) : result Q :=
  Calculator.calculate_item_amount item.

Definition calculate_room_totals (p : project) : result Calculator.totals :=
  line_items <- get_line_items p VNone ;;
  Calculator.calculate_room_totals line_items.

Definition calculate_subtotal (p : project) : result Q :=
  room_totals <- calculate_room_totals p ;;
  Ok (Calculator.calculate_subtotal room_totals).

(** [subtotal * (percent / 100)] for a percentage taken from the
    settings: only a number or a bool divides. *)
Definition percent_of (subtotal : Q) (percent : pyval)
  (f : Q -> Q -> Q) : result Q :=
  match num_of percent with
  | Some x => Ok (f subtotal x)
  | None => Raise TypeError
  end.

Definition calculate_gst (p : project) : result Q :=
  subtotal <- calculate_subtotal p ;;
  let gst_percent := get_default (get_settings p) "gst" (VNum 18) in
  percent_of subtotal gst_percent Calculator.calculate_gst.

Definition calculate_discount (p : project) : result Q :=
  subtotal <- calculate_subtotal p ;;
  let discount_percent := get_default (get_settings p) "discount" (VNum 0) in
  percent_of subtotal discount_percent Calculator.calculate_discount.

Definition calculate_grand_total (p : project) : result Q :=
  subtotal <- calculate_subtotal p ;;
  gst_amount <- calculate_gst p ;;
  discount_amount <- calculate_discount p ;;
  Ok (Calculator.calculate_grand_total subtotal gst_amount discount_amount).

Definition get_item_breakdown_by_type (p : project)
  : result Calculator.totals :=
  line_items <- get_line_items p VNone ;;
  Calculator.get_item_breakdown_by_type line_items.

Record statistics : Type := {
  total_rooms : nat;
  total_items : nat;
  avg_room_cost : Q;
  avg_item_cost : Q;
  highest_cost_room : pyval * Q;
  highest_cost_item : pyval * pyval * pyval
}.

(** [sum(item["amount"] for item in line_items)]. *)
Fixpoint sum_amounts (line_items : list dict) (acc : Q) : result Q :=
  match line_items with
  | [] => Ok acc
  | item :: rest =>
      amount <- getitem item "amount" ;;
      match num_of amount with
      | Some a => sum_amounts rest (acc + a)
      | None => Raise TypeError
      end
  end.

(** [max(iterable, key=...)] after the keys are known: the first element
    whose key is greatest. *)
Fixpoint max_from {A : Type} (best : A * Q) (l : list (A * Q)) : A * Q :=
  match l with
  | [] => best
  | x :: rest =>
      max_from (if Qlt_le_dec (snd best) (snd x) then x else best) rest
  end.

(** The keys [x["amount"]] of the items, as [max] evaluates them. *)
Fixpoint amount_keys (line_items : list dict) : result (list (dict * Q)) :=
  match line_items with
  | [] => Ok []
  | item :: rest =>
      amount <- getitem item "amount" ;;
      match num_of amount with
      | Some a =>
          keys <- amount_keys rest ;;
          Ok ((item, a) :: keys)
      | None => Raise TypeError
      end
  end.

Definition calculate_project_statistics (p : project) : result statistics :=
  line_items <- get_line_items p VNone ;;
  room_totals <- calculate_room_totals p ;;
  let total_rooms := List.length room_totals in
  let total_items := List.length line_items in
  let avg_room_cost :=
    match total_rooms with
    | O => 0
    | S _ =>
        Calculator.calculate_subtotal room_totals
        / inject_Z (Z.of_nat total_rooms)
    end in
  avg_item_cost <-
    (match total_items with
     | O => Ok 0
     | S _ =>
         total <- sum_amounts line_items 0 ;;
         Ok (total / inject_Z (Z.of_nat total_items))
     end) ;;
  let highest_cost_room :=
    match room_totals with
    | [] => (VStr "None", 0)
    | first :: rest => max_from first rest
    end in
  highest_cost_item <-
    (match line_items with
     | [] => Ok (VStr "None", VStr "None", VNum 0)
     | _ :: _ =>
         keys <- amount_keys line_items ;;
         match keys with
         | [] => Ok (VStr "None", VStr "None", VNum 0)
         | first :: rest =>
             let highest_item := fst (max_from first rest) in
             name <- getitem highest_item "item" ;;
             room <- getitem highest_item "room" ;;
             amount <- getitem highest_item "amount" ;;
             Ok (name, room, amount)
         end
     end) ;;
  Ok {| total_rooms := total_rooms;
        total_items := total_items;
        avg_room_cost := avg_room_cost;
        avg_item_cost := avg_item_cost;
        highest_cost_room := highest_cost_room;
        highest_cost_item := highest_cost_item |}.

End Controller.

(* ================================================================== *)
(** ** Quantities of the project properties *)

Module Rooms.

Import Py Calculator Project.

#[local] Open Scope string_scope.

(** An item has a [room] key. *)
Definition has_room (item : dict) : bool :=
  match dget "room" item with
  | Some _ => true
  | None => false
  end.

(** The room of an item is equal to [room], as [==] compares. *)
Definition room_is (room : pyval) (item : dict) : bool :=
  match dget "room" item with
  | Some r => py_eqb r room
  | None => false
  end.


End Rooms.

(* ================================================================== *)
(** ** The rate card model *)

(** [src/models/rate_card.py]: the items of a rate card and its password
    protection.  Listeners and files are left out as for the project.
    The SHA-256 digest of [hashlib] is a parameter. *)
Module RateCard.

Import Py Calculator Project.

#[local] Open Scope string_scope.

Record rate_card : Type := {
  items : list dict;
  file_path : string;
  password_hash : string;
  is_password_protected : bool
}.

Definition get_items (rc : rate_card) : list dict := items rc.

(** [None] for an index out of range. *)
Definition get_item (rc : rate_card) (index : Z) : option dict :=
  if in_range index (items rc)
  then Some (nth (Z.to_nat index) (items rc) [])
  else None.

(** Returns the index of the new item. *)
Definition add_item (rc : rate_card) (item : dict) : Z * rate_card :=
  (Z.of_nat (List.length (items rc)),
   {| items := (items rc ++ [item])%list;
      file_path := file_path rc;
      password_hash := password_hash rc;
      is_password_protected := is_password_protected rc |}).

Definition update_item (rc : rate_card) (index : Z) (item : dict)
  : bool * rate_card :=
  if in_range index (items rc) then
    (true,
     {| items := list_set (Z.to_nat index) item (items rc);
        file_path := file_path rc;
        password_hash := password_hash rc;
        is_password_protected := is_password_protected rc |})
  else (false, rc).

Definition delete_item (rc : rate_card) (index : Z) : bool * rate_card :=
  if in_range index (items rc) then
    (true,
     {| items := list_del (Z.to_nat index) (items rc);
        file_path := file_path rc;
        password_hash := password_hash rc;
        is_password_protected := is_password_protected rc |})
  else (false, rc).

(** [item.get("category") == category] for every item, in order. *)
Definition get_items_by_category (rc : rate_card) (category : pyval)
  : list dict :=
  filter (fun item => py_eqb (get_default item "category" VNone) category)
         (items rc).

Section Hashing.

(** [hashlib.sha256(bytes).hexdigest()] of the encoded password. *)
Variable sha256_hex : string -> string.

(** [_hash_password]: only a string has [encode]. *)
Definition hash_password (password : pyval) : result string :=
  match password with
  | VStr s => Ok (sha256_hex s)
  | _ => Raise AttributeError
  end.

(** The outcome and the rate card left behind: the flag is set before
    the password is hashed. *)
Definition set_password_protection (rc : rate_card) (password : pyval)
  : result bool * rate_card :=
  match password with
  | VNone =>
      (Ok true,
       {| items := items rc;
          file_path := file_path rc;
          password_hash := "";
          is_password_protected := false |})
  | _ =>
      match hash_password password with
      | Ok h =>
          (Ok true,
           {| items := items rc;
              file_path := file_path rc;
              password_hash := h;
              is_password_protected := true |})
      | Raise e =>
          (Raise e,
           {| items := items rc;
              file_path := file_path rc;
              password_hash := password_hash rc;
              is_password_protected := true |})
      end
  end.

Definition verify_password (rc : rate_card) (password : pyval)
  : result bool :=
  if negb (is_password_protected rc) then Ok true
  else
    h <- hash_password password ;;
    Ok (String.eqb h (password_hash rc)).

End Hashing.

End RateCard.

(* ================================================================== *)
(** ** Further sample records *)

Module MoreSamples.

Import Py Calculator AddOns Project.

#[local] Open Scope string_scope.
#[local] Open Scope Q_scope.

Definition veneer_card : dict :=
  [("material_options", VStr "Laminate, Veneer , PU");
   ("material_prices", VStr "Veneer:450, oops")].

Definition lights_card : dict :=
  [("add_ons", VStr "Lights, Profile Door ,Handles");
   ("addon_prices", VStr "Lights:300")].

Definition sample_float_str (q : Q) : string := "300.0".

Definition lights_add_ons : dict :=
  [("Lights",
    VDict [("selected", VBool false); ("rate_per_unit", VNum 300);
           ("description",
            VStr ("Lights (" ++ rupee ++ "300.0 per unit)"))]);
   ("Profile Door",
    VDict [("selected", VBool false); ("rate_per_unit", VNum 150);
           ("description", VStr "Premium profile door finish")]);
   ("Handles",
    VDict [("selected", VBool false); ("rate_per_unit", VNum 100);
           ("description", VStr "Additional Handles feature")])].




Definition tv_unit : dict :=
  [("room", VStr "Hall"); ("item", VStr "TV Unit"); ("amount", VNum 1000)].

Definition kitchen_unit : dict :=
  [("room", VStr "Kitchen"); ("item", VStr "Cabinets"); ("amount", VNum 2000)].

Definition hall_paint : dict :=
  [("room", VStr "Hall"); ("item", VStr "Painting"); ("amount", VNum 2000)].

Definition sample_project : project :=
  {| project_info := [("name", VStr "Flat 4B")];
     rooms := [[("name", VStr "Hall")]; [("name", VStr "Kitchen")]];
     line_items := [tv_unit; kitchen_unit; hall_paint];
     settings := [("gst", VNum 18); ("discount", VNum 10)] |}.


Definition roomless_project : project :=
  {| project_info := [];
     rooms := [[("name", VStr "Hall")]];
     line_items := [tv_unit; [("item", VStr "Loose"); ("amount", VNum 5)]];
     settings := [] |}.

Definition sample_digest (s : string) : string := "digest of " ++ s.

Definition sample_card : RateCard.rate_card :=
  {| RateCard.items := [];
     RateCard.file_path := "";
     RateCard.password_hash := "";
     RateCard.is_password_protected := false |}.

End MoreSamples.

(* ================================================================== *)
(** ** Python values and the calculator in IEEE doubles *)

Module Ieee.

Inductive exn : Type :=
| KeyError
| ValueError
| TypeError
| AttributeError
| OverflowError.

Inductive result (A : Type) : Type :=
| Ok (a : A)
| Raise (e : exn).

Arguments Ok {A} a.
Arguments Raise {A} e.

Definition bind {A B : Type} (r : result A) (k : A -> result B) : result B :=
  match r with
  | Ok a => k a
  | Raise e => Raise e
  end.

#[local] Notation "x <- c1 ;; c2" := (bind c1 (fun x => c2))
  (at level 61, c1 at next level, right associativity).

(* ------------------------------------------------------------------ *)
(** *** Strings *)

(** A Python [str] is the list of its code points. *)
Definition pystr : Type := list N.

(** The [str] of an ASCII literal. *)
Definition text (s : string) : pystr :=
  map N_of_ascii (list_ascii_of_string s).

Arguments text : simpl never.

Fixpoint str_eqb (a b : pystr) : bool :=
  match a, b with
  | [], [] => true
  | x :: a', y :: b' => N.eqb x y && str_eqb a' b'
  | _, _ => false
  end.

#[local] Open Scope N_scope.

(** [str.isspace] of one code point (Unicode 14): the characters
    [str.strip] removes. *)
Definition is_space (c : N) : bool :=
  ((9 <=? c) && (c <=? 13)) || ((28 <=? c) && (c <=? 32))
  || (c =? 133) || (c =? 160) || (c =? 5760)
  || ((8192 <=? c) && (c <=? 8202))
  || (c =? 8232) || (c =? 8233) || (c =? 8239) || (c =? 8287)
  || (c =? 12288).

Fixpoint lstrip (s : pystr) : pystr :=
  match s with
  | [] => []
  | c :: r => if is_space c then lstrip r else s
  end.

Fixpoint rstrip (s : pystr) : pystr :=
  match s with
  | [] => []
  | c :: r =>
      match rstrip r with
      | [] => if is_space c then [] else [c]
      | r' => c :: r'
      end
  end.

(** [s.strip()]. *)
Definition strip (s : pystr) : pystr := lstrip (rstrip s).

(** The lower case of one code point.  Beside the letters A to Z, the
    only code points whose lower case holds an ASCII character are
    U+0130 and U+212A; every other code point is left as it is, which no
    comparison with an ASCII literal tells from its lower case. *)
Definition lower_char (c : N) : pystr :=
  if (65 <=? c) && (c <=? 90) then [c + 32]
  else if c =? 304 then [105; 775]
  else if c =? 8490 then [107]
  else [c].

(** [s.lower()], as far as comparisons with ASCII literals see it. *)
Definition lower (s : pystr) : pystr := flat_map lower_char s.

(** [s.split(sep)] for a one-character separator: never empty. *)
Fixpoint split (sep : N) (s : pystr) : list pystr :=
  match s with
  | [] => [[]]
  | c :: r =>
      if c =? sep then [] :: split sep r
      else match split sep r with
           | h :: t => (c :: h) :: t
           | [] => [[c]]
           end
  end.

(** [s.split(sep, 1)] when [sep in s]: the parts before and after the first
    occurrence; [None] when [sep] does not occur. *)
Fixpoint split_first (sep : N) (s : pystr) : option (pystr * pystr) :=
  match s with
  | [] => None
  | c :: r =>
      if c =? sep then Some ([], r)
      else match split_first sep r with
           | Some (a, b) => Some (c :: a, b)
           | None => None
           end
  end.

Fixpoint prefix (a b : pystr) : bool :=
  match a, b with
  | [], _ => true
  | x :: a', y :: b' => (x =? y) && prefix a' b'
  | _ :: _, [] => false
  end.

(** [sub in s] on strings. *)
Fixpoint substring_of (sub s : pystr) : bool :=
  prefix sub s ||
  match s with
  | [] => false
  | _ :: r => substring_of sub r
  end.

(* ------------------------------------------------------------------ *)
(** *** [float(...)] *)

(** [float(n)] for an int: the nearest double, ties to even; [None]
    stands for [OverflowError]. *)
Definition float_of_int (z : Z) : option float :=
  match binary_normalize prec emax z 0 false with
  | S754_infinity _ => None
  | sf => Some (SF2Prim sf)
  end.

(** The zero digits of the decimal digit characters of Unicode 14: each
    is followed by its digits 1 to 9. *)
Definition decimal_zeros : list N :=
  [48; 1632; 1776; 1984; 2406; 2534; 2662; 2790; 2918; 3046; 3174; 3302;
   3430; 3558; 3664; 3792; 3872; 4160; 4240; 6112; 6160; 6470; 6608; 6784;
   6800; 6992; 7088; 7232; 7248; 42528; 43216; 43264; 43472; 43504; 43600;
   44016; 65296; 66720; 68912; 69734; 69872; 69942; 70096; 70384; 70736;
   70864; 71248; 71360; 71472; 71904; 72016; 72784; 73040; 73120; 92768;
   92864; 93008; 120782; 120792; 120802; 120812; 120822; 123200; 123632;
   125264; 130032].

(** The decimal value of a code point that is a decimal digit. *)
Definition decimal_of (c : N) : option N :=
  match find (fun z => (z <=? c) && (c <? z + 10)) decimal_zeros with
  | Some z => Some (c - z)
  | None => None
  end.

(** What [float] does first to a string that is not all ASCII: a space
    for every whitespace character and the ASCII digit for every decimal
    digit; it stops with a question mark at any other character from 127
    on. *)
Fixpoint transform (s : pystr) : pystr :=
  match s with
  | [] => []
  | c :: r =>
      if c <? 127 then c :: transform r
      else if is_space c then 32 :: transform r
      else match decimal_of c with
           | Some d => (48 + d) :: transform r
           | None => [63]
           end
  end.

Definition to_ascii (s : pystr) : pystr :=
  if forallb (fun c => c <? 128) s then s else transform s.

(** The whitespace [float] strips from the ASCII text. *)
Definition is_ascii_space (c : N) : bool :=
  ((9 <=? c) && (c <=? 13)) || (c =? 32).

Fixpoint lstrip_ascii (s : pystr) : pystr :=
  match s with
  | [] => []
  | c :: r => if is_ascii_space c then lstrip_ascii r else s
  end.

Fixpoint rstrip_ascii (s : pystr) : pystr :=
  match s with
  | [] => []
  | c :: r =>
      match rstrip_ascii r with
      | [] => if is_ascii_space c then [] else [c]
      | r' => c :: r'
      end
  end.

Definition is_digit (c : N) : bool := (48 <=? c) && (c <=? 57).

(** The text without its underscores, each of which must stand between
    two digits; [prev] is the character before. *)
Fixpoint underscores (prev : N) (s : pystr) : option pystr :=
  match s with
  | [] => if prev =? 95 then None else Some []
  | c :: r =>
      if c =? 95 then
        if is_digit prev then underscores c r else None
      else if (prev =? 95) && negb (is_digit c) then None
      else option_map (cons c) (underscores c r)
  end.

Definition digit_of (c : N) : option Z :=
  if is_digit c then Some (Z.of_N (c - 48)) else None.

(** A run of digits: the accumulated value, the number of digits read and
    the unread rest. *)
Fixpoint digits (acc : Z) (n : nat) (s : pystr) : Z * nat * pystr :=
  match s with
  | [] => (acc, n, s)
  | c :: r =>
      match digit_of c with
      | Some d => digits (10 * acc + d) (S n) r
      | None => (acc, n, s)
      end
  end.

(** An optional sign: [true] for minus. *)
Definition sign_of (s : pystr) : bool * pystr :=
  match s with
  | 45 :: r => (true, r)
  | 43 :: r => (false, r)
  | _ => (false, s)
  end.

(** An optional exponent [e[+-]digits] that must reach the end of the
    text. *)
Definition exponent_of (s : pystr) : option Z :=
  match s with
  | [] => Some 0%Z
  | c :: r =>
      if (c =? 101) || (c =? 69) then
        let '(neg, r1) := sign_of r in
        match digits 0 0 r1 with
        | (e, S _, []) => Some (if neg then (- e)%Z else e)
        | _ => None
        end
      else None
  end.

(** A decimal numeral: a sign, an integer part, a fraction and an
    exponent, with at least one digit in the integer part or the fraction.
    The result [(neg, m, e)] stands for [m * 10^e], negated if [neg]. *)
Definition decimal_of_text (s : pystr) : option (bool * Z * Z) :=
  let '(neg, s1) := sign_of s in
  let '(ip, ni, s2) := digits 0 0 s1 in
  let '(m, nf, s3) :=
    match s2 with
    | 46 :: r => digits ip 0 r
    | _ => (ip, O, s2)
    end in
  match (ni + nf)%nat with
  | O => None
  | S _ =>
      match exponent_of s3 with
      | Some e => Some (neg, m, (e - Z.of_nat nf)%Z)
      | None => None
      end
  end.

Definition ascii_lower (c : N) : N :=
  if (65 <=? c) && (c <=? 90) then c + 32 else c.

(** [inf], [infinity] and [nan] in any case, with an optional sign. *)
Definition special_of_text (s : pystr) : option float :=
  let '(neg, s1) := sign_of s in
  let l := map ascii_lower s1 in
  if str_eqb l (text "inf") || str_eqb l (text "infinity")
  then Some (if neg then neg_infinity else infinity)
  else if str_eqb l (text "nan") then Some nan
  else None.

(** The double nearest to [m * 10^e], ties to even, for [0 <= m]. *)
Definition round_decimal (neg : bool) (m e : Z) : float :=
  match m with
  | Zpos p =>
      SF2Prim
        (match e with
         | Zneg k =>
             let '(q, e', loc) :=
               SFdiv_core_binary prec emax (Zpos p) 0
                 (Zpos (Pos.pow 10 k)) 0 in
             binary_round_aux prec emax neg q e' loc
         | Z0 => binary_round prec emax neg p 0
         | Zpos k => binary_round prec emax neg (p * Pos.pow 10 k) 0
         end)
  | _ => if neg then neg_zero else zero
  end.

(** [float(s)] for a string; [None] stands for [ValueError]. *)
Definition float_of_string (s : pystr) : option float :=
  match underscores 0 (lstrip_ascii (rstrip_ascii (to_ascii s))) with
  | Some t =>
      match decimal_of_text t with
      | Some (neg, m, e) => Some (round_decimal neg m e)
      | None => special_of_text t
      end
  | None => None
  end.

(* ------------------------------------------------------------------ *)
(** *** Values *)

Inductive pyval : Type :=
| VNone
| VBool (b : bool)
| VInt (z : Z)
| VFloat (f : float)
| VStr (s : pystr)
| VDict (d : list (pystr * pyval)).

Definition dict : Type := list (pystr * pyval).

(** [d.get(k)] without default: the first binding of [k]. *)
Fixpoint dget (k : pystr) (d : dict) : option pyval :=
  match d with
  | [] => None
  | (k', v) :: d' => if str_eqb k k' then Some v else dget k d'
  end.

(** [d.get(k, default)]. *)
Definition get_default (d : dict) (k : pystr) (default : pyval) : pyval :=
  match dget k d with
  | Some v => v
  | None => default
  end.

(** [d[k]]. *)
Definition getitem (d : dict) (k : pystr) : result pyval :=
  match dget k d with
  | Some v => Ok v
  | None => Raise KeyError
  end.

(** The record [d] without its key [k]. *)
Fixpoint dremove (k : pystr) (d : dict) : dict :=
  match d with
  | [] => []
  | (k', v) :: d' =>
      if str_eqb k k' then dremove k d' else (k', v) :: dremove k d'
  end.

(** Truth value of an object ([bool(v)]); a nan is true. *)
Definition truthy (v : pyval) : bool :=
  match v with
  | VNone => false
  | VBool b => b
  | VInt z => negb (z =? 0)%Z
  | VFloat f => negb (f =? 0)%float
  | VStr s => match s with [] => false | _ :: _ => true end
  | VDict d => match d with [] => false | _ :: _ => true end
  end.

(** [a or b]. *)
Definition py_or (a b : pyval) : pyval := if truthy a then a else b.

(** [v == "literal"] for a string literal. *)
Definition eq_str (v : pyval) (lit : pystr) : bool :=
  match v with
  | VStr s => str_eqb s lit
  | _ => false
  end.

(** [float(v)]. *)
Definition py_float (v : pyval) : result float :=
  match v with
  | VNone => Raise TypeError
  | VBool b => Ok (if b then 1 else 0)%float
  | VInt z =>
      match float_of_int z with
      | Some x => Ok x
      | None => Raise OverflowError
      end
  | VFloat f => Ok f
  | VStr s =>
      match float_of_string s with
      | Some x => Ok x
      | None => Raise ValueError
      end
  | VDict _ => Raise TypeError
  end.

(** [v * x] for a float [x]: a bool or an int is converted to a float
    first, a float multiplies, nothing else does. *)
Definition py_mul (v : pyval) (x : float) : result float :=
  match v with
  | VBool b => Ok ((if b then 1 else 0) * x)%float
  | VInt z =>
      match float_of_int z with
      | Some p => Ok (p * x)%float
      | None => Raise OverflowError
      end
  | VFloat p => Ok (p * x)%float
  | _ => Raise TypeError
  end.

(** [x in container].  A dict is searched by key, and its keys are
    strings; a dict is not hashable.  A string is searched for a substring.
    Nothing else is a container. *)
Definition py_in (x container : pyval) : result bool :=
  match container with
  | VDict d =>
      match x with
      | VStr s => Ok (match dget s d with Some _ => true | None => false end)
      | VDict _ => Raise TypeError
      | _ => Ok false
      end
  | VStr t =>
      match x with
      | VStr s => Ok (substring_of s t)
      | _ => Raise TypeError
      end
  | _ => Raise TypeError
  end.

(* ------------------------------------------------------------------ *)
(** *** [calculate_item_amount] *)

#[local] Open Scope float_scope.

(** [float(item.get(k, 0) or 0)]. *)
Definition float_field (item : dict) (k : pystr) : result float :=
  py_float (py_or (get_default item k (VInt 0)) (VInt 0)).

(** The base amount by unit of measure (lines 19 to 31). *)
Definition base_amount (uom : pyval) (length height quantity rate : float)
  : float :=
  if eq_str uom (text "SFT") then
    let area := length * height in
    area * quantity * rate
  else if eq_str uom (text "RFT") then length * quantity * rate
  else if eq_str uom (text "NOS") then quantity * rate
  else quantity * rate.

(** A per-unit rate already read as a float, scaled by unit of measure
    (lines 69 to 77). *)
Definition scaled (uom : pyval) (r length height quantity : float) : float :=
  if eq_str uom (text "SFT") then r * length * height * quantity
  else if eq_str uom (text "RFT") then r * length * quantity
  else r * quantity.

(** The surcharge [price] of the selected material scaled by unit of
    measure (lines 44 to 49); [price] is whatever the mapping holds. *)
Definition material_scaled (uom price : pyval)
  (length height quantity : float) : result float :=
  if eq_str uom (text "SFT") then
    a <- py_mul price length ;; Ok (a * height * quantity)
  else if eq_str uom (text "RFT") then
    a <- py_mul price length ;; Ok (a * quantity)
  else py_mul price quantity.

(** Lines 34 to 52: the running total after the material surcharge.
    Without a price for the selection the addition stays the int 0, which
    adds as the float 0.0. *)
Definition material_total (item : dict) (uom : pyval)
  (length height quantity base : float) : result float :=
  match dget (text "material") item with
  | None => Ok base
  | Some (VDict material) =>
      if truthy (get_default material (text "selected") VNone) then
        let selected_material :=
          get_default material (text "selected") VNone in
        let price_additions :=
          get_default material (text "price_additions") (VDict []) in
        found <- py_in selected_material price_additions ;;
        material_addition <-
          (if found then
             match price_additions, selected_material with
             | VDict d, VStr s =>
                 price <- getitem d s ;;
                 material_scaled uom price length height quantity
             | _, _ => Raise TypeError
             end
           else Ok 0) ;;
        Ok (base + material_addition)
      else Ok base
  | Some _ => Raise AttributeError
  end.

(** Lines 60 to 77: the loop over a mapping of add-ons. *)
Fixpoint add_on_loop (uom : pyval) (length height quantity : float)
  (add_ons : dict) (add_on_cost : float) : result float :=
  match add_ons with
  | [] => Ok add_on_cost
  | (_, VDict add_on_info) :: rest =>
      if truthy (get_default add_on_info (text "selected") (VBool false))
      then
        add_on_rate <- float_field add_on_info (text "rate_per_unit") ;;
        add_on_loop uom length height quantity rest
          (add_on_cost + scaled uom add_on_rate length height quantity)
      else add_on_loop uom length height quantity rest add_on_cost
  | (_, _) :: _ => Raise AttributeError
  end.

(** Lines 84 to 93: the loop over the names of a legacy string. *)
Fixpoint legacy_loop (uom : pyval) (length height quantity : float)
  (add_on_names : list pystr) (add_on_cost : float) : float :=
  match add_on_names with
  | [] => add_on_cost
  | add_on :: rest =>
      legacy_loop uom length height quantity rest
        (if str_eqb add_on (text "profile door") then
           if eq_str uom (text "SFT")
           then add_on_cost + 150 * length * height * quantity
           else add_on_cost
         else if str_eqb add_on (text "lights") then
           if eq_str uom (text "SFT")
           then add_on_cost + 250 * length * height * quantity
           else add_on_cost
         else add_on_cost)
  end.

(** Line 81: the names of a legacy string, trimmed and lower-cased. *)
Definition legacy_names (s : pystr) : list pystr :=
  map (fun x => lower (strip x)) (split 44 s).

(** Lines 55 to 93: the add-on cost, from a mapping or else from a
    non-empty legacy string.  The cost starts as the int 0, which adds as
    the float 0.0. *)
Definition add_on_total (item : dict) (uom : pyval)
  (length height quantity : float) : result float :=
  match dget (text "add_ons") item with
  | Some (VDict add_ons) => add_on_loop uom length height quantity add_ons 0
  | Some (VStr s) =>
      if truthy (VStr s)
      then Ok (legacy_loop uom length height quantity (legacy_names s) 0)
      else Ok 0
  | _ => Ok 0
  end.

Definition calculate_item_amount (item : dict) : result float :=
  let uom := get_default item (text "uom") (VStr (text "NOS")) in
  length <- float_field item (text "length") ;;
  height <- float_field item (text "height") ;;
  quantity <- float_field item (text "quantity") ;;
  rate <- float_field item (text "rate") ;;
  let base := base_amount uom length height quantity rate in
  total_amount <- material_total item uom length height quantity base ;;
  add_on_cost <- add_on_total item uom length height quantity ;;
  Ok (total_amount + add_on_cost).

(* ------------------------------------------------------------------ *)
(** *** [calculate_room_totals] *)

(** A total: an int as long as only ints and bools were added, a float
    from the first float on. *)
Inductive num : Type :=
| NInt (z : Z)
| NFloat (f : float).

(** [total + amount] (the [+=] of line 111). *)
Definition py_add (total : num) (amount : pyval) : result num :=
  match total, amount with
  | NInt c, VBool b => Ok (NInt (c + (if b then 1 else 0)))
  | NInt c, VInt z => Ok (NInt (c + z))
  | NInt c, VFloat f =>
      match float_of_int c with
      | Some x => Ok (NFloat (x + f))
      | None => Raise OverflowError
      end
  | NFloat x, VBool b => Ok (NFloat (x + (if b then 1 else 0)))
  | NFloat x, VInt z =>
      match float_of_int z with
      | Some y => Ok (NFloat (x + y))
      | None => Raise OverflowError
      end
  | NFloat x, VFloat f => Ok (NFloat (x + f))
  | _, _ => Raise TypeError
  end.

(** What a dict key is compared by: [None], a string, or the exact value
    of a number, [m * 2^e] with [m] odd or zero, whether it is held as a
    bool, an int or a float. *)
Inductive key : Type :=
| KNone
| KStr (s : pystr)
| KNum (m e : Z)
| KInf (negative : bool)
| KNan.

Fixpoint odd_part (p : positive) : positive * Z :=
  match p with
  | xO p' => let '(m, e) := odd_part p' in (m, (e + 1)%Z)
  | _ => (p, 0%Z)
  end.

Definition key_of_int (z : Z) : key :=
  match z with
  | Z0 => KNum 0 0
  | Zpos p => let '(m, e) := odd_part p in KNum (Zpos m) e
  | Zneg p => let '(m, e) := odd_part p in KNum (Zneg m) e
  end.

Definition key_of_float (f : float) : key :=
  match Prim2SF f with
  | S754_zero _ => KNum 0 0
  | S754_infinity s => KInf s
  | S754_nan => KNan
  | S754_finite s m e =>
      let '(m', k) := odd_part m in
      KNum (if s then Zneg m' else Zpos m') (e + k)
  end.

(** The key of a hashable value; a dict is not hashable.  A nan is found
    again as a key only as the same object: all nan keys are read here as
    the one object, which is how [json.loads] yields them. *)
Definition key_of (v : pyval) : option key :=
  match v with
  | VNone => Some KNone
  | VBool b => Some (key_of_int (if b then 1 else 0))
  | VInt z => Some (key_of_int z)
  | VFloat f => Some (key_of_float f)
  | VStr s => Some (KStr s)
  | VDict _ => None
  end.

Definition key_beq (a b : key) : bool :=
  match a, b with
  | KNone, KNone => true
  | KStr s, KStr t => str_eqb s t
  | KNum m e, KNum m' e' => (m =? m')%Z && (e =? e')%Z
  | KInf s, KInf s' => Bool.eqb s s'
  | KNan, KNan => true
  | _, _ => false
  end.

Definition hashable (v : pyval) : bool :=
  match key_of v with
  | Some _ => true
  | None => false
  end.

(** Equality of two values as dict keys. *)
Definition key_eqb (a b : pyval) : bool :=
  match key_of a, key_of b with
  | Some x, Some y => key_beq x y
  | _, _ => false
  end.

(** A mapping built by the aggregation: keys are hashable values, in
    insertion order. *)
Definition totals : Type := list (pyval * num).

Fixpoint totals_get (k : pyval) (m : totals) : option num :=
  match m with
  | [] => None
  | (k', v) :: m' => if key_eqb k k' then Some v else totals_get k m'
  end.

(** [m[k] = 0] for a key that is not in [m]. *)
Definition totals_init (k : pyval) (m : totals) : totals :=
  (m ++ [(k, NInt 0)])%list.

(** [m[k] += amount]: [KeyError] for a key that is not in [m]. *)
Fixpoint totals_add (k amount : pyval) (m : totals) : result totals :=
  match m with
  | [] => Raise KeyError
  | (k', v) :: m' =>
      if key_eqb k k' then
        v' <- py_add v amount ;; Ok ((k', v') :: m')
      else
        m'' <- totals_add k amount m' ;; Ok ((k', v) :: m'')
  end.

(** Lines 108 to 111: [if room not in m: m[room] = 0] and then
    [m[room] += amount]. *)
Definition accumulate (room amount : pyval) (m : totals) : result totals :=
  if hashable room then
    totals_add room amount
      (match totals_get room m with
       | Some _ => m
       | None => totals_init room m
       end)
  else Raise TypeError.

Fixpoint room_loop (line_items : list dict) (room_totals : totals)
  : result totals :=
  match line_items with
  | [] => Ok room_totals
  | item :: rest =>
      room <- getitem item (text "room") ;;
      amount <- getitem item (text "amount") ;;
      room_totals' <- accumulate room amount room_totals ;;
      room_loop rest room_totals'
  end.

Definition calculate_room_totals (line_items : list dict) : result totals :=
  room_loop line_items [].

(* ------------------------------------------------------------------ *)
(** *** Subtotal, GST, discount and grand total *)

(** [n / 100] for an int: the double nearest to the quotient, ties to
    even; [None] stands for [OverflowError]. *)
Definition int_over_100 (z : Z) : option float :=
  let x := round_decimal (z <? 0)%Z (Z.abs z) (-2) in
  if is_infinity x then None else Some x.

(** [v / 100]: an int or a bool divides as an int, a float as a float,
    nothing else divides. *)
Definition over_100 (v : pyval) : result float :=
  match v with
  | VBool b =>
      match int_over_100 (if b then 1 else 0) with
      | Some x => Ok x
      | None => Raise OverflowError
      end
  | VInt z =>
      match int_over_100 z with
      | Some x => Ok x
      | None => Raise OverflowError
      end
  | VFloat f => Ok (f / 100)%float
  | _ => Raise TypeError
  end.

(** A total next to a float in a product, a sum or a difference: an int
    is converted to a float first. *)
Definition num_to_float (s : num) : result float :=
  match s with
  | NInt z =>
      match float_of_int z with
      | Some x => Ok x
      | None => Raise OverflowError
      end
  | NFloat f => Ok f
  end.

Section Sum.

(** The builtin [sum] over the values of the room totals.  Which
    additions it makes on floats is the interpreter's matter, so it is
    left open here. *)
Variable sum : list num -> result num.

Definition calculate_subtotal (room_totals : totals) : result num :=
  sum (map snd room_totals).

End Sum.

Definition calculate_gst (subtotal : num) (gst_percent : pyval)
  : result float :=
  x <- over_100 gst_percent ;;
  s <- num_to_float subtotal ;;
  Ok (s * x)%float.

Definition calculate_discount (subtotal : num) (discount_percent : pyval)
  : result float :=
  x <- over_100 discount_percent ;;
  s <- num_to_float subtotal ;;
  Ok (s * x)%float.

Definition calculate_grand_total (subtotal : num)
  (gst_amount discount_amount : float) : result float :=
  s <- num_to_float subtotal ;;
  Ok (s + gst_amount - discount_amount)%float.

(** [sum] when it adds from the int 0, left to right. *)
Fixpoint sum_from (total : num) (values : list num) : result num :=
  match values with
  | [] => Ok total
  | NInt z :: rest => total' <- py_add total (VInt z) ;; sum_from total' rest
  | NFloat f :: rest =>
      total' <- py_add total (VFloat f) ;; sum_from total' rest
  end.

Definition sum_in_order (values : list num) : result num :=
  sum_from (NInt 0) values.

(* ------------------------------------------------------------------ *)
(** *** [parse_price_mapping] *)

Definition price_map : Type := list (pystr * float).

Fixpoint price_get (k : pystr) (m : price_map) : option float :=
  match m with
  | [] => None
  | (k', v) :: m' => if str_eqb k k' then Some v else price_get k m'
  end.

(** [m[k] = v]. *)
Fixpoint price_set (k : pystr) (v : float) (m : price_map) : price_map :=
  match m with
  | [] => [(k, v)]
  | (k', v') :: m' =>
      if str_eqb k k' then (k', v) :: m'
      else (k', v') :: price_set k v m'
  end.

(** Lines 155 to 165: the loop over the comma-separated pairs. *)
Fixpoint parse_pairs (pairs : list pystr) (prices : price_map)
  : price_map :=
  match pairs with
  | [] => prices
  | segment :: rest =>
      match split_first 58 segment with
      | Some (name, price_str) =>
          let name := strip name in
          match float_of_string (strip price_str) with
          | Some price => parse_pairs rest (price_set name price prices)
          | None => parse_pairs rest prices
          end
      | None => parse_pairs rest prices
      end
  end.

Definition parse_price_mapping (price_string : pyval) : result price_map :=
  if negb (truthy price_string) then Ok []
  else
    match price_string with
    | VStr s => Ok (parse_pairs (split 44 s) [])
    | _ => Raise AttributeError
    end.

End Ieee.

(* ================================================================== *)
(** ** The calculation controller in doubles *)

Module IeeeController.

Import Ieee.

#[local] Notation "x <- c1 ;; c2" := (bind c1 (fun x => c2))
  (at level 61, c1 at next level, right associativity).

(** The project model as the controller reads it: [get_line_items()]
    and [get_settings()] return copies of these. *)
Record project : Type := {
  line_items : list dict;
  settings : dict
}.

Section Sum.

Variable sum : list num -> result num.

Definition calculate_room_totals (p : project) : result totals :=
  Ieee.calculate_room_totals (line_items p).

Definition calculate_subtotal (p : project) : result num :=
  room_totals <- calculate_room_totals p ;;
  Ieee.calculate_subtotal sum room_totals.

Definition calculate_gst (p : project) : result float :=
  subtotal <- calculate_subtotal p ;;
  let gst_percent := get_default (settings p) (text "gst") (VInt 18) in
  Ieee.calculate_gst subtotal gst_percent.

Definition calculate_discount (p : project) : result float :=
  subtotal <- calculate_subtotal p ;;
  let discount_percent :=
    get_default (settings p) (text "discount") (VInt 0) in
  Ieee.calculate_discount subtotal discount_percent.

Definition calculate_grand_total (p : project) : result float :=
  subtotal <- calculate_subtotal p ;;
  gst_amount <- calculate_gst p ;;
  discount_amount <- calculate_discount p ;;
  Ieee.calculate_grand_total subtotal gst_amount discount_amount.

End Sum.

End IeeeController.

(* ================================================================== *)
(** ** Shapes of records in doubles and the quantities the properties
       speak of *)

Module IeeeShape.

Import Ieee.

#[local] Open Scope float_scope.

(** The float a bool, an int or a float multiplies as; an int beyond the
    double range has none. *)
Definition number_of (v : pyval) : option float :=
  match v with
  | VBool b => Some (if b then 1 else 0)
  | VInt z => float_of_int z
  | VFloat f => Some f
  | _ => None
  end.

(** A value [float(v or 0)] reads: anything false (read as 0.0), a bool,
    a float, an int within the double range, or a string [float]
    accepts. *)
Definition readable (v : pyval) : bool :=
  negb (truthy v) ||
  match v with
  | VBool _ | VFloat _ => true
  | VInt z => match float_of_int z with Some _ => true | None => false end
  | VStr s => match float_of_string s with Some _ => true | None => false end
  | _ => false
  end.

(** The field [k] is absent or holds a readable value. *)
Definition numeric_field (item : dict) (k : pystr) : bool :=
  match dget k item with
  | None => true
  | Some v => readable v
  end.

(** The material block, when present, is a dict; its selection, when
    there is one, is a string; and its price additions are then a dict
    holding a number for the selection if it holds anything. *)
Definition material_shaped (item : dict) : bool :=
  match dget (text "material") item with
  | None => true
  | Some (VDict material) =>
      if truthy (get_default material (text "selected") VNone) then
        match get_default material (text "selected") VNone,
              get_default material (text "price_additions") (VDict []) with
        | VStr s, VDict d =>
            match dget s d with
            | Some p => match number_of p with Some _ => true | None => false end
            | None => true
            end
        | _, _ => false
        end
      else true
  | Some _ => false
  end.

Definition add_on_shaped (info : pyval) : bool :=
  match info with
  | VDict i =>
      negb (truthy (get_default i (text "selected") (VBool false)))
      || numeric_field i (text "rate_per_unit")
  | _ => false
  end.

(** The add-ons, when a mapping, map every name to a dict whose rate is
    readable if it is selected. *)
Definition add_ons_shaped (item : dict) : bool :=
  match dget (text "add_ons") item with
  | Some (VDict add_ons) => forallb (fun kv => add_on_shaped (snd kv)) add_ons
  | _ => true
  end.

(** A LineItem-shaped record. *)
Definition line_item_shaped (item : dict) : bool :=
  numeric_field item (text "length") && numeric_field item (text "height")
  && numeric_field item (text "quantity") && numeric_field item (text "rate")
  && material_shaped item && add_ons_shaped item.

Definition unselected (info : pyval) : bool :=
  match info with
  | VDict i => negb (truthy (get_default i (text "selected") (VBool false)))
  | _ => false
  end.

(** No add-on is chosen: no [add_ons] key, a mapping with nothing
    selected, or an empty legacy string. *)
Definition no_add_ons (item : dict) : bool :=
  match dget (text "add_ons") item with
  | None => true
  | Some (VDict add_ons) => forallb (fun kv => unselected (snd kv)) add_ons
  | Some (VStr s) => match s with [] => true | _ :: _ => false end
  | Some _ => false
  end.

(** The unit of measure the calculator reads from an item. *)
Definition uom_of (item : dict) : pyval :=
  get_default item (text "uom") (VStr (text "NOS")).

(** The float the calculator reads from a numeric field. *)
Definition field (item : dict) (k : pystr) : float :=
  match float_field item k with
  | Ok x => x
  | Raise _ => 0
  end.

(** A per-unit surcharge [p] scaled by unit of measure, in the order the
    code multiplies (lines 44 to 49 and 69 to 77). *)
Definition surcharge (uom : pyval) (p l h q : float) : float :=
  if eq_str uom (text "SFT") then ((p * l) * h) * q
  else if eq_str uom (text "RFT") then (p * l) * q
  else p * q.

(** The base amount, in the order the code multiplies (lines 19 to 31). *)
Definition base_of (uom : pyval) (l h q r : float) : float :=
  if eq_str uom (text "SFT") then ((l * h) * q) * r
  else if eq_str uom (text "RFT") then (l * q) * r
  else q * r.

(** What line 52 adds to the base amount: nothing when no material is
    selected, 0 for a selection without a price, and the scaled surcharge
    of the selection otherwise. *)
Definition material_addition (item : dict) (uom : pyval) (l h q : float)
  : option float :=
  match dget (text "material") item with
  | Some (VDict material) =>
      if truthy (get_default material (text "selected") VNone) then
        Some
          match get_default material (text "selected") VNone,
                get_default material (text "price_additions") (VDict []) with
          | VStr s, VDict d =>
              match dget s d with
              | Some price =>
                  match number_of price with
                  | Some p => surcharge uom p l h q
                  | None => 0
                  end
              | None => 0
              end
          | _, _ => 0
          end
      else None
  | _ => None
  end.

Definition with_material (base : float) (addition : option float) : float :=
  match addition with
  | Some m => base + m
  | None => base
  end.

(** The cost of the selected entries of an add-on mapping, added in the
    order of the mapping to the cost so far. *)
Fixpoint mapping_cost (uom : pyval) (l h q : float) (add_ons : dict)
  (cost : float) : float :=
  match add_ons with
  | [] => cost
  | (_, VDict info) :: rest =>
      mapping_cost uom l h q rest
        (if truthy (get_default info (text "selected") (VBool false))
         then cost + surcharge uom (field info (text "rate_per_unit")) l h q
         else cost)
  | _ :: rest => mapping_cost uom l h q rest cost
  end.

(** A segment of a legacy string reads as a name: trimmed and in lower
    case it is that name. *)
Definition reads (segment name : pystr) : bool :=
  str_eqb (lower (strip segment)) name.

(** The per-SFT rate of a segment of a legacy string. *)
Definition legacy_charge (segment : pystr) : option float :=
  if reads segment (text "profile door") then Some 150
  else if reads segment (text "lights") then Some 250
  else None.

(** The cost of the segments of a legacy string under SFT, added from
    left to right to the cost so far. *)
Fixpoint legacy_sum (l h q : float) (segments : list pystr) (cost : float)
  : float :=
  match segments with
  | [] => cost
  | segment :: rest =>
      legacy_sum l h q rest
        match legacy_charge segment with
        | Some r => cost + ((r * l) * h) * q
        | None => cost
        end
  end.

(** The segments joined by a separator. *)
Fixpoint join (sep : N) (segments : list pystr) : pystr :=
  match segments with
  | [] => []
  | [s] => s
  | s :: rest => (s ++ sep :: join sep rest)%list
  end.

(** The add-on cost of lines 55 to 93. *)
Definition add_on_cost (item : dict) (uom : pyval) (l h q : float) : float :=
  match dget (text "add_ons") item with
  | Some (VDict add_ons) => mapping_cost uom l h q add_ons 0
  | Some (VStr s) =>
      match s with
      | [] => 0
      | _ :: _ =>
          if eq_str uom (text "SFT") then legacy_sum l h q (split 44 s) 0
          else 0
      end
  | _ => 0
  end.

(** The numeric fields in the order the calculator reads them. *)
Definition numeric_fields : list pystr :=
  [text "length"; text "height"; text "quantity"; text "rate"].

(** Classes of floats by their IEEE form. *)
Definition zero_or_nan (x : float) : Prop :=
  match Prim2SF x with
  | S754_zero _ | S754_nan => True
  | _ => False
  end.

Definition plus_zero_or_nan (x : float) : Prop :=
  match Prim2SF x with
  | S754_zero false | S754_nan => True
  | _ => False
  end.

Definition is_a_zero (x : float) : Prop :=
  match Prim2SF x with
  | S754_zero _ => True
  | _ => False
  end.

Definition is_plus_zero (x : float) : Prop :=
  match Prim2SF x with
  | S754_zero false => True
  | _ => False
  end.

Definition finite (x : float) : Prop :=
  match Prim2SF x with
  | S754_zero _ | S754_finite _ _ _ => True
  | _ => False
  end.

Definition same_sf (x y : float) : Prop :=
  x = y \/ (is_a_zero x /\ is_a_zero y).

(** The product a quantity is multiplied with is finite: the scaled
    per-unit value [v] of a surcharge or of an add-on rate. *)
Definition scale_finite (uom : pyval) (v l h : float) : bool :=
  if eq_str uom (text "SFT") then is_finite ((v * l) * h)
  else if eq_str uom (text "RFT") then is_finite (v * l)
  else is_finite v.

(** The rate and the dimensions the quantity is multiplied with for the
    base amount are finite. *)
Definition base_finite (uom : pyval) (l h r : float) : bool :=
  is_finite r
  && (if eq_str uom (text "SFT") then is_finite (l * h)
      else if eq_str uom (text "RFT") then is_finite l
      else true).

Definition material_finite (item : dict) (uom : pyval) (l h : float) : bool :=
  match dget (text "material") item with
  | Some (VDict material) =>
      match get_default material (text "selected") VNone,
            get_default material (text "price_additions") (VDict []) with
      | VStr s, VDict d =>
          match dget s d with
          | Some price =>
              match number_of price with
              | Some p => scale_finite uom p l h
              | None => true
              end
          | None => true
          end
      | _, _ => true
      end
  | _ => true
  end.

Definition add_on_finite (uom : pyval) (l h : float) (info : pyval) : bool :=
  match info with
  | VDict i =>
      negb (truthy (get_default i (text "selected") (VBool false)))
      || scale_finite uom (field i (text "rate_per_unit")) l h
  | _ => true
  end.

Definition add_ons_finite (item : dict) (uom : pyval) (l h : float) : bool :=
  match dget (text "add_ons") item with
  | Some (VDict add_ons) =>
      forallb (fun kv => add_on_finite uom l h (snd kv)) add_ons
  | Some (VStr _) => scale_finite uom 150 l h && scale_finite uom 250 l h
  | _ => true
  end.

(** Every product the code multiplies with the quantity is finite. *)
Definition products_finite (item : dict) : bool :=
  let uom := uom_of item in
  let l := field item (text "length") in
  let h := field item (text "height") in
  base_finite uom l h (field item (text "rate"))
  && material_finite item uom l h
  && add_ons_finite item uom l h.

(** An item of the aggregation has both keys the loop subscripts. *)
Definition complete (item : dict) : bool :=
  match dget (text "room") item, dget (text "amount") item with
  | Some _, Some _ => true
  | _, _ => false
  end.

(** The item is of room [k]. *)
Definition of_room (k : pyval) (item : dict) : bool :=
  match dget (text "room") item with
  | Some room => key_eqb k room
  | None => false
  end.

(** Some item of the list is of room [k]. *)
Definition has_room (k : pyval) (line_items : list dict) : bool :=
  existsb (of_room k) line_items.

(** The amount is an int or a bool: its sums are exact. *)
Definition exact_amount (item : dict) : bool :=
  match dget (text "amount") item with
  | Some (VInt _ | VBool _) => true
  | _ => false
  end.

(** The amount is a float. *)
Definition float_amount (item : dict) : bool :=
  match dget (text "amount") item with
  | Some (VFloat _) => true
  | _ => false
  end.

(** The int an exact amount stands for. *)
Definition int_of (item : dict) : Z :=
  match dget (text "amount") item with
  | Some (VInt z) => z
  | Some (VBool true) => 1
  | _ => 0
  end.

(** The exact sum of the amounts of the items of room [k]. *)
Fixpoint room_sum (k : pyval) (line_items : list dict) : Z :=
  match line_items with
  | [] => 0
  | item :: rest =>
      ((if of_room k item then int_of item else 0) + room_sum k rest)%Z
  end.

(** Every total a lookup finds is an int. *)
Definition all_ints (m : totals) : Prop :=
  forall k t, totals_get k m = Some t -> exists z, t = NInt z.

(** Every total a lookup finds is a float. *)
Definition all_floats (m : totals) : Prop :=
  forall k t, totals_get k m = Some t -> exists f, t = NFloat f.

(** The item has a hashable room. *)
Definition keyed (item : dict) : bool :=
  match dget (text "room") item with
  | Some room => hashable room
  | None => false
  end.

(** The float of a float amount. *)
Definition float_of (item : dict) : float :=
  match dget (text "amount") item with
  | Some (VFloat f) => f
  | _ => 0
  end.

(** The amounts of the items of room [k] added in list order to [total],
    as doubles. *)
Fixpoint float_sum (k : pyval) (line_items : list dict) (total : float)
  : float :=
  match line_items with
  | [] => total
  | item :: rest =>
      float_sum k rest
        (if of_room k item then total + float_of item else total)
  end.

(** The total the item of a room is added to. *)
Definition total_before (room : pyval) (m : totals) : num :=
  match totals_get room m with
  | Some t => t
  | None => NInt 0
  end.

Definition int_before (k : pyval) (m : totals) : Z :=
  match totals_get k m with
  | Some (NInt z) => z
  | _ => 0%Z
  end.

Definition float_before (k : pyval) (m : totals) : float :=
  match totals_get k m with
  | Some (NFloat f) => f
  | _ => 0
  end.

(** The name and the price of a segment that is a well-formed
    [name:number] pair: a colon, and after the first colon a text [float]
    accepts. *)
Definition segment_pair (segment : pystr) : option (pystr * float) :=
  match split_first 58 segment with
  | Some (name, price_str) =>
      match float_of_string (strip price_str) with
      | Some price => Some (strip name, price)
      | None => None
      end
  | None => None
  end.

(** The price of the last well-formed segment named [name]. *)
Fixpoint last_price (name : pystr) (segments : list pystr) : option float :=
  match segments with
  | [] => None
  | segment :: rest =>
      match last_price name rest with
      | Some p => Some p
      | None =>
          match segment_pair segment with
          | Some (k, p) => if str_eqb name k then Some p else None
          | None => None
          end
      end
  end.

(** A string has no whitespace at either end. *)
Definition trimmed (s : pystr) : Prop :=
  match s with
  | [] => True
  | c :: _ => is_space c = false /\ is_space (last s c) = false
  end.

(** The exact sum of the amounts of all the items. *)
Fixpoint amounts_sum (line_items : list dict) : Z :=
  match line_items with
  | [] => 0
  | item :: rest => (int_of item + amounts_sum rest)%Z
  end.

(** Every total of the mapping is an int. *)
Definition whole_totals (m : totals) : bool :=
  forallb (fun kv => match snd kv with NInt _ => true | NFloat _ => false end)
    m.

(** The exact sum of the int totals of the mapping. *)
Fixpoint totals_sum (m : totals) : Z :=
  match m with
  | [] => 0
  | (_, NInt z) :: rest => (z + totals_sum rest)%Z
  | (_, NFloat _) :: rest => totals_sum rest
  end.

(** The float amounts of the items added in list order to [total]. *)
Fixpoint amounts_in_order (line_items : list dict) (total : float) : float :=
  match line_items with
  | [] => total
  | item :: rest => amounts_in_order rest (total + float_of item)
  end.

(** A float is not negative in its IEEE form: a zero, a nan, or a finite
    or infinite number whose sign is clear. *)
Definition sign_clear (x : float) : Prop :=
  match Prim2SF x with
  | S754_zero _ | S754_nan => True
  | S754_infinity s | S754_finite s _ _ => s = false
  end.

Definition price_not_negative (item : dict) : bool :=
  match dget (text "material") item with
  | Some (VDict material) =>
      match get_default material (text "selected") VNone,
            get_default material (text "price_additions") (VDict []) with
      | VStr s, VDict d =>
          match dget s d with
          | Some price =>
              match number_of price with
              | Some p => 0 <=? p
              | None => true
              end
          | None => true
          end
      | _, _ => true
      end
  | _ => true
  end.

Definition rate_not_negative (info : pyval) : bool :=
  match info with
  | VDict i =>
      negb (truthy (get_default i (text "selected") (VBool false)))
      || (0 <=? field i (text "rate_per_unit"))
  | _ => true
  end.

Definition rates_not_negative (item : dict) : bool :=
  match dget (text "add_ons") item with
  | Some (VDict add_ons) =>
      forallb (fun kv => rate_not_negative (snd kv)) add_ons
  | _ => true
  end.

(** Every number the calculator reads from the record is at least 0:
    the four fields, the surcharge of the selected material and the rate
    of every selected add-on. *)
Definition inputs_not_negative (item : dict) : bool :=
  (0 <=? field item (text "length")) && (0 <=? field item (text "height"))
  && (0 <=? field item (text "quantity")) && (0 <=? field item (text "rate"))
  && price_not_negative item && rates_not_negative item.

(** Two floats are the same number: they compare equal, as [0.0] and
    [-0.0] do, or both are nan. *)
Definition same_number (x y : float) : Prop :=
  (x =? y) = true \/ (is_nan x = true /\ is_nan y = true).

End IeeeShape.

(* ================================================================== *)
(** ** Sample records in doubles *)

Module IeeeSamples.

Import Ieee IeeeShape.

#[local] Open Scope float_scope.

Set Warnings "-inexact-float".

(** A partly filled form: a length and a quantity typed as text, an empty
    height, no rate yet but a material chosen. *)
Definition partly_filled : dict :=
  [(text "uom", VStr (text "RFT"));
   (text "length", VStr (text " 12.5 "));
   (text "height", VStr []);
   (text "quantity", VStr (text "2"));
   (text "rate", VNone);
   (text "material",
    VDict [(text "selected", VStr (text "Veneer"));
           (text "price_additions", VDict [(text "Veneer", VInt 500)])])].

(** A quantity that is not a numeral. *)
Definition abc_quantity : dict :=
  [(text "uom", VStr (text "NOS"));
   (text "quantity", VStr (text "abc"));
   (text "rate", VInt 150)].

(** A selected add-on whose rate is not a numeral. *)
Definition abc_add_on_rate : dict :=
  [(text "uom", VStr (text "NOS"));
   (text "quantity", VInt 2);
   (text "rate", VInt 150);
   (text "add_ons",
    VDict [(text "Lights",
            VDict [(text "selected", VBool true);
                   (text "rate_per_unit", VStr (text "abc"))])])].

(** NOS, quantity 1, rate 0.3, the material V selected at a surcharge of
    0.2 and one selected add-on at 0.1. *)
Definition tenths_item : dict :=
  [(text "uom", VStr (text "NOS"));
   (text "quantity", VInt 1);
   (text "rate", VFloat 0.3);
   (text "material",
    VDict [(text "selected", VStr (text "V"));
           (text "price_additions", VDict [(text "V", VFloat 0.2)])]);
   (text "add_ons",
    VDict [(text "Lights",
            VDict [(text "selected", VBool true);
                   (text "rate_per_unit", VFloat 0.1)])])].

(** SFT 10 x 8 at rate 150 with Veneer selected at 500 and no add-on. *)
Definition veneer_item : dict :=
  [(text "uom", VStr (text "SFT"));
   (text "length", VInt 10); (text "height", VInt 8);
   (text "quantity", VInt 1); (text "rate", VInt 150);
   (text "material",
    VDict [(text "selected", VStr (text "Veneer"));
           (text "price_additions",
            VDict [(text "Laminate", VInt 0); (text "Veneer", VInt 500)])])].

(** SFT 2 x 3 at rate 100 with a legacy string. *)
Definition legacy_item (add_ons : pystr) : dict :=
  [(text "uom", VStr (text "SFT"));
   (text "length", VInt 2); (text "height", VInt 3);
   (text "quantity", VInt 1); (text "rate", VInt 100);
   (text "add_ons", VStr add_ons)].



(** SFT with length and height 1e200 and quantity 0. *)
Definition huge_item : dict :=
  [(text "uom", VStr (text "SFT"));
   (text "length", VFloat 1e200); (text "height", VFloat 1e200);
   (text "quantity", VInt 0); (text "rate", VInt 150)].

(** Quantity 0 and a rate that is not a numeral. *)
Definition abc_rate : dict :=
  [(text "quantity", VInt 0); (text "rate", VStr (text "abc"))].

(** Quantity 0 with a material and two add-ons selected. *)
Definition zero_quantity_item : dict :=
  [(text "uom", VStr (text "SFT"));
   (text "length", VFloat 10.5); (text "height", VStr (text "8"));
   (text "quantity", VInt 0); (text "rate", VInt 150);
   (text "material",
    VDict [(text "selected", VStr (text "Veneer"));
           (text "price_additions", VDict [(text "Veneer", VInt 500)])]);
   (text "add_ons",
    VDict [(text "Lights",
            VDict [(text "selected", VBool true);
                   (text "rate_per_unit", VFloat 250)]);
           (text "Handles",
            VDict [(text "selected", VBool true);
                   (text "rate_per_unit", VStr (text "75.5"))])])].

Definition hall_amount (amount : pyval) : dict :=
  [(text "room", VStr (text "Hall")); (text "amount", amount)].

Definition kitchen_amount (amount : pyval) : dict :=
  [(text "room", VStr (text "Kitchen")); (text "amount", amount)].

(** Three amounts of one room, and the same in another order. *)
Definition tenths : list dict :=
  [hall_amount (VFloat 0.1); hall_amount (VFloat 0.2);
   hall_amount (VFloat 0.3)].

Definition tenths_reordered : list dict :=
  [hall_amount (VFloat 0.3); hall_amount (VFloat 0.2);
   hall_amount (VFloat 0.1)].

(** Whole amounts of two rooms, and the same in another order. *)
Definition whole_amounts : list dict :=
  [hall_amount (VInt 1000); kitchen_amount (VInt 2000);
   hall_amount (VInt 500)].

Definition whole_amounts_reordered : list dict :=
  [hall_amount (VInt 500); hall_amount (VInt 1000);
   kitchen_amount (VInt 2000)].

(** An amount that is [None], before an item that lacks its amount. *)
Definition none_then_incomplete : list dict :=
  [hall_amount VNone; [(text "room", VStr (text "Hall"))]].

(** SFT 10.6 x 6.5, quantity 4, rate 688, with Veneer selected at 200
    and two add-ons selected. *)
Definition fitted_item : dict :=
  [(text "uom", VStr (text "SFT"));
   (text "length", VFloat 10.6); (text "height", VFloat 6.5);
   (text "quantity", VInt 4); (text "rate", VInt 688);
   (text "material",
    VDict [(text "selected", VStr (text "Veneer"));
           (text "price_additions", VDict [(text "Veneer", VInt 200)])]);
   (text "add_ons",
    VDict [(text "Lights",
            VDict [(text "selected", VBool true);
                   (text "rate_per_unit", VFloat 0.1)]);
           (text "Handles",
            VDict [(text "selected", VBool false);
                   (text "rate_per_unit", VInt 75)]);
           (text "Profile Door",
            VDict [(text "selected", VBool true);
                   (text "rate_per_unit", VStr (text "0.2"))])])].

(** A setback of a size that overflows the doubles. *)
Definition overflowing_item : dict :=
  [(text "uom", VStr (text "SFT"));
   (text "length", VFloat 1e200); (text "height", VFloat 1e200);
   (text "quantity", VInt 2); (text "rate", VInt 0)].

(** A project of one room and one item of 1234.56, with the GST left
    at its default. *)
Definition one_item_project : IeeeController.project :=
  {| IeeeController.line_items := [hall_amount (VFloat 1234.56)];
     IeeeController.settings := [(text "discount", VInt 0)] |}.

(** A project of two rooms with whole amounts, a GST of 28 and a
    discount of 12.5 percent. *)
Definition two_room_project : IeeeController.project :=
  {| IeeeController.line_items :=
       [hall_amount (VInt 12000); kitchen_amount (VInt 3200);
        hall_amount (VInt 100)];
     IeeeController.settings :=
       [(text "gst", VInt 28); (text "discount", VFloat 12.5)] |}.

(** The same rooms with the GST typed as text. *)
Definition text_gst_project : IeeeController.project :=
  {| IeeeController.line_items := [hall_amount (VInt 12000)];
     IeeeController.settings := [(text "gst", VStr (text "18"))] |}.

(** Float amounts of two rooms, the rooms interleaved. *)
Definition interleaved_rooms : list dict :=
  [hall_amount (VFloat 0.2); kitchen_amount (VFloat 0.1);
   kitchen_amount (VFloat 149.99); hall_amount (VFloat 250.5)].

End IeeeSamples.

(* ================================================================== *)
(** ** Properties *)

Import Py Calculator Shape Samples AddOns Sums MoreSamples.

#[local] Open Scope string_scope.
#[local] Open Scope Q_scope.

(** The scenarios of the specification. *)
Example scenario_sft :
  calculate_item_amount
    [("uom", VStr "SFT"); ("length", VNum 10); ("height", VNum 8);
     ("quantity", VNum 1); ("rate", VNum 150)] = Ok 12000.
Proof. vm_compute. reflexivity. Qed.

Example scenario_rft :
  calculate_item_amount
    [("uom", VStr "RFT"); ("length", VNum 20); ("quantity", VNum 2);
     ("rate", VNum 80)] = Ok 3200.
Proof. vm_compute. reflexivity. Qed.

Example scenario_material_defaults :
  get_material_options_from_rate_card
    [("material_options", VStr "Laminate, Veneer, PU")]
  = Ok {| options := ["Laminate"; "Veneer"; "PU"];
          base_material := Some "Laminate";
          price_additions := [("Laminate", 0); ("Veneer", 500); ("PU", 800)] |}.
Proof. vm_compute. reflexivity. Qed.

Example scenario_totals :
  calculate_room_totals
    [[("room", VStr "Hall"); ("amount", VNum 1000)];
     [("room", VStr "Hall"); ("amount", VNum 500)];
     [("room", VStr "Kitchen"); ("amount", VNum 2000)]]
  = Ok [(VStr "Hall", 1500); (VStr "Kitchen", 2000)]
  /\ calculate_subtotal [(VStr "Hall", 1500); (VStr "Kitchen", 2000)] = 3500
  /\ calculate_gst 3500 18 == 630
  /\ calculate_discount 3500 10 == 350
  /\ calculate_grand_total 3500 630 350 = 3780.
Proof. repeat split; vm_compute; reflexivity. Qed.

(* ------------------------------------------------------------------ *)
(** *** Reading fields *)

Section Fields.

Variable item : dict.
Variable k : string.





End Fields.

(* ------------------------------------------------------------------ *)
(** *** The three phases of the amount *)














(* ------------------------------------------------------------------ *)
(** *** Base amounts *)






(* ------------------------------------------------------------------ *)
(** *** Grand total *)



(* ------------------------------------------------------------------ *)
(** *** An item without one of its keys *)



Section SameKey.

Variables a b : dict.







End SameKey.


(* ------------------------------------------------------------------ *)
(** *** Add-ons: legacy string and mapping *)

(** The legacy item above: 12000 for the base, 150 and 250 per SFT for the
    two recognised names, nothing for [handles]. *)
Example legacy_item_amount :
  calculate_item_amount legacy_item = Ok 44000
  /\ calculate_item_amount (dremove "add_ons" legacy_item) = Ok 12000.
Proof. split; vm_compute; reflexivity. Qed.

(** A mapping entry named like a legacy add-on is priced by its own rate,
    here the default 0, never by the legacy 150. *)
Example mapping_ignores_legacy_rates :
  calculate_item_amount
    [("uom", VStr "SFT"); ("length", VNum 10); ("height", VNum 8);
     ("quantity", VNum 1); ("rate", VNum 150);
     ("add_ons", VDict [("profile door", VDict [("selected", VBool true)])])]
  = Ok 12000.
Proof. vm_compute. reflexivity. Qed.

(* ------------------------------------------------------------------ *)
(** *** The base material of a rate card *)





(** C3 fails on the code: when the rate card lists its first option again,
    the loop over the later options overwrites the 0 of the base material
    (here with the default 500 of veneer), and selecting the base material
    then changes the amount (52000 against 12000 with no material). *)
Theorem C3_repeated_base_is_surcharged :
  get_material_options_from_rate_card repeated_base_card
  = Ok repeated_base_options
  /\ price_get "Veneer" (price_additions repeated_base_options) = Some 500
  /\ calculate_item_amount
       [("uom", VStr "SFT"); ("length", VNum 10); ("height", VNum 8);
        ("quantity", VNum 1); ("rate", VNum 150);
        ("material", material_block repeated_base_options (VStr "Veneer"))]
     = Ok 52000
  /\ calculate_item_amount
       [("uom", VStr "SFT"); ("length", VNum 10); ("height", VNum 8);
        ("quantity", VNum 1); ("rate", VNum 150)]
     = Ok 12000.
Proof. repeat split; vm_compute; reflexivity. Qed.

(** A price supplied for a base material that is listed once is ignored. *)
Example base_price_ignored :
  get_material_options_from_rate_card
    [("material_options", VStr "Laminate, Veneer");
     ("material_prices", VStr "Laminate:100, Veneer:450")]
  = Ok {| options := ["Laminate"; "Veneer"];
          base_material := Some "Laminate";
          price_additions := [("Laminate", 0); ("Veneer", 450)] |}.
Proof. vm_compute. reflexivity. Qed.

(* ------------------------------------------------------------------ *)
(** *** Keys and totals *)
















(* ------------------------------------------------------------------ *)
(** *** Missing keys in the aggregation *)

(** No coercion to zero in the aggregation: an amount that is [None] is a
    [TypeError], and an item without [amount] a [KeyError]. *)
Example aggregation_not_permissive :
  calculate_room_totals [[("room", VStr "Hall"); ("amount", VNone)]]
  = Raise TypeError
  /\ calculate_room_totals [[("room", VStr "Hall")]] = Raise KeyError
  /\ calculate_room_totals [[("amount", VNum 10)]] = Raise KeyError.
Proof. repeat split. Qed.

(** The breakdown by unit of measure defaults a missing [uom], yet
    subscripts [amount] all the same. *)
Example breakdown_defaults_uom_only :
  get_item_breakdown_by_type [[("amount", VNum 10)]]
  = Ok [(VStr "Unknown", 10)]
  /\ get_item_breakdown_by_type [[("uom", VStr "SFT")]] = Raise KeyError.
Proof. split; vm_compute; reflexivity. Qed.

(* ------------------------------------------------------------------ *)
(** *** Price mappings *)

Example scenario_price_mapping :
  parse_price_mapping (VStr "Lights:250,Profile Door:150")
  = Ok [("Lights", 250); ("Profile Door", 150)]
  /\ parse_price_mapping (VStr " Lights : 2.5e2 ,x:y:1, :7") 
     = Ok [("Lights", 250); ("", 7)]
  /\ segment_pair "bad" = None.
Proof. repeat split; vm_compute; reflexivity. Qed.

(* ================================================================== *)
(** ** Further properties of the calculator *)

(* ------------------------------------------------------------------ *)
(** *** Subtotals *)







(* ------------------------------------------------------------------ *)
(** *** Breakdown by unit of measure *)





(* ------------------------------------------------------------------ *)
(** *** Material options of a rate card *)








Example veneer_card_options :
  get_material_options_from_rate_card veneer_card
  = Ok {| options := ["Laminate"; "Veneer"; "PU"];
          base_material := Some "Laminate";
          price_additions := [("Laminate", 0); ("Veneer", 450); ("PU", 800)] |}.
Proof. vm_compute. reflexivity. Qed.

(* ------------------------------------------------------------------ *)
(** *** Add-ons of a rate card *)

Lemma dget_dset (k k' : string) (v : pyval) (d : dict) :
  dget k (dset k' v d) = if String.eqb k k' then Some v else dget k d.
Proof.
  induction d as [|[k0 v0] d IH]; cbn [dset dget].
  - destruct (String.eqb k k'); reflexivity.
  - destruct (String.eqb k' k0) eqn:E; cbn [dget].
    + apply String.eqb_eq in E. subst k0.
      destruct (String.eqb k k'); reflexivity.
    + rewrite IH. destruct (String.eqb k k') eqn:E2; [|reflexivity].
      apply String.eqb_eq in E2. subst k'. rewrite E. reflexivity.
Qed.


Section AddOnEntries.

Variable float_str : Q -> string.







End AddOnEntries.


Example lights_card_add_ons :
  get_add_ons_from_rate_card sample_float_str lights_card = Ok lights_add_ons
  /\ get_add_ons_from_rate_card sample_float_str [("add_ons", VStr "NONE")]
     = Ok []
  /\ get_add_ons_from_rate_card sample_float_str [("add_ons", VNum 5)]
     = Raise AttributeError.
Proof. repeat split; vm_compute; reflexivity. Qed.


(* ------------------------------------------------------------------ *)
(** *** The height of an item *)



(* ================================================================== *)
(** ** Properties of the project model *)

Import Project Rooms.

Lemma in_range_iff {A : Type} (index : Z) (l : list A) :
  in_range index l = true <->
  (0 <= index)%Z /\ (Z.to_nat index < List.length l)%nat.
Proof.
  unfold in_range. rewrite andb_true_iff, Z.leb_le, Z.ltb_lt. split.
  - intros [H0 H1]. split; [exact H0|].
    apply Nat2Z.inj_lt. rewrite Z2Nat.id; assumption.
  - intros [H0 H1]. split; [exact H0|].
    apply Nat2Z.inj_lt in H1. rewrite Z2Nat.id in H1; assumption.
Qed.

Lemma list_set_length {A : Type} (n : nat) (x : A) (l : list A) :
  List.length (list_set n x l) = List.length l.
Proof.
  revert n. induction l as [|h t IH]; intros [|n]; cbn; try reflexivity.
  now rewrite IH.
Qed.

Lemma list_set_nth_same {A : Type} (n : nat) (x d : A) (l : list A) :
  (n < List.length l)%nat -> nth n (list_set n x l) d = x.
Proof.
  revert n. induction l as [|h t IH]; intros [|n] H; cbn in *.
  - inversion H.
  - inversion H.
  - reflexivity.
  - apply IH. now apply PeanoNat.lt_S_n.
Qed.

Lemma list_set_nth_other {A : Type} (n j : nat) (x d : A) (l : list A) :
  n <> j -> nth j (list_set n x l) d = nth j l d.
Proof.
  revert n j. induction l as [|h t IH]; intros [|n] [|j] H; cbn;
    try reflexivity.
  - contradiction.
  - apply IH. intros E. apply H. now f_equal.
Qed.

Lemma list_del_length {A : Type} (n : nat) (l : list A) :
  (n < List.length l)%nat ->
  S (List.length (list_del n l)) = List.length l.
Proof.
  revert n. induction l as [|h t IH]; intros [|n] H; cbn in *.
  - inversion H.
  - inversion H.
  - reflexivity.
  - f_equal. apply IH. now apply PeanoNat.lt_S_n.
Qed.

Lemma list_del_last {A : Type} (l : list A) (x : A) :
  list_del (List.length l) (l ++ [x]) = l.
Proof.
  induction l as [|h t IH]; cbn; [reflexivity|]. now rewrite IH.
Qed.

Lemma items_not_of_filter (room_name : pyval) (items : list dict) :
  forallb has_room items = true ->
  items_not_of room_name items
  = Ok (filter (fun item => negb (room_is room_name item)) items).
Proof.
  induction items as [|item rest IH]; intros H; [reflexivity|].
  cbn [forallb] in H. apply andb_true_iff in H as [Hi Hr].
  cbn [items_not_of filter]. unfold getitem, has_room, room_is in *.
  destruct (dget "room" item) as [r|]; [|discriminate].
  cbn [bind]. rewrite (IH Hr). cbn [bind]. reflexivity.
Qed.

Lemma items_not_of_key_error (room_name : pyval) (items : list dict) :
  forallb has_room items = false ->
  items_not_of room_name items = Raise KeyError.
Proof.
  induction items as [|item rest IH]; intros H; [discriminate|].
  cbn [forallb] in H. cbn [items_not_of]. unfold getitem, has_room in *.
  destruct (dget "room" item) as [r|]; [|reflexivity].
  cbn [bind andb] in *. rewrite (IH H). reflexivity.
Qed.

Lemma items_of_filter (room : pyval) (items : list dict) :
  forallb has_room items = true ->
  items_of room items = Ok (filter (room_is room) items).
Proof.
  induction items as [|item rest IH]; intros H; [reflexivity|].
  cbn [forallb] in H. apply andb_true_iff in H as [Hi Hr].
  cbn [items_of filter]. unfold getitem, has_room, room_is in *.
  destruct (dget "room" item) as [r|]; [|discriminate].
  cbn [bind]. rewrite (IH Hr). cbn [bind]. reflexivity.
Qed.

Lemma items_of_key_error (room : pyval) (items : list dict) :
  forallb has_room items = false ->
  items_of room items = Raise KeyError.
Proof.
  induction items as [|item rest IH]; intros H; [discriminate|].
  cbn [forallb] in H. cbn [items_of]. unfold getitem, has_room in *.
  destruct (dget "room" item) as [r|]; [|reflexivity].
  cbn [bind andb] in *. rewrite (IH H). reflexivity.
Qed.

Lemma filter_none {A : Type} (f : A -> bool) (l : list A) :
  filter f (filter (fun x => negb (f x)) l) = [].
Proof.
  induction l as [|x l IH]; [reflexivity|].
  cbn [filter]. destruct (f x) eqn:E; cbn [negb filter]; [exact IH|].
  rewrite E. exact IH.
Qed.

Lemma filter_has_room (f : dict -> bool) (items : list dict) :
  forallb has_room items = true ->
  forallb has_room (filter f items) = true.
Proof.
  induction items as [|item rest IH]; intros H; [reflexivity|].
  cbn [forallb] in H. apply andb_true_iff in H as [Hi Hr].
  cbn [filter]. destruct (f item); cbn [forallb]; [rewrite Hi|]; now apply IH.
Qed.

(** Deleting a room deletes its line items with it: for an index in
    range whose room has a name, and line items that all have a room,
    [delete_room] returns [True], removes that one room, keeps, in their
    order, exactly the items whose room differs from the name, and leaves
    info and settings alone; no item of that name can be fetched
    afterwards. *)
Theorem delete_room_cascades (p : project) (index : Z) (room_name : pyval) :
  in_range index (rooms p) = true ->
  dget "name" (nth (Z.to_nat index) (rooms p) []) = Some room_name ->
  forallb has_room (line_items p) = true ->
  exists p',
    delete_room p index = (Ok true, p')
    /\ rooms p' = list_del (Z.to_nat index) (rooms p)
    /\ S (List.length (rooms p')) = List.length (rooms p)
    /\ line_items p'
       = filter (fun item => negb (room_is room_name item)) (line_items p)
    /\ project_info p' = project_info p
    /\ settings p' = settings p
    /\ (truthy room_name = true -> get_line_items p' room_name = Ok []).
Proof.
  intros Hi Hn Hr. unfold delete_room, getitem. rewrite Hi, Hn.
  rewrite (items_not_of_filter room_name _ Hr).
  eexists. split; [reflexivity|]. cbn [rooms line_items project_info settings].
  split; [reflexivity|]. split.
  - apply list_del_length. now apply in_range_iff in Hi.
  - repeat split. intros T. unfold get_line_items. rewrite T.
    cbn [line_items]. rewrite items_of_filter.
    + rewrite filter_none. reflexivity.
    + now apply filter_has_room.
Qed.

(** [delete_room] is not atomic: when a line item has no [room] key the
    call raises [KeyError] after the room has been deleted, so the room is
    gone while every line item, its own included, is still there. *)
Theorem delete_room_key_error_after_delete (p : project) (index : Z)
  (room_name : pyval) :
  in_range index (rooms p) = true ->
  dget "name" (nth (Z.to_nat index) (rooms p) []) = Some room_name ->
  forallb has_room (line_items p) = false ->
  exists p',
    delete_room p index = (Raise KeyError, p')
    /\ rooms p' = list_del (Z.to_nat index) (rooms p)
    /\ line_items p' = line_items p.
Proof.
  intros Hi Hn Hr. unfold delete_room, getitem. rewrite Hi, Hn.
  rewrite (items_not_of_key_error room_name _ Hr).
  eexists. split; [reflexivity|]. split; reflexivity.
Qed.

(** An index out of range, a negative one included, changes nothing:
    the guarded operations return [False] and leave the project as it
    is. *)
Theorem out_of_range_changes_nothing (p : project) (index : Z)
  (room item : dict) :
  (index < 0)%Z
  \/ (Z.of_nat (List.length (rooms p)) <= index)%Z
     /\ (Z.of_nat (List.length (line_items p)) <= index)%Z ->
  update_room p index room = (false, p)
  /\ delete_room p index = (Ok false, p)
  /\ update_line_item p index item = (false, p)
  /\ delete_line_item p index = (false, p).
Proof.
  intros H.
  assert (R : forall A (l : list A),
            (index < 0)%Z \/ (Z.of_nat (List.length l) <= index)%Z ->
            in_range index l = false).
  { intros A l [Hn | Hl]; unfold in_range.
    - apply andb_false_iff. left. now apply Z.leb_gt.
    - apply andb_false_iff. right. now apply Z.ltb_ge. }
  unfold update_room, delete_room, update_line_item, delete_line_item.
  rewrite (R dict (rooms p)), (R dict (line_items p)); [repeat split | |];
    destruct H as [H | [H1 H2]]; auto.
Qed.

Lemma in_range_length {A : Type} (l : list A) (x : A) :
  in_range (Z.of_nat (List.length l)) (l ++ [x]) = true.
Proof.
  apply in_range_iff. split; [apply Nat2Z.is_nonneg|].
  rewrite Nat2Z.id, length_app. cbn. rewrite PeanoNat.Nat.add_1_r.
  apply PeanoNat.Nat.lt_succ_diag_r.
Qed.

(** Adding a line item puts it last, at the index the call returns, and
    leaves the items before it in place; deleting at that index gives the
    project back. *)
Theorem add_then_delete_line_item (p : project) (item : dict) :
  let index := fst (add_line_item p item) in
  let p' := snd (add_line_item p item) in
  index = Z.of_nat (List.length (line_items p))
  /\ nth (Z.to_nat index) (line_items p') [] = item
  /\ (forall j, (j < List.length (line_items p))%nat ->
                nth j (line_items p') [] = nth j (line_items p) [])
  /\ List.length (line_items p') = S (List.length (line_items p))
  /\ delete_line_item p' index = (true, p).
Proof.
  cbn [add_line_item fst snd line_items]. split; [reflexivity|].
  split; [|split; [|split]].
  - rewrite Nat2Z.id, app_nth2, PeanoNat.Nat.sub_diag; [reflexivity|].
    apply PeanoNat.Nat.le_refl.
  - intros j Hj. now apply app_nth1.
  - rewrite length_app. cbn. apply PeanoNat.Nat.add_1_r.
  - unfold delete_line_item. cbn [line_items rooms project_info settings].
    rewrite in_range_length, Nat2Z.id, list_del_last.
    destruct p; reflexivity.
Qed.

(** Updating a line item at an index in range returns [True], puts the
    item at that index and changes no other item, nor the number of
    items, nor the rooms. *)
Theorem update_line_item_in_range (p : project) (index : Z) (item : dict) :
  in_range index (line_items p) = true ->
  exists p',
    update_line_item p index item = (true, p')
    /\ nth (Z.to_nat index) (line_items p') [] = item
    /\ (forall j, j <> Z.to_nat index ->
                  nth j (line_items p') [] = nth j (line_items p) [])
    /\ List.length (line_items p') = List.length (line_items p)
    /\ rooms p' = rooms p.
Proof.
  intros H. unfold update_line_item. rewrite H.
  eexists. split; [reflexivity|]. cbn [line_items rooms].
  apply in_range_iff in H as [_ H]. split; [|split; [|split]].
  - now apply list_set_nth_same.
  - intros j Hj. apply list_set_nth_other. intros E. apply Hj. now symmetry.
  - apply list_set_length.
  - reflexivity.
Qed.

(** [get_line_items] with a room that is true returns, in order, the
    items of that room, and raises [KeyError] if some item has no room;
    with a room that is false, such as [None] or the empty name, it
    returns every item, those without a room included. *)
Theorem get_line_items_by_room (p : project) (room : pyval) :
  (truthy room = false -> get_line_items p room = Ok (line_items p))
  /\ (truthy room = true -> forallb has_room (line_items p) = true ->
      get_line_items p room = Ok (filter (room_is room) (line_items p)))
  /\ (truthy room = true -> forallb has_room (line_items p) = false ->
      get_line_items p room = Raise KeyError).
Proof.
  unfold get_line_items. split; [|split].
  - intros T. rewrite T. reflexivity.
  - intros T H. rewrite T. now apply items_of_filter.
  - intros T H. rewrite T. now apply items_of_key_error.
Qed.

(* ------------------------------------------------------------------ *)
(** *** A room and its total *)




(* ------------------------------------------------------------------ *)
(** *** Settings *)

Lemma dget_not_in (k : string) (d : dict) :
  ~ In k (map fst d) -> dget k d = None.
Proof.
  induction d as [|[k' v] d IH]; intros H; [reflexivity|].
  cbn [dget]. destruct (String.eqb k k') eqn:E.
  - apply String.eqb_eq in E. exfalso. apply H. left. now symmetry.
  - apply IH. intros Hin. apply H. now right.
Qed.

Lemma dget_dict_update (k : string) (other : dict) :
  NoDup (map fst other) ->
  forall d,
    dget k (dict_update d other)
    = match dget k other with
      | Some v => Some v
      | None => dget k d
      end.
Proof.
  unfold dict_update.
  induction other as [|[k0 v0] other IH]; intros Hn d; [reflexivity|].
  cbn [map fst] in Hn. inversion Hn as [|? ? Hk Hn']; subst.
  cbn [fold_left fst snd dget]. rewrite (IH Hn'), dget_dset.
  destruct (String.eqb k k0) eqn:E; [|reflexivity].
  apply String.eqb_eq in E. subst k0. rewrite (dget_not_in k other Hk).
  reflexivity.
Qed.

(** [update_settings] overrides the settings it is given and keeps the
    others: afterwards a setting reads as the new value if the update
    has one and as before otherwise; rooms and line items are
    untouched. *)
Theorem update_settings_overrides (p : project) (new_settings : dict)
  (k : string) :
  NoDup (map fst new_settings) ->
  dget k (get_settings (update_settings p new_settings))
  = match dget k new_settings with
    | Some v => Some v
    | None => dget k (get_settings p)
    end
  /\ line_items (update_settings p new_settings) = line_items p
  /\ rooms (update_settings p new_settings) = rooms p.
Proof.
  intros H. split; [|split; reflexivity].
  unfold get_settings, update_settings. cbn [settings].
  now apply dget_dict_update.
Qed.

Lemma update_settings_overrides_witness :
  dget "gst" (get_settings (update_settings new_project [("discount", VNum 10)]))
  = match dget "gst" [("discount", VNum 10)] with
    | Some v => Some v
    | None => dget "gst" (get_settings new_project)
    end
  /\ line_items (update_settings new_project [("discount", VNum 10)])
     = line_items new_project
  /\ rooms (update_settings new_project [("discount", VNum 10)])
     = rooms new_project.
Proof.
  apply (update_settings_overrides new_project [("discount", VNum 10)] "gst").
  repeat constructor. intros [].
Defined.

(* ================================================================== *)
(** ** Properties of the calculation controller *)

(* ------------------------------------------------------------------ *)
(** *** Project statistics *)







(* ================================================================== *)
(** ** Properties of the rate card model *)

Section Passwords.

Variable sha256_hex : string -> string.

(** Setting a password and verifying: after [set_password_protection]
    with a string, [verify_password] accepts that string, and accepts
    another string exactly when it has the same digest; after removing
    the protection with [None] it accepts anything, even what is no
    string. *)
Theorem password_round_trip (rc : RateCard.rate_card) (password : string) :
  let rc' :=
    snd (RateCard.set_password_protection sha256_hex rc (VStr password)) in
  let open :=
    snd (RateCard.set_password_protection sha256_hex rc' VNone) in
  RateCard.verify_password sha256_hex rc' (VStr password) = Ok true
  /\ (forall other,
        RateCard.verify_password sha256_hex rc' (VStr other)
        = Ok (String.eqb (sha256_hex other) (sha256_hex password)))
  /\ (forall v, RateCard.verify_password sha256_hex open v = Ok true)
  /\ RateCard.items rc' = RateCard.items rc
  /\ RateCard.items open = RateCard.items rc.
Proof.
  cbn. rewrite String.eqb_refl. repeat split.
Qed.

(** A password that is neither [None] nor a string makes
    [set_password_protection] raise [AttributeError], yet only after the
    card has been marked protected: the card is left protected under its
    old digest, and verifying what is no string raises as well. *)
Theorem failed_password_still_protects (rc : RateCard.rate_card)
  (password : pyval) :
  password <> VNone ->
  (forall s, password <> VStr s) ->
  let rc' :=
    snd (RateCard.set_password_protection sha256_hex rc password) in
  fst (RateCard.set_password_protection sha256_hex rc password)
  = Raise AttributeError
  /\ RateCard.is_password_protected rc' = true
  /\ RateCard.password_hash rc' = RateCard.password_hash rc
  /\ (forall s,
        RateCard.verify_password sha256_hex rc' (VStr s)
        = Ok (String.eqb (sha256_hex s) (RateCard.password_hash rc)))
  /\ RateCard.verify_password sha256_hex rc' password = Raise AttributeError.
Proof.
  intros Hn Hs.
  destruct password as [ | b | q | s | d ];
    try (exfalso; now apply Hn); try (exfalso; now apply (Hs s));
    cbn; repeat split.
Qed.

End Passwords.

(** Adding an item to the rate card puts it at the index the call
    returns: [get_item] at that index returns it, the items before it
    are as before, one past it there is nothing, and deleting at that
    index gives the rate card back. *)
Theorem rate_card_add_then_get (rc : RateCard.rate_card) (item : dict) :
  let index := fst (RateCard.add_item rc item) in
  let rc' := snd (RateCard.add_item rc item) in
  RateCard.get_item rc' index = Some item
  /\ (forall j, in_range j (RateCard.items rc) = true ->
                RateCard.get_item rc' j = RateCard.get_item rc j)
  /\ RateCard.get_item rc' (index + 1) = None
  /\ RateCard.get_item rc' (-1) = None
  /\ RateCard.delete_item rc' index = (true, rc).
Proof.
  cbn [RateCard.add_item fst snd]. unfold RateCard.get_item,
    RateCard.delete_item. cbn [RateCard.items RateCard.file_path
    RateCard.password_hash RateCard.is_password_protected].
  rewrite in_range_length, Nat2Z.id. split; [|split; [|split; [|split]]].
  - rewrite app_nth2, PeanoNat.Nat.sub_diag; [reflexivity|].
    apply PeanoNat.Nat.le_refl.
  - intros j Hj. rewrite Hj.
    assert (Hj' : in_range j (RateCard.items rc ++ [item]) = true).
    { apply in_range_iff in Hj as [H0 H1]. apply in_range_iff.
      split; [exact H0|]. rewrite length_app.
      apply (PeanoNat.Nat.lt_le_trans _ _ _ H1), PeanoNat.Nat.le_add_r. }
    rewrite Hj'. f_equal. apply app_nth1.
    now apply in_range_iff in Hj as [_ Hj].
  - assert (R : in_range (Z.of_nat (List.length (RateCard.items rc)) + 1)
                  (RateCard.items rc ++ [item]) = false).
    { unfold in_range. apply andb_false_iff. right. apply Z.ltb_ge.
      rewrite length_app. cbn [List.length].
      rewrite Nat2Z.inj_add. apply Z.le_refl. }
    rewrite R. reflexivity.
  - reflexivity.
  - rewrite list_del_last. destruct rc; reflexivity.
Qed.

(* ================================================================== *)
(** ** The properties at work on a sample project *)

Lemma delete_room_cascades_witness :
  exists p',
    delete_room sample_project 0 = (Ok true, p')
    /\ rooms p' = list_del (Z.to_nat 0) (rooms sample_project)
    /\ S (List.length (rooms p')) = List.length (rooms sample_project)
    /\ line_items p'
       = filter (fun item => negb (room_is (VStr "Hall") item))
                (line_items sample_project)
    /\ project_info p' = project_info sample_project
    /\ settings p' = settings sample_project
    /\ (truthy (VStr "Hall") = true ->
        get_line_items p' (VStr "Hall") = Ok []).
Proof.
  apply (delete_room_cascades sample_project 0 (VStr "Hall")); reflexivity.
Defined.

Example delete_hall :
  delete_room sample_project 0
  = (Ok true,
     {| project_info := [("name", VStr "Flat 4B")];
        rooms := [[("name", VStr "Kitchen")]];
        line_items := [kitchen_unit];
        settings := [("gst", VNum 18); ("discount", VNum 10)] |}).
Proof. reflexivity. Qed.

Lemma delete_room_key_error_after_delete_witness :
  exists p',
    delete_room roomless_project 0 = (Raise KeyError, p')
    /\ rooms p' = list_del (Z.to_nat 0) (rooms roomless_project)
    /\ line_items p' = line_items roomless_project.
Proof.
  apply (delete_room_key_error_after_delete roomless_project 0 (VStr "Hall"));
    reflexivity.
Defined.

Lemma out_of_range_changes_nothing_witness :
  update_room sample_project (-1) [] = (false, sample_project)
  /\ delete_room sample_project (-1) = (Ok false, sample_project)
  /\ update_line_item sample_project (-1) tv_unit = (false, sample_project)
  /\ delete_line_item sample_project (-1) = (false, sample_project).
Proof.
  apply (out_of_range_changes_nothing sample_project (-1) [] tv_unit).
  left. reflexivity.
Defined.

Lemma update_line_item_in_range_witness :
  exists p',
    update_line_item sample_project 1 hall_paint = (true, p')
    /\ nth (Z.to_nat 1) (line_items p') [] = hall_paint
    /\ (forall j, j <> Z.to_nat 1 ->
                  nth j (line_items p') []
                  = nth j (line_items sample_project) [])
    /\ List.length (line_items p') = List.length (line_items sample_project)
    /\ rooms p' = rooms sample_project.
Proof.
  apply (update_line_item_in_range sample_project 1 hall_paint). reflexivity.
Defined.


Example sample_grand_total :
  (exists x, Controller.calculate_grand_total sample_project = Ok x
             /\ x == 5400)
  /\ Controller.calculate_grand_total
       (update_settings sample_project [("gst", VStr "18")])
     = Raise TypeError
  /\ (exists x,
        Controller.calculate_grand_total
          (update_settings sample_project [("discount", VNum 200)]) = Ok x
        /\ x == -4100).
Proof.
  split; [|split].
  - eexists. split; vm_compute; reflexivity.
  - vm_compute. reflexivity.
  - eexists. split; vm_compute; reflexivity.
Qed.


(** Two items cost 2000: the first of them is reported. *)
Example sample_statistics :
  exists st,
    Controller.calculate_project_statistics sample_project = Ok st
    /\ Controller.total_rooms st = 2%nat
    /\ Controller.total_items st = 3%nat
    /\ Controller.avg_room_cost st == 2500
    /\ Controller.avg_item_cost st == 5000 / 3
    /\ fst (Controller.highest_cost_room st) = VStr "Hall"
    /\ snd (Controller.highest_cost_room st) == 3000
    /\ Controller.highest_cost_item st
       = (VStr "Cabinets", VStr "Kitchen", VNum 2000).
Proof. eexists. repeat split; vm_compute; reflexivity. Qed.

Lemma failed_password_still_protects_witness :
  fst (RateCard.set_password_protection sample_digest sample_card (VNum 5))
  = Raise AttributeError
  /\ RateCard.is_password_protected
       (snd (RateCard.set_password_protection sample_digest sample_card
               (VNum 5))) = true
  /\ RateCard.password_hash
       (snd (RateCard.set_password_protection sample_digest sample_card
               (VNum 5)))
     = RateCard.password_hash sample_card
  /\ (forall s,
        RateCard.verify_password sample_digest
          (snd (RateCard.set_password_protection sample_digest sample_card
                  (VNum 5))) (VStr s)
        = Ok (String.eqb (sample_digest s)
                (RateCard.password_hash sample_card)))
  /\ RateCard.verify_password sample_digest
       (snd (RateCard.set_password_protection sample_digest sample_card
               (VNum 5))) (VNum 5)
     = Raise AttributeError.
Proof.
  apply (failed_password_still_protects sample_digest sample_card (VNum 5));
    discriminate.
Defined.

(* ================================================================== *)
(** ** Signs, shapes and names *)



Example null_material_raises :
  calculate_item_amount (("material", VNone) :: plain_sft_item)
  = Raise AttributeError
  /\ calculate_item_amount
       (("add_ons", VDict [("Lights", VBool true)]) :: plain_sft_item)
     = Raise AttributeError.
Proof. split; vm_compute; reflexivity. Qed.

(* ------------------------------------------------------------------ *)
(** *** The base material of a sample rate card *)


(* ================================================================== *)
(** ** Properties in IEEE doubles *)

Import Ieee IeeeShape IeeeSamples.

#[local] Close Scope Q_scope.
#[local] Close Scope string_scope.
#[local] Open Scope float_scope.

Set Warnings "-inexact-float".

(* ------------------------------------------------------------------ *)
(** *** Zeros, nan and equal numbers *)

Ltac sf_cases x := destruct (Prim2SF x) as [[|]|[|]| |[|] ? ?].

Lemma mul_zero_r x : zero_or_nan (x * 0).
Proof.
  unfold zero_or_nan. rewrite mul_spec. change (Prim2SF 0) with (S754_zero false).
  sf_cases x; exact I.
Qed.

Lemma zero_or_nan_mul y r : zero_or_nan y -> zero_or_nan (y * r).
Proof.
  unfold zero_or_nan. rewrite mul_spec.
  sf_cases y; try contradiction; intros _; sf_cases r; exact I.
Qed.

Lemma zero_or_nan_add a b : zero_or_nan a -> zero_or_nan b -> zero_or_nan (a + b).
Proof.
  unfold zero_or_nan. rewrite add_spec.
  sf_cases a; try contradiction; intros _; sf_cases b; try contradiction; intros _; exact I.
Qed.

Lemma plus_zero_add c t : plus_zero_or_nan c -> zero_or_nan t -> plus_zero_or_nan (c + t).
Proof.
  unfold zero_or_nan, plus_zero_or_nan. rewrite add_spec.
  sf_cases c; try contradiction; intros _; sf_cases t; try contradiction; intros _; exact I.
Qed.

Lemma add_plus_zero t c : zero_or_nan t -> plus_zero_or_nan c -> plus_zero_or_nan (t + c).
Proof.
  unfold zero_or_nan, plus_zero_or_nan. rewrite add_spec.
  sf_cases t; try contradiction; intros _; sf_cases c; try contradiction; intros _; exact I.
Qed.

Lemma plus_zero_or_nan_cases x : plus_zero_or_nan x -> x = 0 \/ x = nan.
Proof.
  unfold plus_zero_or_nan. intros H.
  destruct (Prim2SF x) as [[|]|[|]| |[|] ? ?] eqn:E; try contradiction.
  - left. apply Prim2SF_inj. rewrite E. reflexivity.
  - right. apply Prim2SF_inj. rewrite E. reflexivity.
Qed.

Lemma is_finite_finite x : is_finite x = true -> finite x.
Proof.
  unfold is_finite, is_nan, is_infinity, finite.
  rewrite !eqb_spec, abs_spec.
  sf_cases x; cbn; try discriminate; intros _; exact I.
Qed.

Lemma SFcompare_refl s : s <> S754_nan -> SFcompare s s = Some Eq.
Proof.
  destruct s as [[|]|[|]| |[|] m e]; intros H; try reflexivity; try (exfalso; apply H; reflexivity).
  - cbn. rewrite Z.compare_refl. fold (Pos.compare m m). rewrite Pos.compare_refl. reflexivity.
  - cbn. rewrite Z.compare_refl. fold (Pos.compare m m). rewrite Pos.compare_refl. reflexivity.
Qed.

Lemma is_nan_sf x : is_nan x = true <-> Prim2SF x = S754_nan.
Proof.
  unfold is_nan. rewrite eqb_spec. unfold SFeqb. split.
  - intros H. destruct (Prim2SF x) eqn:E; try reflexivity;
      rewrite SFcompare_refl in H by discriminate; discriminate.
  - intros ->. reflexivity.
Qed.

Lemma is_nan_eq x : is_nan x = true <-> x = nan.
Proof.
  rewrite is_nan_sf. split.
  - intros H. apply Prim2SF_inj. rewrite H. reflexivity.
  - intros ->. reflexivity.
Qed.

Lemma SFeqb_true a b :
  SFeqb a b = true ->
  a = b \/ (exists s t, a = S754_zero s /\ b = S754_zero t).
Proof.
  unfold SFeqb.
  destruct a as [sa|sa| |sa ma ea], b as [sb|sb| |sb mb eb]; cbn;
    try discriminate;
    try (destruct sa; discriminate); try (destruct sb; discriminate).
  - intros _. right. eauto.
  - destruct sa, sb; try discriminate; intros _; left; reflexivity.
  - destruct sa, sb; try discriminate.
    + destruct (Z.compare ea eb) eqn:Ez; try discriminate.
      apply Z.compare_eq in Ez. subst eb.
      fold (Pos.compare ma mb).
      destruct (Pos.compare ma mb) eqn:Em; try discriminate.
      apply Pos.compare_eq in Em. subst mb. intros _. left. reflexivity.
    + destruct (Z.compare ea eb) eqn:Ez; try discriminate.
      apply Z.compare_eq in Ez. subst eb.
      fold (Pos.compare ma mb).
      destruct (Pos.compare ma mb) eqn:Em; try discriminate.
      apply Pos.compare_eq in Em. subst mb. intros _. left. reflexivity.
Qed.

Lemma same_number_refl x : same_number x x.
Proof.
  unfold same_number. destruct (is_nan x) eqn:E.
  - right. split; reflexivity.
  - left. unfold is_nan in E. apply negb_false_iff in E. exact E.
Qed.

Lemma same_number_sf x y : same_number x y <-> same_sf x y.
Proof.
  unfold same_number, same_sf, is_a_zero. split.
  - intros [H | [Hx Hy]].
    + rewrite eqb_spec in H. apply SFeqb_true in H.
      destruct H as [H | (s & t & Hs & Ht)].
      * left. apply Prim2SF_inj. exact H.
      * right. rewrite Hs, Ht. split; exact I.
    + left. apply is_nan_eq in Hx, Hy. congruence.
  - intros [-> | [Hx Hy]].
    + apply same_number_refl.
    + left. rewrite eqb_spec.
      destruct (Prim2SF x); try contradiction.
      destruct (Prim2SF y); try contradiction. reflexivity.
Qed.

Lemma same_number_sym x y : same_number x y -> same_number y x.
Proof.
  rewrite !same_number_sf. unfold same_sf. intros [-> | [H1 H2]]; auto.
Qed.

Lemma same_number_trans x y z :
  same_number x y -> same_number y z -> same_number x z.
Proof.
  rewrite !same_number_sf. unfold same_sf, is_a_zero.
  intros [-> | [H1 H2]] [-> | [H3 H4]]; auto.
Qed.

Lemma sf_eq x y : Prim2SF x = Prim2SF y -> same_sf x y.
Proof. intros H. left. apply Prim2SF_inj. exact H. Qed.

Lemma same_number_add_l a a' c :
  same_number a a' -> same_number (a + c) (a' + c).
Proof.
  rewrite !same_number_sf. intros [-> | [H1 H2]].
  - left. reflexivity.
  - unfold is_a_zero in H1, H2.
    destruct (Prim2SF a) as [sa| | |] eqn:Ea; try contradiction.
    destruct (Prim2SF a') as [sb| | |] eqn:Eb; try contradiction.
    destruct (Prim2SF c) as [sc|sc| |sc mc ec] eqn:Ec.
    + right. unfold is_a_zero. rewrite !add_spec, Ea, Eb, Ec.
      destruct sa, sb, sc; split; exact I.
    + apply sf_eq. rewrite !add_spec, Ea, Eb, Ec. reflexivity.
    + apply sf_eq. rewrite !add_spec, Ea, Eb, Ec. reflexivity.
    + apply sf_eq. rewrite !add_spec, Ea, Eb, Ec. reflexivity.
Qed.


Lemma add_zero_r x : same_number (x + 0) x.
Proof.
  rewrite same_number_sf.
  destruct (Prim2SF x) as [s|s| |s m e] eqn:E.
  - right. unfold is_a_zero. rewrite add_spec, E.
    change (Prim2SF 0) with (S754_zero false). destruct s; split; exact I.
  - apply sf_eq. rewrite add_spec, E. reflexivity.
  - apply sf_eq. rewrite add_spec, E. reflexivity.
  - apply sf_eq. rewrite add_spec, E. reflexivity.
Qed.


Lemma mul_zero_l r : zero_or_nan (0 * r).
Proof.
  unfold zero_or_nan. rewrite mul_spec. change (Prim2SF 0) with (S754_zero false).
  sf_cases r; exact I.
Qed.

Lemma plus_zero_zero : plus_zero_or_nan 0.
Proof. exact I. Qed.

Lemma zero_zero_or_nan : zero_or_nan 0.
Proof. exact I. Qed.

Lemma finite_mul_zero x : finite x -> is_a_zero (x * 0).
Proof.
  unfold finite, is_a_zero. rewrite mul_spec. change (Prim2SF 0) with (S754_zero false).
  sf_cases x; try contradiction; intros _; exact I.
Qed.

Lemma zero_mul_finite y r : is_a_zero y -> finite r -> is_a_zero (y * r).
Proof.
  unfold finite, is_a_zero. rewrite mul_spec.
  sf_cases y; try contradiction; intros _; sf_cases r; try contradiction; intros _; exact I.
Qed.

Lemma zero_add_zero a b : is_a_zero a -> is_a_zero b -> is_a_zero (a + b).
Proof.
  unfold is_a_zero. rewrite add_spec.
  sf_cases a; try contradiction; intros _; sf_cases b; try contradiction; intros _; exact I.
Qed.

Lemma plus_zero_add_zero c t : is_plus_zero c -> is_a_zero t -> is_plus_zero (c + t).
Proof.
  unfold is_plus_zero, is_a_zero. rewrite add_spec.
  sf_cases c; try contradiction; intros _; sf_cases t; try contradiction; intros _; exact I.
Qed.

Lemma zero_add_plus_zero t c : is_a_zero t -> is_plus_zero c -> is_plus_zero (t + c).
Proof.
  unfold is_plus_zero, is_a_zero. rewrite add_spec.
  sf_cases t; try contradiction; intros _; sf_cases c; try contradiction; intros _; exact I.
Qed.

Lemma is_plus_zero_eq x : is_plus_zero x -> x = 0.
Proof.
  unfold is_plus_zero. intros H.
  destruct (Prim2SF x) as [[|]|[|]| |[|] ? ?] eqn:E; try contradiction.
  apply Prim2SF_inj. rewrite E. reflexivity.
Qed.

Lemma zero_is_a_zero : is_a_zero 0.
Proof. exact I. Qed.

Lemma zero_is_plus_zero : is_plus_zero 0.
Proof. exact I. Qed.

(* ------------------------------------------------------------------ *)
(** *** Strings *)

Lemma str_eqb_eq a b : str_eqb a b = true <-> a = b.
Proof.
  revert b. induction a as [|x a IH]; intros [|y b]; cbn; split;
    try discriminate; try reflexivity.
  - intros H. apply andb_true_iff in H. destruct H as [H1 H2].
    apply N.eqb_eq in H1. apply IH in H2. congruence.
  - intros H. injection H as -> ->. rewrite N.eqb_refl. cbn. apply IH. reflexivity.
Qed.

Lemma str_eqb_refl a : str_eqb a a = true.
Proof. apply str_eqb_eq. reflexivity. Qed.

Lemma str_eqb_neq a b : str_eqb a b = false <-> a <> b.
Proof.
  split.
  - intros H E. apply str_eqb_eq in E. congruence.
  - intros H. destruct (str_eqb a b) eqn:E; [|reflexivity].
    apply str_eqb_eq in E. contradiction.
Qed.

Lemma str_eqb_sym a b : str_eqb a b = str_eqb b a.
Proof.
  destruct (str_eqb a b) eqn:E.
  - apply str_eqb_eq in E. subst. symmetry. apply str_eqb_refl.
  - symmetry. apply str_eqb_neq. apply str_eqb_neq in E. congruence.
Qed.

(* ------------------------------------------------------------------ *)
(** *** Reading fields and the amount *)

Lemma ieee_float_field_absent item k :
  dget k item = None -> float_field item k = Ok 0.
Proof.
  intros H. unfold float_field, get_default. rewrite H. reflexivity.
Qed.

Lemma ieee_float_field_false item k v :
  dget k item = Some v -> truthy v = false -> float_field item k = Ok 0.
Proof.
  intros H T. unfold float_field, get_default, py_or. rewrite H, T. reflexivity.
Qed.

Lemma ieee_float_field_true item k v :
  dget k item = Some v -> truthy v = true -> float_field item k = py_float v.
Proof.
  intros H T. unfold float_field, get_default, py_or. rewrite H, T. reflexivity.
Qed.

Lemma readable_float v :
  readable v = true -> truthy v = true -> exists x, py_float v = Ok x.
Proof.
  unfold readable. intros H T. rewrite T in H. cbn in H.
  destruct v as [|b|z|f|s|d]; cbn in *; try discriminate; eauto.
  - destruct (float_of_int z); [eauto | discriminate].
  - destruct (float_of_string s); [eauto | discriminate].
Qed.

Lemma ieee_float_field_total item k :
  numeric_field item k = true -> float_field item k = Ok (field item k).
Proof.
  unfold numeric_field, field. intros H.
  destruct (dget k item) as [v|] eqn:E.
  - destruct (truthy v) eqn:T.
    + destruct (readable_float v H T) as [x Hx].
      rewrite (ieee_float_field_true item k v E T), Hx. reflexivity.
    + rewrite (ieee_float_field_false item k v E T). reflexivity.
  - rewrite (ieee_float_field_absent item k E). reflexivity.
Qed.

Lemma float_field_zero item k :
  truthy (get_default item k (VInt 0)) = false -> float_field item k = Ok 0.
Proof.
  intros H. unfold float_field, py_or. rewrite H. reflexivity.
Qed.

Lemma base_amount_of uom l h q r : base_amount uom l h q r = base_of uom l h q r.
Proof.
  unfold base_amount, base_of.
  destruct (eq_str uom (text "SFT")); [reflexivity|].
  destruct (eq_str uom (text "RFT")); [reflexivity|].
  destruct (eq_str uom (text "NOS")); reflexivity.
Qed.

Lemma material_scaled_number uom price p l h q :
  number_of price = Some p ->
  material_scaled uom price l h q = Ok (surcharge uom p l h q).
Proof.
  intros H. unfold material_scaled, surcharge, py_mul.
  destruct price as [|b|z|f|s|d]; cbn in H; try discriminate.
  - injection H as <-.
    destruct (eq_str uom (text "SFT")); [reflexivity|].
    destruct (eq_str uom (text "RFT")); reflexivity.
  - rewrite H.
    destruct (eq_str uom (text "SFT")); [reflexivity|].
    destruct (eq_str uom (text "RFT")); reflexivity.
  - injection H as <-.
    destruct (eq_str uom (text "SFT")); [reflexivity|].
    destruct (eq_str uom (text "RFT")); reflexivity.
Qed.

Lemma ieee_material_total_spec item uom l h q base :
  material_shaped item = true ->
  material_total item uom l h q base
  = Ok (with_material base (material_addition item uom l h q)).
Proof.
  unfold material_shaped, material_total, material_addition, with_material.
  destruct (dget (text "material") item) as [[|b|z|f|s|material]|];
    try discriminate; try reflexivity.
  destruct (truthy (get_default material (text "selected") VNone));
    [|reflexivity].
  destruct (get_default material (text "selected") VNone)
    as [|b|z|f|s|d0]; try discriminate.
  destruct (get_default material (text "price_additions") (VDict []))
    as [|b|z|f|t|d]; try discriminate.
  cbn. unfold getitem.
  destruct (dget s d) as [price|]; cbn; [|reflexivity].
  destruct (number_of price) as [p|] eqn:Ep; [|discriminate].
  intros _. rewrite (material_scaled_number uom price p l h q Ep). reflexivity.
Qed.

Lemma ieee_add_on_loop_spec uom l h q add_ons :
  forallb (fun kv => add_on_shaped (snd kv)) add_ons = true ->
  forall cost,
    add_on_loop uom l h q add_ons cost
    = Ok (mapping_cost uom l h q add_ons cost).
Proof.
  induction add_ons as [|[name info] rest IH]; intros H cost.
  - reflexivity.
  - cbn in H. apply andb_true_iff in H. destruct H as [H1 H2].
    destruct info as [|b|z|f|s|info]; try discriminate.
    cbn [add_on_loop mapping_cost]. cbn [snd] in H1. unfold add_on_shaped in H1.
    destruct (truthy (get_default info (text "selected") (VBool false))).
    + cbn [negb orb] in H1. rewrite (ieee_float_field_total _ _ H1). cbn.
      apply IH. exact H2.
    + apply IH. exact H2.
Qed.

Lemma legacy_loop_not_sft uom l h q names cost :
  eq_str uom (text "SFT") = false ->
  legacy_loop uom l h q names cost = cost.
Proof.
  intros H. revert cost. induction names as [|n rest IH]; intros cost.
  - reflexivity.
  - cbn [legacy_loop]. rewrite H.
    destruct (str_eqb n (text "profile door")); [apply IH|].
    destruct (str_eqb n (text "lights")); apply IH.
Qed.

Lemma legacy_loop_sum uom l h q segments cost :
  eq_str uom (text "SFT") = true ->
  legacy_loop uom l h q (map (fun x => lower (strip x)) segments) cost
  = legacy_sum l h q segments cost.
Proof.
  intros H. revert cost. induction segments as [|s rest IH]; intros cost.
  - reflexivity.
  - cbn [map legacy_loop legacy_sum]. rewrite H, IH.
    unfold legacy_charge, reads.
    destruct (str_eqb (lower (strip s)) (text "profile door")); [reflexivity|].
    destruct (str_eqb (lower (strip s)) (text "lights")); reflexivity.
Qed.

Lemma ieee_add_on_total_spec item uom l h q :
  add_ons_shaped item = true ->
  add_on_total item uom l h q = Ok (add_on_cost item uom l h q).
Proof.
  unfold add_ons_shaped, add_on_total, add_on_cost.
  destruct (dget (text "add_ons") item) as [[|b|z|f|s|add_ons]|];
    try reflexivity.
  - intros _. destruct s as [|c s]; [reflexivity|]. cbn [truthy].
    unfold legacy_names.
    destruct (eq_str uom (text "SFT")) eqn:E.
    + rewrite (legacy_loop_sum uom l h q _ 0 E). reflexivity.
    + rewrite (legacy_loop_not_sft uom l h q _ 0 E). reflexivity.
  - intros H. apply ieee_add_on_loop_spec. exact H.
Qed.

Lemma shaped_parts item :
  line_item_shaped item = true ->
  numeric_field item (text "length") = true
  /\ numeric_field item (text "height") = true
  /\ numeric_field item (text "quantity") = true
  /\ numeric_field item (text "rate") = true
  /\ material_shaped item = true /\ add_ons_shaped item = true.
Proof.
  unfold line_item_shaped. intros H.
  repeat (apply andb_true_iff in H; destruct H as [H ?]). repeat split; assumption.
Qed.

(** The amount of a shaped record, in the code's own order of
    operations. *)
Lemma ieee_amount_spec item :
  line_item_shaped item = true ->
  let uom := uom_of item in
  let l := field item (text "length") in
  let h := field item (text "height") in
  let q := field item (text "quantity") in
  let r := field item (text "rate") in
  calculate_item_amount item
  = Ok (with_material (base_of uom l h q r) (material_addition item uom l h q)
        + add_on_cost item uom l h q).
Proof.
  intros H. destruct (shaped_parts item H) as (Hl & Hh & Hq & Hr & Hm & Ha).
  cbv zeta. unfold calculate_item_amount.
  rewrite (ieee_float_field_total _ _ Hl), (ieee_float_field_total _ _ Hh),
    (ieee_float_field_total _ _ Hq), (ieee_float_field_total _ _ Hr).
  cbn [bind]. rewrite (ieee_material_total_spec _ _ _ _ _ _ Hm). cbn [bind].
  fold (uom_of item).
  rewrite (ieee_add_on_total_spec _ _ _ _ _ Ha). cbn [bind].
  rewrite base_amount_of. reflexivity.
Qed.

(* ------------------------------------------------------------------ *)
(** *** Records that differ in one key *)

Lemma ieee_dget_dremove_same k d : dget k (dremove k d) = None.
Proof.
  induction d as [|[k' v] d IH]; cbn; [reflexivity|].
  destruct (str_eqb k k') eqn:E; [exact IH|]. cbn. rewrite E. exact IH.
Qed.

Lemma ieee_dget_dremove_other k k' d :
  str_eqb k' k = false -> dget k (dremove k' d) = dget k d.
Proof.
  intros H. induction d as [|[k1 v] d IH]; cbn; [reflexivity|].
  destruct (str_eqb k' k1) eqn:E.
  - apply str_eqb_eq in E. subst k1. rewrite str_eqb_sym, H. exact IH.
  - cbn. rewrite IH. reflexivity.
Qed.

Section SameKeyIeee.
Variables item item' : dict.
Variable k : pystr.
Hypothesis same : dget k item' = dget k item.

Lemma ieee_float_field_ext : float_field item' k = float_field item k.
Proof. unfold float_field, get_default. rewrite same. reflexivity. Qed.

Lemma field_ext : field item' k = field item k.
Proof. unfold field. rewrite ieee_float_field_ext. reflexivity. Qed.

Lemma numeric_field_ext : numeric_field item' k = numeric_field item k.
Proof. unfold numeric_field. rewrite same. reflexivity. Qed.
End SameKeyIeee.

Lemma ieee_uom_of_ext item item' :
  dget (text "uom") item' = dget (text "uom") item -> uom_of item' = uom_of item.
Proof. intros H. unfold uom_of, get_default. rewrite H. reflexivity. Qed.




Lemma add_on_total_ext item item' uom l h q :
  dget (text "add_ons") item' = dget (text "add_ons") item ->
  add_on_total item' uom l h q = add_on_total item uom l h q.
Proof. intros H. unfold add_on_total. rewrite H. reflexivity. Qed.

Lemma ieee_add_ons_shaped_ext item item' :
  dget (text "add_ons") item' = dget (text "add_ons") item ->
  add_ons_shaped item' = add_ons_shaped item.
Proof. intros H. unfold add_ons_shaped. rewrite H. reflexivity. Qed.

Lemma add_on_cost_ext item item' uom l h q :
  dget (text "add_ons") item' = dget (text "add_ons") item ->
  add_on_cost item' uom l h q = add_on_cost item uom l h q.
Proof. intros H. unfold add_on_cost. rewrite H. reflexivity. Qed.

Ltac other_key := apply ieee_dget_dremove_other; vm_compute; reflexivity.

(** The record without its material block. *)
Lemma without_material_shaped item :
  line_item_shaped item = true ->
  line_item_shaped (dremove (text "material") item) = true.
Proof.
  intros H. destruct (shaped_parts item H) as (Hl & Hh & Hq & Hr & Hm & Ha).
  unfold line_item_shaped.
  rewrite !(numeric_field_ext item (dremove (text "material") item)) by other_key.
  rewrite (ieee_add_ons_shaped_ext item (dremove (text "material") item)) by other_key.
  rewrite Hl, Hh, Hq, Hr, Ha.
  unfold material_shaped. rewrite ieee_dget_dremove_same. reflexivity.
Qed.

Lemma amount_without_material item :
  line_item_shaped item = true ->
  let uom := uom_of item in
  let l := field item (text "length") in
  let h := field item (text "height") in
  let q := field item (text "quantity") in
  let r := field item (text "rate") in
  calculate_item_amount (dremove (text "material") item)
  = Ok (base_of uom l h q r + add_on_cost item uom l h q).
Proof.
  intros H. cbv zeta.
  rewrite (ieee_amount_spec _ (without_material_shaped item H)). cbv zeta.
  rewrite (ieee_uom_of_ext item (dremove (text "material") item)) by other_key.
  rewrite !(field_ext item (dremove (text "material") item)) by other_key.
  rewrite (add_on_cost_ext item (dremove (text "material") item)) by other_key.
  unfold material_addition. rewrite ieee_dget_dremove_same. reflexivity.
Qed.




Lemma mapping_cost_unselected uom l h q add_ons cost :
  forallb (fun kv => unselected (snd kv)) add_ons = true ->
  mapping_cost uom l h q add_ons cost = cost.
Proof.
  revert cost. induction add_ons as [|[name info] rest IH]; intros cost H.
  - reflexivity.
  - cbn [forallb snd] in H. apply andb_true_iff in H. destruct H as [H1 H2].
    destruct info as [|b|z|f|s|info]; try discriminate.
    cbn [mapping_cost]. unfold unselected in H1.
    apply negb_true_iff in H1. rewrite H1. apply IH. exact H2.
Qed.


Lemma no_add_ons_cost item uom l h q :
  no_add_ons item = true -> add_on_cost item uom l h q = 0.
Proof.
  unfold no_add_ons, add_on_cost.
  destruct (dget (text "add_ons") item) as [[|b|z|f|s|add_ons]|];
    try discriminate; try reflexivity.
  - destruct s; [reflexivity | discriminate].
  - intros H. apply mapping_cost_unselected. exact H.
Qed.



Lemma split_no_sep sep s : ~ In sep s -> split sep s = [s].
Proof.
  induction s as [|c s IH]; intros H; [reflexivity|].
  cbn [split]. destruct (N.eqb_spec c sep) as [->|Hc].
  - exfalso. apply H. left. reflexivity.
  - rewrite IH; [reflexivity|]. intros Hs. apply H. right. exact Hs.
Qed.

Lemma split_app sep a b :
  ~ In sep a -> split sep (a ++ sep :: b) = a :: split sep b.
Proof.
  induction a as [|c a IH]; intros H.
  - cbn. rewrite N.eqb_refl. reflexivity.
  - cbn [app split]. destruct (N.eqb_spec c sep) as [->|Hc].
    + exfalso. apply H. left. reflexivity.
    + rewrite IH; [reflexivity|]. intros Hs. apply H. right. exact Hs.
Qed.

Lemma split_join sep segments :
  segments <> [] ->
  (forall s, In s segments -> ~ In sep s) ->
  split sep (join sep segments) = segments.
Proof.
  induction segments as [|s rest IH]; intros Hne H; [contradiction|].
  destruct rest as [|t rest].
  - cbn [join]. apply split_no_sep. apply H. left. reflexivity.
  - change (join sep (s :: t :: rest)) with (s ++ sep :: join sep (t :: rest))%list.
    rewrite split_app by (apply H; left; reflexivity).
    rewrite IH; [reflexivity | discriminate |].
    intros u Hu. apply H. right. exact Hu.
Qed.


(* ------------------------------------------------------------------ *)
(** *** Error policy of the pricing engine *)

Lemma first_unreadable_raises item before k after e :
  numeric_fields = (before ++ k :: after)%list ->
  forallb (numeric_field item) before = true ->
  float_field item k = Raise e ->
  calculate_item_amount item = Raise e.
Proof.
  intros Hs Hb Hk. unfold numeric_fields in Hs.
  unfold calculate_item_amount.
  destruct before as [|k1 before].
  { cbn in Hs. injection Hs as <- _. rewrite Hk. reflexivity. }
  cbn [app] in Hs. injection Hs as <- Hs.
  cbn [forallb] in Hb. apply andb_true_iff in Hb. destruct Hb as [H1 Hb].
  rewrite (ieee_float_field_total _ _ H1). cbn [bind].
  destruct before as [|k2 before].
  { cbn in Hs. injection Hs as <- _. rewrite Hk. reflexivity. }
  cbn [app] in Hs. injection Hs as <- Hs.
  cbn [forallb] in Hb. apply andb_true_iff in Hb. destruct Hb as [H2 Hb].
  rewrite (ieee_float_field_total _ _ H2). cbn [bind].
  destruct before as [|k3 before].
  { cbn in Hs. injection Hs as <- _. rewrite Hk. reflexivity. }
  cbn [app] in Hs. injection Hs as <- Hs.
  cbn [forallb] in Hb. apply andb_true_iff in Hb. destruct Hb as [H3 Hb].
  rewrite (ieee_float_field_total _ _ H3). cbn [bind].
  destruct before as [|k4 before].
  { cbn in Hs. injection Hs as <- _. rewrite Hk. reflexivity. }
  cbn [app] in Hs. injection Hs as <- Hs.
  destruct before; discriminate.
Qed.

Lemma add_on_loop_raises uom l h q before name info after e :
  forallb (fun kv => add_on_shaped (snd kv)) before = true ->
  truthy (get_default info (text "selected") (VBool false)) = true ->
  float_field info (text "rate_per_unit") = Raise e ->
  forall cost,
    add_on_loop uom l h q (before ++ (name, VDict info) :: after) cost
    = Raise e.
Proof.
  intros Hb Hs He. induction before as [|[n i] before IH]; intros cost.
  - cbn [app add_on_loop]. rewrite Hs, He. reflexivity.
  - cbn [forallb snd] in Hb. apply andb_true_iff in Hb. destruct Hb as [H1 H2].
    destruct i as [|b|z|f|s|i]; try discriminate.
    cbn [app add_on_loop]. unfold add_on_shaped in H1.
    destruct (truthy (get_default i (text "selected") (VBool false))).
    + cbn [negb orb] in H1. rewrite (ieee_float_field_total _ _ H1). cbn [bind].
      apply IH. exact H2.
    + apply IH. exact H2.
Qed.

Lemma unreadable_rate_raises item before name info after e :
  numeric_field item (text "length") = true ->
  numeric_field item (text "height") = true ->
  numeric_field item (text "quantity") = true ->
  numeric_field item (text "rate") = true ->
  material_shaped item = true ->
  dget (text "add_ons") item
  = Some (VDict (before ++ (name, VDict info) :: after)) ->
  forallb (fun kv => add_on_shaped (snd kv)) before = true ->
  truthy (get_default info (text "selected") (VBool false)) = true ->
  float_field info (text "rate_per_unit") = Raise e ->
  calculate_item_amount item = Raise e.
Proof.
  intros Hl Hh Hq Hr Hm Ha Hb Hs He. unfold calculate_item_amount.
  rewrite (ieee_float_field_total _ _ Hl), (ieee_float_field_total _ _ Hh),
    (ieee_float_field_total _ _ Hq), (ieee_float_field_total _ _ Hr).
  cbn [bind]. rewrite (ieee_material_total_spec _ _ _ _ _ _ Hm). cbn [bind].
  unfold add_on_total. rewrite Ha.
  rewrite (add_on_loop_raises _ _ _ _ before name info after e Hb Hs He).
  reflexivity.
Qed.

(** C1 (corrected).  [calculate_item_amount] has no handler around
    [float(v or 0)].  It returns on every record whose four numeric fields
    are absent, false, a bool, a float, an int within the double range or a
    string [float] accepts, and whose material block and add-ons are well
    formed.  An absent or false field reads as 0.0 and a true one as
    [float] reads it.  The first numeric field [float] refuses decides the
    outcome, and so does the rate of a selected add-on: [ValueError] for a
    string that is no numeral, [OverflowError] for an int beyond the double
    range, [TypeError] for a non-empty mapping.  Nothing is coerced to 0
    on failure; [inf] and [nan] are numerals. *)
Theorem C1_readable_item_returns :
  (forall item,
     line_item_shaped item = true ->
     exists x, calculate_item_amount item = Ok x)
  /\ (forall item k,
        match dget k item with
        | None => True
        | Some v => truthy v = false
        end ->
        float_field item k = Ok 0)
  /\ (forall item k v,
        dget k item = Some v -> truthy v = true ->
        float_field item k = py_float v)
  /\ (forall s,
        py_float (VStr s)
        = match float_of_string s with
          | Some x => Ok x
          | None => Raise ValueError
          end)
  /\ (forall z,
        py_float (VInt z)
        = match float_of_int z with
          | Some x => Ok x
          | None => Raise OverflowError
          end)
  /\ (forall d, py_float (VDict d) = Raise TypeError)
  /\ (forall item before k after e,
        numeric_fields = (before ++ k :: after)%list ->
        forallb (numeric_field item) before = true ->
        float_field item k = Raise e ->
        calculate_item_amount item = Raise e)
  /\ (forall item before name info after e,
        forallb (numeric_field item) numeric_fields = true ->
        material_shaped item = true ->
        dget (text "add_ons") item
        = Some (VDict (before ++ (name, VDict info) :: after)) ->
        forallb (fun kv => add_on_shaped (snd kv)) before = true ->
        truthy (get_default info (text "selected") (VBool false)) = true ->
        float_field info (text "rate_per_unit") = Raise e ->
        calculate_item_amount item = Raise e)
  /\ float_of_string (text "abc") = None
  /\ float_of_string (text "12.5.0") = None
  /\ float_of_string (text "") = None
  /\ float_of_string (28%N :: text "5") = None
  /\ float_of_string (text " 1_250.5e-1 ") = Some 125.05
  /\ float_of_string (160%N :: text "5") = Some 5
  /\ float_of_string (text "-Infinity") = Some neg_infinity
  /\ float_of_string (text "nan") = Some nan
  /\ float_of_int (10 ^ 400) = None
  /\ float_of_int (2 ^ 53 + 1) = Some 9007199254740992.
Proof.
  split; [|split; [|split; [|split; [|split; [|split; [|split; [|split]]]]]]].
  - intros item H. rewrite (ieee_amount_spec item H). eauto.
  - intros item k H. destruct (dget k item) as [v|] eqn:E.
    + apply (ieee_float_field_false item k v E H).
    + apply (ieee_float_field_absent item k E).
  - intros item k v E T. apply (ieee_float_field_true item k v E T).
  - intros s. reflexivity.
  - intros z. reflexivity.
  - intros d. reflexivity.
  - apply first_unreadable_raises.
  - intros item before name info after e Hf Hm Ha Hb Hs He.
    unfold numeric_fields in Hf. cbn [forallb] in Hf.
    repeat (apply andb_true_iff in Hf; destruct Hf as [? Hf]).
    apply (unreadable_rate_raises item before name info after e); assumption.
  - repeat split; vm_compute; reflexivity.
Qed.

Lemma C1_readable_item_returns_witness :
  line_item_shaped partly_filled = true
  /\ (exists x, calculate_item_amount partly_filled = Ok x)
  /\ calculate_item_amount partly_filled = Ok 12500
  /\ calculate_item_amount abc_add_on_rate = Raise ValueError.
Proof.
  split; [vm_compute; reflexivity|]. split; [|split].
  - apply (proj1 C1_readable_item_returns). vm_compute. reflexivity.
  - vm_compute. reflexivity.
  - apply (proj1 (proj2 (proj2 (proj2 (proj2 (proj2 (proj2 (proj2
             C1_readable_item_returns))))))) abc_add_on_rate []
             (text "Lights")
             [(text "selected", VBool true);
              (text "rate_per_unit", VStr (text "abc"))] [] ValueError);
      vm_compute; reflexivity.
Defined.

(** C1 (as stated) fails: a quantity that is not a numeral is not coerced
    to 0, the call raises [ValueError]. *)
Lemma C1_non_numeric_quantity_raises :
  calculate_item_amount abc_quantity = Raise ValueError.
Proof. vm_compute. reflexivity. Qed.

(* ------------------------------------------------------------------ *)
(** *** Material surcharge *)

Lemma material_addition_found item material s d price p uom l h q :
  dget (text "material") item = Some (VDict material) ->
  get_default material (text "selected") VNone = VStr s -> s <> [] ->
  get_default material (text "price_additions") (VDict []) = VDict d ->
  dget s d = Some price -> number_of price = Some p ->
  material_addition item uom l h q = Some (surcharge uom p l h q).
Proof.
  intros Hm Hs Hne Hd Hp Hn. unfold material_addition.
  rewrite Hm, Hs, Hd, Hp, Hn.
  destruct s; [contradiction | reflexivity].
Qed.

Lemma material_addition_missing item material s d uom l h q :
  dget (text "material") item = Some (VDict material) ->
  get_default material (text "selected") VNone = VStr s -> s <> [] ->
  get_default material (text "price_additions") (VDict []) = VDict d ->
  dget s d = None ->
  material_addition item uom l h q = Some 0.
Proof.
  intros Hm Hs Hne Hd Hp. unfold material_addition.
  rewrite Hm, Hs, Hd, Hp.
  destruct s; [contradiction | reflexivity].
Qed.

Lemma surcharge_then_zero base extra :
  same_number ((base + extra) + 0) ((base + 0) + extra).
Proof.
  apply (same_number_trans _ (base + extra)).
  - apply add_zero_r.
  - apply same_number_sym. apply same_number_add_l. apply add_zero_r.
Qed.

(** C4 (corrected).  With a material selected, the code adds the scaled
    surcharge to the base amount before it adds the add-on cost: the
    amount is (base + p * l * h * q) + cost where the amount without the
    material block is base + cost, with the products taken from the left
    (p * l * q under RFT, p * q otherwise).  When no add-on is charged the
    amount is the same number as the amount without material plus the
    surcharge; when the selection is not a key of the price additions it
    is the same number as the amount without material. *)
Theorem C4_surcharge_added_before_add_ons :
  forall item material s d,
    line_item_shaped item = true ->
    dget (text "material") item = Some (VDict material) ->
    get_default material (text "selected") VNone = VStr s -> s <> [] ->
    get_default material (text "price_additions") (VDict []) = VDict d ->
    let uom := uom_of item in
    let l := field item (text "length") in
    let h := field item (text "height") in
    let q := field item (text "quantity") in
    let base := base_of uom l h q (field item (text "rate")) in
    let cost := add_on_cost item uom l h q in
    calculate_item_amount (dremove (text "material") item) = Ok (base + cost)
    /\ (no_add_ons item = true -> cost = 0)
    /\ (forall price p,
          dget s d = Some price -> number_of price = Some p ->
          calculate_item_amount item
          = Ok ((base + surcharge uom p l h q) + cost)
          /\ (no_add_ons item = true ->
              same_number ((base + surcharge uom p l h q) + cost)
                ((base + cost) + surcharge uom p l h q)))
    /\ (dget s d = None ->
        exists x,
          calculate_item_amount item = Ok x /\ same_number x (base + cost)).
Proof.
  intros item material s d H Hm Hs Hne Hd uom l h q base cost.
  split; [apply (amount_without_material item H)|].
  split; [apply no_add_ons_cost|].
  split.
  - intros price p Hp Hn. split.
    + rewrite (ieee_amount_spec item H). cbv zeta.
      rewrite (material_addition_found item material s d price p
                 _ _ _ _ Hm Hs Hne Hd Hp Hn).
      reflexivity.
    + intros Hno. unfold cost. rewrite (no_add_ons_cost item _ _ _ _ Hno).
      apply surcharge_then_zero.
  - intros Hp. eexists. split.
    + rewrite (ieee_amount_spec item H). cbv zeta.
      rewrite (material_addition_missing item material s d
                 _ _ _ _ Hm Hs Hne Hd Hp).
      reflexivity.
    + cbn [with_material]. apply same_number_add_l. apply add_zero_r.
Qed.

Lemma C4_surcharge_added_before_add_ons_witness :
  calculate_item_amount (dremove (text "material") veneer_item)
  = Ok (10 * 8 * 1 * 150 + 0)
  /\ calculate_item_amount veneer_item
     = Ok ((10 * 8 * 1 * 150 + 500 * 10 * 8 * 1) + 0)
  /\ same_number ((10 * 8 * 1 * 150 + 500 * 10 * 8 * 1) + 0)
       ((10 * 8 * 1 * 150 + 0) + 500 * 10 * 8 * 1).
Proof.
  destruct (C4_surcharge_added_before_add_ons veneer_item
              [(text "selected", VStr (text "Veneer"));
               (text "price_additions",
                VDict [(text "Laminate", VInt 0); (text "Veneer", VInt 500)])]
              (text "Veneer")
              [(text "Laminate", VInt 0); (text "Veneer", VInt 500)])
    as (H0 & Hc & Hp & _);
    try (vm_compute; reflexivity); try discriminate.
  destruct (Hp (VInt 500) 500) as [Hx Hs]; try (vm_compute; reflexivity).
  split; [exact H0|]. split.
  - exact Hx.
  - apply Hs. vm_compute. reflexivity.
Defined.

(** C4 (as stated) fails: with an add-on charged the amount, 0.6, is not
    the amount without material, 0.4, plus the surcharge 0.2, which is
    0.6000000000000001; nor is the difference of the two amounts the
    surcharge. *)
Lemma C4_add_on_breaks_exact_surcharge :
  exists x x0,
    calculate_item_amount tenths_item = Ok x
    /\ calculate_item_amount (dremove (text "material") tenths_item) = Ok x0
    /\ x = 0.6 /\ x0 = 0.4
    /\ (x =? x0 + 0.2 * 1) = false
    /\ (x - x0 =? 0.2 * 1) = false.
Proof.
  exists 0.6, 0.4. repeat split; vm_compute; reflexivity.
Qed.

(* ------------------------------------------------------------------ *)
(** *** Add-ons: legacy string and mapping *)










(* ------------------------------------------------------------------ *)
(** *** Zero quantity *)

Lemma field_zero item k :
  truthy (get_default item k (VInt 0)) = false -> field item k = 0.
Proof. intros H. unfold field. rewrite (float_field_zero item k H). reflexivity. Qed.

Lemma base_of_zero uom l h r : zero_or_nan (base_of uom l h 0 r).
Proof.
  unfold base_of.
  destruct (eq_str uom (text "SFT")).
  - apply zero_or_nan_mul. apply mul_zero_r.
  - destruct (eq_str uom (text "RFT")).
    + apply zero_or_nan_mul. apply mul_zero_r.
    + apply mul_zero_l.
Qed.

Lemma surcharge_zero uom p l h : zero_or_nan (surcharge uom p l h 0).
Proof.
  unfold surcharge.
  destruct (eq_str uom (text "SFT")); [apply mul_zero_r|].
  destruct (eq_str uom (text "RFT")); apply mul_zero_r.
Qed.

Lemma with_material_zero item uom l h r :
  zero_or_nan
    (with_material (base_of uom l h 0 r) (material_addition item uom l h 0)).
Proof.
  unfold with_material, material_addition.
  destruct (dget (text "material") item) as [[|b|z|f|s|material]|];
    try apply base_of_zero.
  destruct (truthy (get_default material (text "selected") VNone));
    [|apply base_of_zero].
  apply zero_or_nan_add; [apply base_of_zero|].
  destruct (get_default material (text "selected") VNone);
    try apply zero_zero_or_nan.
  destruct (get_default material (text "price_additions") (VDict []));
    try apply zero_zero_or_nan.
  destruct (dget s d) as [price|]; [|apply zero_zero_or_nan].
  destruct (number_of price); [apply surcharge_zero | apply zero_zero_or_nan].
Qed.

Lemma mapping_cost_zero uom l h add_ons cost :
  plus_zero_or_nan cost ->
  plus_zero_or_nan (mapping_cost uom l h 0 add_ons cost).
Proof.
  revert cost. induction add_ons as [|[name info] rest IH]; intros cost H.
  - exact H.
  - cbn [mapping_cost]. destruct info; try (apply IH; exact H).
    apply IH.
    destruct (truthy (get_default d (text "selected") (VBool false)));
      [|exact H].
    apply plus_zero_add; [exact H | apply surcharge_zero].
Qed.

Lemma legacy_sum_zero l h segments cost :
  plus_zero_or_nan cost ->
  plus_zero_or_nan (legacy_sum l h 0 segments cost).
Proof.
  revert cost. induction segments as [|s rest IH]; intros cost H.
  - exact H.
  - cbn [legacy_sum]. apply IH.
    destruct (legacy_charge s); [|exact H].
    apply plus_zero_add; [exact H | apply mul_zero_r].
Qed.

Lemma add_on_cost_zero item uom l h :
  plus_zero_or_nan (add_on_cost item uom l h 0).
Proof.
  unfold add_on_cost.
  destruct (dget (text "add_ons") item) as [[|b|z|f|s|add_ons]|];
    try apply plus_zero_zero.
  - destruct s; [apply plus_zero_zero|].
    destruct (eq_str uom (text "SFT")); [|apply plus_zero_zero].
    apply legacy_sum_zero. apply plus_zero_zero.
  - apply mapping_cost_zero. apply plus_zero_zero.
Qed.

Lemma scale_finite_zero uom v l h :
  scale_finite uom v l h = true -> is_a_zero (surcharge uom v l h 0).
Proof.
  unfold scale_finite, surcharge.
  destruct (eq_str uom (text "SFT")).
  - intros H. apply finite_mul_zero, is_finite_finite, H.
  - destruct (eq_str uom (text "RFT")); intros H;
      apply finite_mul_zero, is_finite_finite, H.
Qed.

Lemma base_finite_zero uom l h r :
  base_finite uom l h r = true -> is_a_zero (base_of uom l h 0 r).
Proof.
  unfold base_finite, base_of. intros H.
  apply andb_true_iff in H. destruct H as [Hr H].
  apply is_finite_finite in Hr.
  destruct (eq_str uom (text "SFT")).
  - apply zero_mul_finite; [|exact Hr].
    apply finite_mul_zero, is_finite_finite, H.
  - destruct (eq_str uom (text "RFT")).
    + apply zero_mul_finite; [|exact Hr].
      apply finite_mul_zero, is_finite_finite, H.
    + apply zero_mul_finite; [exact zero_is_a_zero | exact Hr].
Qed.

Lemma with_material_finite_zero item uom l h r :
  base_finite uom l h r = true ->
  material_finite item uom l h = true ->
  is_a_zero
    (with_material (base_of uom l h 0 r) (material_addition item uom l h 0)).
Proof.
  intros Hb. apply base_finite_zero in Hb.
  unfold with_material, material_addition, material_finite.
  destruct (dget (text "material") item) as [[|b|z|f|s|material]|];
    try (intros _; exact Hb).
  destruct (truthy (get_default material (text "selected") VNone));
    [|intros _; exact Hb].
  intros H. apply zero_add_zero; [exact Hb|].
  destruct (get_default material (text "selected") VNone);
    try exact zero_is_a_zero.
  destruct (get_default material (text "price_additions") (VDict []));
    try exact zero_is_a_zero.
  destruct (dget s d) as [price|]; [|exact zero_is_a_zero].
  destruct (number_of price); [|exact zero_is_a_zero].
  apply scale_finite_zero. exact H.
Qed.

Lemma mapping_cost_finite_zero uom l h add_ons cost :
  forallb (fun kv => add_on_finite uom l h (snd kv)) add_ons = true ->
  is_plus_zero cost ->
  is_plus_zero (mapping_cost uom l h 0 add_ons cost).
Proof.
  revert cost. induction add_ons as [|[name info] rest IH]; intros cost Hf H.
  - exact H.
  - cbn [forallb snd] in Hf. apply andb_true_iff in Hf. destruct Hf as [H1 H2].
    cbn [mapping_cost]. destruct info; try (apply IH; assumption).
    apply IH; [exact H2|]. unfold add_on_finite in H1.
    destruct (truthy (get_default d (text "selected") (VBool false)));
      [|exact H].
    cbn [negb orb] in H1.
    apply plus_zero_add_zero; [exact H | apply scale_finite_zero, H1].
Qed.

Lemma legacy_sum_finite_zero l h segments cost :
  is_finite ((150 * l) * h) = true ->
  is_finite ((250 * l) * h) = true ->
  is_plus_zero cost ->
  is_plus_zero (legacy_sum l h 0 segments cost).
Proof.
  intros H150 H250. revert cost.
  induction segments as [|s rest IH]; intros cost H.
  - exact H.
  - cbn [legacy_sum]. apply IH. unfold legacy_charge.
    destruct (reads s (text "profile door")).
    + apply plus_zero_add_zero; [exact H|].
      apply finite_mul_zero, is_finite_finite, H150.
    + destruct (reads s (text "lights")); [|exact H].
      apply plus_zero_add_zero; [exact H|].
      apply finite_mul_zero, is_finite_finite, H250.
Qed.

Lemma add_on_cost_finite_zero item uom l h :
  add_ons_finite item uom l h = true ->
  is_plus_zero (add_on_cost item uom l h 0).
Proof.
  unfold add_on_cost, add_ons_finite.
  destruct (dget (text "add_ons") item) as [[|b|z|f|s|add_ons]|];
    try (intros _; exact zero_is_plus_zero).
  - destruct s; [intros _; exact zero_is_plus_zero|].
    unfold scale_finite.
    destruct (eq_str uom (text "SFT")); [|intros _; exact zero_is_plus_zero].
    intros H. apply andb_true_iff in H. destruct H as [H1 H2].
    apply legacy_sum_finite_zero; [exact H1 | exact H2 | exact zero_is_plus_zero].
  - intros H. apply mapping_cost_finite_zero; [exact H | exact zero_is_plus_zero].
Qed.

(** C9 (corrected).  On a record whose quantity is absent or false (None,
    0, 0.0, an empty string), whose other numeric fields are readable and
    whose material block and add-ons are well formed,
    [calculate_item_amount] returns 0.0 or nan: every term is a product
    with the quantity 0.0, which is a zero unless the other factor is
    infinite or nan.  It returns 0.0 whenever the rate and every product
    the quantity is multiplied with are finite. *)
Theorem C9_zero_quantity_zero_or_nan :
  (forall item,
     line_item_shaped item = true ->
     truthy (get_default item (text "quantity") (VInt 0)) = false ->
     exists x, calculate_item_amount item = Ok x /\ (x = 0 \/ x = nan))
  /\ (forall item,
        line_item_shaped item = true ->
        truthy (get_default item (text "quantity") (VInt 0)) = false ->
        products_finite item = true ->
        calculate_item_amount item = Ok 0).
Proof.
  split.
  - intros item H Hq. rewrite (ieee_amount_spec item H). cbv zeta.
    rewrite (field_zero item _ Hq). eexists. split; [reflexivity|].
    apply plus_zero_or_nan_cases. apply add_plus_zero.
    + apply with_material_zero.
    + apply add_on_cost_zero.
  - intros item H Hq Hf. rewrite (ieee_amount_spec item H). cbv zeta.
    rewrite (field_zero item _ Hq). f_equal.
    unfold products_finite in Hf.
    apply andb_true_iff in Hf. destruct Hf as [Hf Ha].
    apply andb_true_iff in Hf. destruct Hf as [Hb Hm].
    apply is_plus_zero_eq. apply zero_add_plus_zero.
    + apply with_material_finite_zero; assumption.
    + apply add_on_cost_finite_zero. exact Ha.
Qed.

Lemma C9_zero_quantity_zero_or_nan_witness :
  calculate_item_amount zero_quantity_item = Ok 0
  /\ exists x, calculate_item_amount huge_item = Ok x /\ (x = 0 \/ x = nan).
Proof.
  split.
  - apply (proj2 C9_zero_quantity_zero_or_nan); vm_compute; reflexivity.
  - apply (proj1 C9_zero_quantity_zero_or_nan); vm_compute; reflexivity.
Defined.

(** C9 (as stated) fails: with a quantity of 0 the amount is nan when
    length * height overflows, and the call raises when the rate is not a
    numeral. *)
Lemma C9_zero_quantity_not_always_zero :
  line_item_shaped huge_item = true
  /\ calculate_item_amount huge_item = Ok nan
  /\ calculate_item_amount abc_rate = Raise ValueError.
Proof. repeat split; vm_compute; reflexivity. Qed.

(* ------------------------------------------------------------------ *)
(** *** Keys *)

Lemma key_beq_eq a b : key_beq a b = true <-> a = b.
Proof.
  destruct a, b; cbn; split; try discriminate; try reflexivity.
  - intros H. apply str_eqb_eq in H. congruence.
  - intros H. injection H as ->. apply str_eqb_refl.
  - intros H. apply andb_true_iff in H. destruct H as [H1 H2].
    apply Z.eqb_eq in H1, H2. congruence.
  - intros H. injection H as -> ->. rewrite !Z.eqb_refl. reflexivity.
  - intros H. apply Bool.eqb_prop in H. congruence.
  - intros H. injection H as ->. apply Bool.eqb_reflx.
Qed.

Lemma key_eqb_true a b :
  key_eqb a b = true <-> exists x, key_of a = Some x /\ key_of b = Some x.
Proof.
  unfold key_eqb. split.
  - destruct (key_of a) as [x|]; [|discriminate].
    destruct (key_of b) as [y|]; [|discriminate].
    intros H. apply key_beq_eq in H. subst y. eauto.
  - intros (x & -> & ->). apply key_beq_eq. reflexivity.
Qed.

Lemma ieee_key_eqb_refl k : hashable k = true -> key_eqb k k = true.
Proof.
  unfold hashable. intros H. apply key_eqb_true.
  destruct (key_of k) as [x|]; [eauto | discriminate].
Qed.

Lemma ieee_key_eqb_sym a b : key_eqb a b = key_eqb b a.
Proof.
  destruct (key_eqb a b) eqn:E1, (key_eqb b a) eqn:E2; try reflexivity.
  - apply key_eqb_true in E1. destruct E1 as (x & Ha & Hb).
    assert (key_eqb b a = true) by (apply key_eqb_true; eauto). congruence.
  - apply key_eqb_true in E2. destruct E2 as (x & Ha & Hb).
    assert (key_eqb a b = true) by (apply key_eqb_true; eauto). congruence.
Qed.

Lemma ieee_key_eqb_congr a b c :
  key_eqb a b = true -> key_eqb a c = key_eqb b c.
Proof.
  intros H. apply key_eqb_true in H. destruct H as (x & Ha & Hb).
  unfold key_eqb. rewrite Ha, Hb. reflexivity.
Qed.

Lemma key_eqb_congr_r a b c :
  key_eqb a b = true -> key_eqb c a = key_eqb c b.
Proof.
  intros H. rewrite (ieee_key_eqb_sym c a), (ieee_key_eqb_sym c b).
  apply ieee_key_eqb_congr. exact H.
Qed.

(* ------------------------------------------------------------------ *)
(** *** The mapping of totals *)

Lemma totals_get_congr a b m :
  key_eqb a b = true -> totals_get a m = totals_get b m.
Proof.
  intros H. induction m as [|[k v] m IH]; [reflexivity|].
  cbn. rewrite (ieee_key_eqb_congr a b k H), IH. reflexivity.
Qed.

Lemma ieee_totals_get_init k r m :
  totals_get k (totals_init r m)
  = match totals_get k m with
    | Some v => Some v
    | None => if key_eqb k r then Some (NInt 0) else None
    end.
Proof.
  unfold totals_init. induction m as [|[k' v] m IH]; cbn.
  - reflexivity.
  - destruct (key_eqb k k'); [reflexivity | exact IH].
Qed.

Lemma totals_add_spec r amount m t :
  totals_get r m = Some t ->
  match py_add t amount with
  | Ok t' =>
      exists m',
        totals_add r amount m = Ok m'
        /\ forall k,
             totals_get k m'
             = if key_eqb k r then Some t' else totals_get k m
  | Raise e => totals_add r amount m = Raise e
  end.
Proof.
  revert t. induction m as [|[k' v] m IH]; intros t H; [discriminate|].
  cbn in H. cbn [totals_add].
  destruct (key_eqb r k') eqn:E.
  - injection H as ->.
    destruct (py_add t amount) as [t'|e]; [|reflexivity].
    cbn [bind]. eexists. split; [reflexivity|].
    intros k. cbn. rewrite <- (key_eqb_congr_r r k' k E).
    destruct (key_eqb k r); reflexivity.
  - specialize (IH t H).
    destruct (py_add t amount) as [t'|e].
    + destruct IH as (m' & Hm & Hg). rewrite Hm. cbn [bind].
      eexists. split; [reflexivity|].
      intros k. cbn. rewrite Hg.
      destruct (key_eqb k k') eqn:E1; [|reflexivity].
      destruct (key_eqb k r) eqn:E2; [|reflexivity].
      rewrite (ieee_key_eqb_sym k r) in E2.
      rewrite (ieee_key_eqb_congr r k k' E2) in E. congruence.
    + rewrite IH. reflexivity.
Qed.

Lemma ieee_accumulate_spec room amount m :
  hashable room = true ->
  match py_add (total_before room m) amount with
  | Ok t' =>
      exists m',
        accumulate room amount m = Ok m'
        /\ forall k,
             totals_get k m'
             = if key_eqb k room then Some t' else totals_get k m
  | Raise e => accumulate room amount m = Raise e
  end.
Proof.
  intros Hh. unfold accumulate, total_before. rewrite Hh.
  destruct (totals_get room m) as [t|] eqn:E.
  - apply (totals_add_spec room amount m t E).
  - assert (Hi : totals_get room (totals_init room m) = Some (NInt 0)).
    { rewrite ieee_totals_get_init, E, (ieee_key_eqb_refl room Hh). reflexivity. }
    pose proof (totals_add_spec room amount _ _ Hi) as H.
    destruct (py_add (NInt 0) amount) as [t'|e]; [|exact H].
    destruct H as (m' & Hm & Hg). exists m'. split; [exact Hm|].
    intros k. rewrite Hg, ieee_totals_get_init.
    destruct (key_eqb k room) eqn:Ek; [reflexivity|].
    destruct (totals_get k m); reflexivity.
Qed.

Lemma room_loop_app a b m :
  room_loop (a ++ b) m = bind (room_loop a m) (room_loop b).
Proof.
  revert m. induction a as [|item a IH]; intros m; [reflexivity|].
  cbn [app room_loop].
  destruct (getitem item (text "room")) as [room|]; [|reflexivity].
  destruct (getitem item (text "amount")) as [amount|]; [|reflexivity].
  cbn [bind].
  destruct (accumulate room amount m) as [m'|]; [|reflexivity].
  cbn [bind]. apply IH.
Qed.

Lemma room_loop_incomplete item rest m :
  complete item = false -> room_loop (item :: rest) m = Raise KeyError.
Proof.
  unfold complete. intros H. cbn [room_loop]. unfold getitem.
  destruct (dget (text "room") item); [|reflexivity].
  destruct (dget (text "amount") item); [discriminate | reflexivity].
Qed.

Lemma ieee_room_loop_returned items :
  forall m m', room_loop items m = Ok m' -> forallb complete items = true.
Proof.
  induction items as [|item rest IH]; intros m m' H; [reflexivity|].
  cbn [forallb]. destruct (complete item) eqn:E.
  - cbn [room_loop] in H. unfold complete, getitem in *.
    destruct (dget (text "room") item) as [room|]; [|discriminate].
    destruct (dget (text "amount") item) as [amount|]; [|discriminate].
    cbn [bind] in H.
    destruct (accumulate room amount m) as [m1|]; [|discriminate].
    cbn [bind] in H. apply (IH m1 m' H).
  - rewrite (room_loop_incomplete item rest m E) in H. discriminate.
Qed.

Lemma room_loop_step item rest m room amount :
  dget (text "room") item = Some room ->
  dget (text "amount") item = Some amount ->
  room_loop (item :: rest) m
  = bind (accumulate room amount m) (room_loop rest).
Proof.
  intros Hr Ha. cbn [room_loop]. unfold getitem. rewrite Hr, Ha. reflexivity.
Qed.

Lemma py_add_type_error t amount :
  match amount with
  | VBool _ | VInt _ | VFloat _ => False
  | _ => True
  end ->
  py_add t amount = Raise TypeError.
Proof.
  destruct t, amount; cbn; intros H; try contradiction; reflexivity.
Qed.

(* ------------------------------------------------------------------ *)
(** *** Missing keys in the aggregation *)

(** C10 (corrected).  [calculate_room_totals] subscripts both keys
    without defaults: it raises [KeyError] at the first item that lacks
    [room] or [amount], provided the loop gets that far, that is, the
    items before it alone are totalled without error; and it returns a
    mapping only when every item has both keys.  An item before it with an
    unhashable room or an amount that is no number raises [TypeError]
    first. *)
Theorem C10_room_totals_missing_key :
  (forall before item after m,
     calculate_room_totals before = Ok m ->
     complete item = false ->
     calculate_room_totals (before ++ item :: after) = Raise KeyError)
  /\ (forall line_items m,
        calculate_room_totals line_items = Ok m ->
        forallb complete line_items = true)
  /\ (forall before item after m room amount,
        calculate_room_totals before = Ok m ->
        dget (text "room") item = Some room ->
        dget (text "amount") item = Some amount ->
        hashable room = false
        \/ match amount with
           | VBool _ | VInt _ | VFloat _ => False
           | _ => True
           end ->
        calculate_room_totals (before ++ item :: after) = Raise TypeError).
Proof.
  unfold calculate_room_totals. split; [|split].
  - intros before item after m Hb Hc.
    rewrite room_loop_app, Hb. cbn [bind].
    apply room_loop_incomplete. exact Hc.
  - intros line_items m H. apply (ieee_room_loop_returned line_items [] m H).
  - intros before item after m room amount Hb Hr Ha Ht.
    rewrite room_loop_app, Hb. cbn [bind].
    rewrite (room_loop_step item after m room amount Hr Ha).
    destruct (hashable room) eqn:Hh.
    + destruct Ht as [Ht | Ht]; [discriminate|].
      pose proof (ieee_accumulate_spec room amount m Hh) as H.
      rewrite (py_add_type_error _ amount Ht) in H. rewrite H. reflexivity.
    + unfold accumulate. rewrite Hh. reflexivity.
Qed.

Lemma C10_room_totals_missing_key_witness :
  calculate_room_totals
    (whole_amounts ++ [(text "room", VStr (text "Hall"))] :: whole_amounts)
  = Raise KeyError.
Proof.
  apply (proj1 C10_room_totals_missing_key whole_amounts
           [(text "room", VStr (text "Hall"))] whole_amounts
           [(VStr (text "Hall"), NInt 1500);
            (VStr (text "Kitchen"), NInt 2000)]);
    vm_compute; reflexivity.
Defined.

(** C10 (as stated) fails: a list with an item that lacks [amount] raises
    [TypeError], not [KeyError], when an amount before it is [None]. *)
Lemma C10_type_error_before_missing_key :
  complete (hall_amount VNone) = true
  /\ complete [(text "room", VStr (text "Hall"))] = false
  /\ calculate_room_totals none_then_incomplete = Raise TypeError.
Proof. repeat split; vm_compute; reflexivity. Qed.

(* ------------------------------------------------------------------ *)
(** *** Order of the line items *)

Lemma room_loop_cons item rest m m' :
  room_loop (item :: rest) m = Ok m' ->
  exists room amount t' m1,
    dget (text "room") item = Some room
    /\ dget (text "amount") item = Some amount
    /\ hashable room = true
    /\ py_add (total_before room m) amount = Ok t'
    /\ (forall k,
          totals_get k m1
          = if key_eqb k room then Some t' else totals_get k m)
    /\ room_loop rest m1 = Ok m'.
Proof.
  intros H. cbn [room_loop] in H. unfold getitem in H.
  destruct (dget (text "room") item) as [room|]; [|discriminate].
  destruct (dget (text "amount") item) as [amount|]; [|discriminate].
  cbn [bind] in H.
  destruct (hashable room) eqn:Hh.
  - pose proof (ieee_accumulate_spec room amount m Hh) as Ha.
    destruct (py_add (total_before room m) amount) as [t'|e] eqn:Ep.
    + destruct Ha as (m1 & Hm & Hg). rewrite Hm in H. cbn [bind] in H.
      exists room, amount, t', m1. repeat split; auto.
    + rewrite Ha in H. discriminate.
  - unfold accumulate in H. rewrite Hh in H. discriminate.
Qed.

Lemma room_loop_keyed items :
  forall m m', room_loop items m = Ok m' -> forallb keyed items = true.
Proof.
  induction items as [|item rest IH]; intros m m' H; [reflexivity|].
  destruct (room_loop_cons item rest m m' H)
    as (room & amount & t' & m1 & Hr & Ha & Hh & Hp & Hg & Hl).
  cbn [forallb]. unfold keyed at 1. rewrite Hr, Hh. apply (IH m1 m' Hl).
Qed.

Lemma has_room_cons k item rest :
  has_room k (item :: rest) = of_room k item || has_room k rest.
Proof. reflexivity. Qed.

Lemma room_loop_rooms items :
  forall m m',
    room_loop items m = Ok m' ->
    forall k,
      totals_get k m' = None
      <-> (totals_get k m = None /\ has_room k items = false).
Proof.
  induction items as [|item rest IH]; intros m m' H k.
  - cbn in H. injection H as <-. cbn. tauto.
  - destruct (room_loop_cons item rest m m' H)
      as (room & amount & t' & m1 & Hr & Ha & Hh & Hp & Hg & Hl).
    rewrite (IH m1 m' Hl k), Hg, has_room_cons.
    unfold of_room. rewrite Hr.
    destruct (key_eqb k room); cbn [orb].
    + split; intros [H1 H2]; discriminate.
    + tauto.
Qed.

Lemma has_room_permutation k l1 l2 :
  Permutation l1 l2 -> has_room k l1 = has_room k l2.
Proof.
  unfold has_room. induction 1; cbn.
  - reflexivity.
  - rewrite IHPermutation. reflexivity.
  - destruct (of_room k x), (of_room k y); reflexivity.
  - congruence.
Qed.

Lemma forallb_permutation {A : Type} (f : A -> bool) l1 l2 :
  Permutation l1 l2 -> forallb f l1 = forallb f l2.
Proof.
  induction 1; cbn.
  - reflexivity.
  - rewrite IHPermutation. reflexivity.
  - destruct (f x), (f y); reflexivity.
  - congruence.
Qed.

Lemma room_sum_permutation k l1 l2 :
  Permutation l1 l2 -> room_sum k l1 = room_sum k l2.
Proof.
  induction 1; cbn.
  - reflexivity.
  - rewrite IHPermutation. reflexivity.
  - lia.
  - congruence.
Qed.

Lemma room_sum_absent k items :
  has_room k items = false -> room_sum k items = 0%Z.
Proof.
  unfold has_room. induction items as [|item rest IH]; cbn; [reflexivity|].
  intros H. apply orb_false_iff in H. destruct H as [H1 H2].
  rewrite H1, (IH H2). reflexivity.
Qed.

Lemma float_sum_absent k items total :
  has_room k items = false -> float_sum k items total = total.
Proof.
  unfold has_room. revert total.
  induction items as [|item rest IH]; intros total; cbn; [reflexivity|].
  intros H. apply orb_false_iff in H. destruct H as [H1 H2].
  rewrite H1. apply IH. exact H2.
Qed.

Lemma total_before_int room m :
  all_ints m -> total_before room m = NInt (int_before room m).
Proof.
  intros H. unfold total_before, int_before.
  destruct (totals_get room m) as [t|] eqn:E; [|reflexivity].
  destruct (H room t E) as [z ->]. reflexivity.
Qed.

Lemma py_add_exact c item amount :
  dget (text "amount") item = Some amount ->
  exact_amount item = true ->
  py_add (NInt c) amount = Ok (NInt (c + int_of item)).
Proof.
  unfold exact_amount, int_of. intros ->.
  destruct amount as [|b|z|f|s|d]; try discriminate; intros _.
  - destruct b; reflexivity.
  - reflexivity.
Qed.

Lemma exact_loop_spec items :
  forall m,
    forallb complete items = true ->
    forallb keyed items = true ->
    forallb exact_amount items = true ->
    all_ints m ->
    exists m',
      room_loop items m = Ok m'
      /\ all_ints m'
      /\ forall k,
           totals_get k m'
           = if has_room k items
             then Some (NInt (int_before k m + room_sum k items))
             else totals_get k m.
Proof.
  induction items as [|item rest IH]; intros m Hc Hk He Hm.
  - exists m. split; [reflexivity|]. split; [exact Hm|]. reflexivity.
  - cbn [forallb] in Hc, Hk, He.
    apply andb_true_iff in Hc, Hk, He.
    destruct Hc as [Hc1 Hc2], Hk as [Hk1 Hk2], He as [He1 He2].
    unfold complete in Hc1. unfold keyed in Hk1.
    destruct (dget (text "room") item) as [room|] eqn:Er; [|discriminate].
    destruct (dget (text "amount") item) as [amount|] eqn:Ea; [|discriminate].
    pose proof (ieee_accumulate_spec room amount m Hk1) as Hacc.
    rewrite (total_before_int room m Hm) in Hacc.
    rewrite (py_add_exact _ item amount Ea He1) in Hacc.
    destruct Hacc as (m1 & Hm1 & Hg).
    assert (Hi : all_ints m1).
    { intros k t. rewrite Hg. destruct (key_eqb k room).
      - intros H. injection H as <-. eauto.
      - apply Hm. }
    destruct (IH m1 Hc2 Hk2 He2 Hi) as (m' & Hl & Hi' & Hg').
    exists m'. split.
    { rewrite (room_loop_step item rest m room amount Er Ea), Hm1. exact Hl. }
    split; [exact Hi'|].
    intros k. rewrite Hg', has_room_cons. cbn [room_sum].
    unfold of_room. rewrite Er.
    unfold int_before at 1. rewrite Hg.
    destruct (key_eqb k room) eqn:Ek; cbn [orb].
    + unfold int_before. rewrite (totals_get_congr k room m Ek).
      fold (int_before room m).
      destruct (has_room k rest) eqn:Eh.
      * f_equal. f_equal. lia.
      * rewrite (room_sum_absent k rest Eh). f_equal. f_equal. lia.
    + fold (int_before k m). rewrite Z.add_0_l. reflexivity.
Qed.

Lemma total_before_float room m :
  all_floats m ->
  total_before room m = NFloat (float_before room m)
  \/ (totals_get room m = None /\ total_before room m = NInt 0).
Proof.
  intros H. unfold total_before, float_before.
  destruct (totals_get room m) as [t|] eqn:E.
  - destruct (H room t E) as [f ->]. left. reflexivity.
  - right. split; reflexivity.
Qed.

Lemma float_loop_spec items :
  forall m,
    forallb complete items = true ->
    forallb keyed items = true ->
    forallb float_amount items = true ->
    all_floats m ->
    exists m',
      room_loop items m = Ok m'
      /\ all_floats m'
      /\ forall k,
           totals_get k m'
           = if has_room k items
             then Some (NFloat (float_sum k items (float_before k m)))
             else totals_get k m.
Proof.
  induction items as [|item rest IH]; intros m Hc Hk He Hm.
  - exists m. split; [reflexivity|]. split; [exact Hm|]. reflexivity.
  - cbn [forallb] in Hc, Hk, He.
    apply andb_true_iff in Hc, Hk, He.
    destruct Hc as [Hc1 Hc2], Hk as [Hk1 Hk2], He as [He1 He2].
    unfold complete in Hc1. unfold keyed in Hk1. unfold float_amount in He1.
    destruct (dget (text "room") item) as [room|] eqn:Er; [|discriminate].
    destruct (dget (text "amount") item) as [amount|] eqn:Ea; [|discriminate].
    destruct amount as [|b|z|g|s|d]; try discriminate.
    pose proof (ieee_accumulate_spec room (VFloat g) m Hk1) as Hacc.
    assert (Hadd : py_add (total_before room m) (VFloat g)
                   = Ok (NFloat (float_before room m + g))).
    { destruct (total_before_float room m Hm) as [-> | [Hn ->]].
      - reflexivity.
      - unfold float_before. rewrite Hn. reflexivity. }
    rewrite Hadd in Hacc. destruct Hacc as (m1 & Hm1 & Hg).
    assert (Hi : all_floats m1).
    { intros k t. rewrite Hg. destruct (key_eqb k room).
      - intros H. injection H as <-. eauto.
      - apply Hm. }
    destruct (IH m1 Hc2 Hk2 He2 Hi) as (m' & Hl & Hi' & Hg').
    exists m'. split.
    { rewrite (room_loop_step item rest m room (VFloat g) Er Ea), Hm1.
      exact Hl. }
    split; [exact Hi'|].
    intros k. rewrite Hg', has_room_cons. cbn [float_sum].
    unfold of_room. rewrite Er.
    unfold float_of. rewrite Ea.
    unfold float_before at 1. rewrite Hg.
    destruct (key_eqb k room) eqn:Ek; cbn [orb].
    + unfold float_before. rewrite (totals_get_congr k room m Ek).
      fold (float_before room m).
      destruct (has_room k rest) eqn:Eh.
      * reflexivity.
      * rewrite (float_sum_absent k rest _ Eh). reflexivity.
    + fold (float_before k m). reflexivity.
Qed.

Lemma all_ints_nil : all_ints [].
Proof. intros k t H. discriminate. Qed.

Lemma all_floats_nil : all_floats [].
Proof. intros k t H. discriminate. Qed.

(** C7 (corrected).  The rooms of the mapping do not depend on the order
    of the line items, and the totals do not either when every amount is
    an int or a bool, whose sums are exact.  With float amounts every
    permutation is totalled without error, but each room's total is the
    sum of its amounts added as doubles in list order from 0, which
    rounds differently in different orders. *)
Theorem C7_room_totals_order :
  (forall l1 l2 m1 m2,
     Permutation l1 l2 ->
     calculate_room_totals l1 = Ok m1 ->
     calculate_room_totals l2 = Ok m2 ->
     forall k, totals_get k m1 = None <-> totals_get k m2 = None)
  /\ (forall l1 l2 m1,
        Permutation l1 l2 ->
        forallb exact_amount l1 = true ->
        calculate_room_totals l1 = Ok m1 ->
        exists m2,
          calculate_room_totals l2 = Ok m2
          /\ forall k, totals_get k m1 = totals_get k m2)
  /\ (forall l1 l2 m1,
        Permutation l1 l2 ->
        forallb float_amount l1 = true ->
        calculate_room_totals l1 = Ok m1 ->
        exists m2,
          calculate_room_totals l2 = Ok m2
          /\ forall k,
               totals_get k m2
               = if has_room k l2
                 then Some (NFloat (float_sum k l2 0))
                 else None).
Proof.
  unfold calculate_room_totals. split; [|split].
  - intros l1 l2 m1 m2 Hp H1 H2 k.
    rewrite (room_loop_rooms l1 [] m1 H1 k), (room_loop_rooms l2 [] m2 H2 k).
    rewrite (has_room_permutation k l1 l2 Hp). tauto.
  - intros l1 l2 m1 Hp He H1.
    pose proof (ieee_room_loop_returned l1 [] m1 H1) as Hc.
    pose proof (room_loop_keyed l1 [] m1 H1) as Hk.
    destruct (exact_loop_spec l1 [] Hc Hk He all_ints_nil)
      as (m1' & Hl1 & _ & Hg1).
    rewrite H1 in Hl1. injection Hl1 as <-.
    rewrite (forallb_permutation complete l1 l2 Hp) in Hc.
    rewrite (forallb_permutation keyed l1 l2 Hp) in Hk.
    rewrite (forallb_permutation _ l1 l2 Hp) in He.
    destruct (exact_loop_spec l2 [] Hc Hk He all_ints_nil)
      as (m2 & Hl2 & _ & Hg2).
    exists m2. split; [exact Hl2|].
    intros k. rewrite Hg1, Hg2.
    rewrite (has_room_permutation k l1 l2 Hp),
      (room_sum_permutation k l1 l2 Hp).
    reflexivity.
  - intros l1 l2 m1 Hp He H1.
    pose proof (ieee_room_loop_returned l1 [] m1 H1) as Hc.
    pose proof (room_loop_keyed l1 [] m1 H1) as Hk.
    rewrite (forallb_permutation complete l1 l2 Hp) in Hc.
    rewrite (forallb_permutation keyed l1 l2 Hp) in Hk.
    rewrite (forallb_permutation _ l1 l2 Hp) in He.
    destruct (float_loop_spec l2 [] Hc Hk He all_floats_nil)
      as (m2 & Hl2 & _ & Hg2).
    exists m2. split; [exact Hl2|]. exact Hg2.
Qed.

Lemma C7_room_totals_order_witness :
  exists m2,
    calculate_room_totals whole_amounts_reordered = Ok m2
    /\ forall k,
         totals_get k
           [(VStr (text "Hall"), NInt 1500);
            (VStr (text "Kitchen"), NInt 2000)]
         = totals_get k m2.
Proof.
  apply (proj1 (proj2 C7_room_totals_order) whole_amounts).
  - unfold whole_amounts, whole_amounts_reordered.
    apply perm_trans with
      (hall_amount (VInt 1000) :: hall_amount (VInt 500)
       :: [kitchen_amount (VInt 2000)]).
    + apply perm_skip. apply perm_swap.
    + apply perm_swap.
  - vm_compute. reflexivity.
  - vm_compute. reflexivity.
Defined.

(** C7 (as stated) fails: the same three float amounts of one room total
    0.6000000000000001 in one order and 0.6 in another. *)
Lemma C7_float_totals_depend_on_order :
  Permutation tenths tenths_reordered
  /\ calculate_room_totals tenths
     = Ok [(VStr (text "Hall"), NFloat 0.6000000000000001)]
  /\ calculate_room_totals tenths_reordered
     = Ok [(VStr (text "Hall"), NFloat 0.6)]
  /\ (0.6000000000000001 =? 0.6) = false.
Proof.
  split.
  - unfold tenths, tenths_reordered.
    apply perm_trans with
      (hall_amount (VFloat 0.2) :: hall_amount (VFloat 0.1)
       :: [hall_amount (VFloat 0.3)]).
    + apply perm_swap.
    + apply perm_trans with
        (hall_amount (VFloat 0.2) :: hall_amount (VFloat 0.3)
         :: [hall_amount (VFloat 0.1)]).
      * apply perm_skip. apply perm_swap.
      * apply perm_swap.
  - repeat split; vm_compute; reflexivity.
Qed.

(* ------------------------------------------------------------------ *)
(** *** Splitting and trimming *)

Lemma split_first_app sep a b :
  ~ In sep a -> split_first sep (a ++ sep :: b) = Some (a, b).
Proof.
  induction a as [|c a IH]; intros H.
  - cbn. rewrite N.eqb_refl. reflexivity.
  - cbn [app split_first]. destruct (N.eqb_spec c sep) as [->|Hc].
    + exfalso. apply H. left. reflexivity.
    + rewrite IH; [reflexivity|]. intros Hs. apply H. right. exact Hs.
Qed.

Lemma split_first_none sep s : ~ In sep s -> split_first sep s = None.
Proof.
  induction s as [|c s IH]; intros H; [reflexivity|].
  cbn [split_first]. destruct (N.eqb_spec c sep) as [->|Hc].
  - exfalso. apply H. left. reflexivity.
  - rewrite IH; [reflexivity|]. intros Hs. apply H. right. exact Hs.
Qed.

Lemma lstrip_spaces p s : forallb is_space p = true -> lstrip (p ++ s) = lstrip s.
Proof.
  induction p as [|c p IH]; intros H; [reflexivity|].
  cbn [forallb] in H. apply andb_true_iff in H. destruct H as [H1 H2].
  cbn [app lstrip]. rewrite H1. apply IH. exact H2.
Qed.

Lemma rstrip_spaces p : forallb is_space p = true -> rstrip p = [].
Proof.
  induction p as [|c p IH]; intros H; [reflexivity|].
  cbn [forallb] in H. apply andb_true_iff in H. destruct H as [H1 H2].
  cbn [rstrip]. rewrite (IH H2), H1. reflexivity.
Qed.

Lemma rstrip_app_spaces s p :
  forallb is_space p = true -> rstrip (s ++ p) = rstrip s.
Proof.
  intros H. induction s as [|c s IH].
  - cbn. apply rstrip_spaces. exact H.
  - cbn [app rstrip]. rewrite IH. reflexivity.
Qed.

Lemma rstrip_last s d :
  s <> [] -> is_space (last s d) = false -> rstrip s = s.
Proof.
  induction s as [|c s IH]; intros Hne H; [contradiction|].
  destruct s as [|c' s].
  - cbn in H. cbn. rewrite H. reflexivity.
  - change (last (c :: c' :: s) d) with (last (c' :: s) d) in H.
    cbn [rstrip]. cbn [rstrip] in IH. rewrite IH; [reflexivity | discriminate | exact H].
Qed.

Lemma last_cons {A : Type} (x : A) l d : l <> [] -> last (x :: l) d = last l d.
Proof. destruct l; [contradiction | reflexivity]. Qed.

Lemma last_app_cons {A : Type} (p : list A) c s d :
  last (p ++ c :: s) d = last (c :: s) d.
Proof.
  induction p as [|x p IH]; [reflexivity|].
  cbn [app]. rewrite last_cons; [exact IH|].
  destruct p; discriminate.
Qed.

Lemma last_indep {A : Type} (s : list A) d d' :
  s <> [] -> last s d = last s d'.
Proof.
  induction s as [|c s IH]; intros H; [contradiction|].
  destruct s as [|c' s]; [reflexivity|].
  change (last (c' :: s) d = last (c' :: s) d'). apply IH. discriminate.
Qed.

Lemma strip_padded before core after :
  forallb is_space before = true ->
  forallb is_space after = true ->
  trimmed core ->
  strip (before ++ core ++ after) = core.
Proof.
  intros Hb Ha Hc. unfold strip.
  rewrite app_assoc, rstrip_app_spaces by exact Ha.
  destruct core as [|c core].
  - rewrite app_nil_r, rstrip_spaces by exact Hb. reflexivity.
  - destruct Hc as [H1 H2].
    rewrite (rstrip_last _ c).
    + rewrite lstrip_spaces by exact Hb. cbn [lstrip]. rewrite H1. reflexivity.
    + destruct before; discriminate.
    + rewrite last_app_cons. exact H2.
Qed.

Lemma rstrip_ends s d :
  rstrip s = [] \/ is_space (last (rstrip s) d) = false.
Proof.
  induction s as [|c s IH]; [left; reflexivity|].
  cbn [rstrip]. destruct (rstrip s) as [|c' r] eqn:E.
  - destruct (is_space c) eqn:Ec; [left; reflexivity|].
    right. cbn. exact Ec.
  - right. destruct IH as [IH | IH]; [discriminate|].
    change (last (c :: c' :: r) d) with (last (c' :: r) d). exact IH.
Qed.

Lemma lstrip_suffix s :
  exists p, s = (p ++ lstrip s)%list.
Proof.
  induction s as [|c s IH]; [exists []; reflexivity|].
  cbn [lstrip]. destruct (is_space c).
  - destruct IH as [p Hp]. exists (c :: p). cbn. congruence.
  - exists []. reflexivity.
Qed.

Lemma lstrip_first s :
  match lstrip s with
  | [] => True
  | c :: _ => is_space c = false
  end.
Proof.
  induction s as [|c s IH]; [exact I|].
  cbn [lstrip]. destruct (is_space c) eqn:E; [exact IH | exact E].
Qed.

Lemma strip_trimmed s : trimmed (strip s).
Proof.
  unfold trimmed, strip.
  pose proof (lstrip_first (rstrip s)) as Hf.
  destruct (lstrip (rstrip s)) as [|c r] eqn:E; [exact I|].
  split; [exact Hf|].
  destruct (lstrip_suffix (rstrip s)) as [p Hp]. rewrite E in Hp.
  destruct (rstrip_ends s c) as [H | H].
  - rewrite H in Hp. destruct p; discriminate.
  - rewrite Hp, last_app_cons in H. exact H.
Qed.

(* ------------------------------------------------------------------ *)
(** *** The price mapping *)

Lemma ieee_price_get_set_same k v m : price_get k (price_set k v m) = Some v.
Proof.
  induction m as [|[k' v'] m IH]; cbn.
  - rewrite str_eqb_refl. reflexivity.
  - destruct (str_eqb k k') eqn:E; cbn; rewrite E; [reflexivity | exact IH].
Qed.

Lemma ieee_price_get_set_other k k' v m :
  str_eqb k k' = false -> price_get k (price_set k' v m) = price_get k m.
Proof.
  intros H. induction m as [|[k1 v1] m IH]; cbn.
  - rewrite H. reflexivity.
  - destruct (str_eqb k' k1) eqn:E; cbn.
    + apply str_eqb_eq in E. subst k1. rewrite H. reflexivity.
    + rewrite IH. reflexivity.
Qed.

Lemma price_set_keys k v m n :
  In n (map fst (price_set k v m)) -> n = k \/ In n (map fst m).
Proof.
  induction m as [|[k1 v1] m IH]; cbn.
  - intros [<- | []]. left. reflexivity.
  - destruct (str_eqb k k1) eqn:E; cbn.
    + intros [<- | H]; [right; left; reflexivity | right; right; exact H].
    + intros [<- | H]; [right; left; reflexivity|].
      destruct (IH H) as [-> | H']; [left; reflexivity | right; right; exact H'].
Qed.

Lemma parse_pairs_step segment rest prices :
  parse_pairs (segment :: rest) prices
  = parse_pairs rest
      match segment_pair segment with
      | Some (k, p) => price_set k p prices
      | None => prices
      end.
Proof.
  cbn [parse_pairs]. unfold segment_pair.
  destruct (split_first 58 segment) as [[name price_str]|]; [|reflexivity].
  destruct (float_of_string (strip price_str)); reflexivity.
Qed.

Lemma parse_pairs_get name segments :
  forall prices,
    price_get name (parse_pairs segments prices)
    = match last_price name segments with
      | Some p => Some p
      | None => price_get name prices
      end.
Proof.
  induction segments as [|segment rest IH]; intros prices; [reflexivity|].
  rewrite parse_pairs_step, IH. cbn [last_price].
  destruct (last_price name rest); [reflexivity|].
  destruct (segment_pair segment) as [[k p]|]; [|reflexivity].
  destruct (str_eqb name k) eqn:E.
  - apply str_eqb_eq in E. subst k. apply ieee_price_get_set_same.
  - apply ieee_price_get_set_other. exact E.
Qed.

Lemma parse_pairs_keys segments :
  forall prices,
    (forall k, In k (map fst prices) -> trimmed k) ->
    forall k, In k (map fst (parse_pairs segments prices)) -> trimmed k.
Proof.
  induction segments as [|segment rest IH]; intros prices H; [exact H|].
  rewrite parse_pairs_step. apply IH.
  unfold segment_pair.
  destruct (split_first 58 segment) as [[name price_str]|]; [|exact H].
  destruct (float_of_string (strip price_str)); [|exact H].
  intros k Hk. destruct (price_set_keys _ _ _ _ Hk) as [-> | Hk'].
  - apply strip_trimmed.
  - apply H. exact Hk'.
Qed.

Lemma segment_pair_colon name rest :
  ~ In 58%N name ->
  segment_pair (name ++ 58%N :: rest)
  = match float_of_string (strip rest) with
    | Some p => Some (strip name, p)
    | None => None
    end.
Proof.
  intros H. unfold segment_pair. rewrite (split_first_app 58 name rest H).
  reflexivity.
Qed.

Lemma segment_pair_no_colon segment :
  ~ In 58%N segment -> segment_pair segment = None.
Proof.
  intros H. unfold segment_pair. rewrite (split_first_none 58 segment H).
  reflexivity.
Qed.

(** C8.  [parse_price_mapping] raises nothing on a string.  It splits the
    string at every comma and a segment at its first colon; a segment is
    kept when it has a colon and [float] accepts the trimmed text after the
    first colon, and is dropped otherwise; the name of a kept segment is
    the text before the first colon without the whitespace around it.  The
    mapping holds, for every name, the price of the last kept segment of
    that name.  In particular ["bad,Lights:250"] gives
    [{"Lights": 250.0}]. *)
Theorem C8_parse_price_mapping :
  (forall s,
     exists m,
       parse_price_mapping (VStr s) = Ok m
       /\ forall name, price_get name m = last_price name (split 44 s))
  /\ (forall segments,
        segments <> [] ->
        (forall s, In s segments -> ~ In 44%N s) ->
        split 44 (join 44 segments) = segments)
  /\ (forall name rest,
        ~ In 58%N name ->
        segment_pair (name ++ 58%N :: rest)
        = match float_of_string (strip rest) with
          | Some p => Some (strip name, p)
          | None => None
          end)
  /\ (forall segment, ~ In 58%N segment -> segment_pair segment = None)
  /\ (forall before core after,
        forallb is_space before = true ->
        forallb is_space after = true ->
        trimmed core ->
        strip (before ++ core ++ after) = core)
  /\ parse_price_mapping (VStr (text "bad,Lights:250"))
     = Ok [(text "Lights", 250)]
  /\ parse_price_mapping (VStr (text "Lights:250,Profile Door:150"))
     = Ok [(text "Lights", 250); (text "Profile Door", 150)]
  /\ parse_price_mapping
       (VStr (text " a:b:1 , Lights : 2.5e2 ,x:inf, :7,Lights:abc,A:1,A:2"))
     = Ok [(text "Lights", 250); (text "x", infinity); ([], 7);
           (text "A", 2)]
  /\ parse_price_mapping (VStr (160%N :: text "Lights:" ++ [9%N; 53%N; 12288%N]))
     = Ok [(text "Lights", 5)]
  /\ parse_price_mapping (VStr []) = Ok []
  /\ parse_price_mapping VNone = Ok [].
Proof.
  split; [|split; [|split; [|split; [|split]]]].
  - intros s. unfold parse_price_mapping.
    destruct s as [|c s].
    + exists []. split; reflexivity.
    + cbn [truthy negb]. eexists. split; [reflexivity|].
      intros name. rewrite parse_pairs_get.
      destruct (last_price name (split 44 (c :: s))); reflexivity.
  - apply split_join.
  - apply segment_pair_colon.
  - apply segment_pair_no_colon.
  - apply strip_padded.
  - repeat split; vm_compute; reflexivity.
Qed.

Lemma C8_parse_price_mapping_witness :
  segment_pair (text " Lights " ++ 58%N :: text " 2.5e2 ")
  = Some (text "Lights", 250)
  /\ segment_pair (text "no colon here") = None
  /\ strip (text "  " ++ text "Profile Door" ++ [9%N; 160%N])
     = text "Profile Door".
Proof.
  split; [|split].
  - rewrite (proj1 (proj2 (proj2 C8_parse_price_mapping))
               (text " Lights ") (text " 2.5e2 ")).
    + vm_compute. reflexivity.
    + vm_compute. intros H.
      repeat (destruct H as [H | H]; [discriminate|]). exact H.
  - apply (proj1 (proj2 (proj2 (proj2 C8_parse_price_mapping)))).
    vm_compute. intros H.
    repeat (destruct H as [H | H]; [discriminate|]). exact H.
  - apply (proj1 (proj2 (proj2 (proj2 (proj2 C8_parse_price_mapping))))).
    + vm_compute. reflexivity.
    + vm_compute. reflexivity.
    + vm_compute. split; reflexivity.
Defined.

(** The names of a parsed price mapping have no whitespace at either
    end, Unicode whitespace included. *)
Theorem price_names_are_trimmed :
  (forall s m name,
     parse_price_mapping (VStr s) = Ok m ->
     In name (map fst m) -> trimmed name)
  /\ (forall s, trimmed (strip s))
  /\ parse_price_mapping
       (VStr (160%N :: text " Lights" ++ [8195%N] ++ text ": 5"))
     = Ok [(text "Lights", 5)].
Proof.
  split; [|split].
  - intros s m name H. unfold parse_price_mapping in H.
    destruct s as [|c s].
    + injection H as <-. intros [].
    + cbn [truthy negb] in H. injection H as <-.
      apply parse_pairs_keys. intros k [].
  - apply strip_trimmed.
  - vm_compute. reflexivity.
Qed.

Lemma price_names_are_trimmed_witness :
  trimmed (text "Lights").
Proof.
  apply (proj1 price_names_are_trimmed
           (text "  Lights  : 250 , x") [(text "Lights", 250)]).
  - vm_compute. reflexivity.
  - left. reflexivity.
Defined.

(* ------------------------------------------------------------------ *)
(** *** The amount in the order of the code *)

(** The amount of a shaped record in doubles, in the order the code
    computes it: the base amount, to which the scaled surcharge of the
    selected material is added, to which the add-on cost is added; the
    add-on cost is the sum, from 0 and in the order of the mapping, of the
    scaled rates of the selected add-ons; every product is taken from the
    left. *)
Theorem amount_in_code_order :
  (forall item,
     line_item_shaped item = true ->
     let uom := uom_of item in
     let l := field item (text "length") in
     let h := field item (text "height") in
     let q := field item (text "quantity") in
     let r := field item (text "rate") in
     calculate_item_amount item
     = Ok (with_material (base_of uom l h q r)
             (material_addition item uom l h q)
           + add_on_cost item uom l h q))
  /\ calculate_item_amount fitted_item
     = Ok (((10.6 * 6.5) * 4 * 688 + ((200 * 10.6) * 6.5) * 4)
           + ((0 + ((0.1 * 10.6) * 6.5) * 4) + ((0.2 * 10.6) * 6.5) * 4))
  /\ calculate_item_amount fitted_item = Ok 244815.47999999998.
Proof.
  split; [exact ieee_amount_spec|]. split; vm_compute; reflexivity.
Qed.

Lemma amount_in_code_order_witness :
  calculate_item_amount tenths_item = Ok ((1 * 0.3 + 0.2 * 1) + (0 + 0.1 * 1)).
Proof.
  rewrite (proj1 amount_in_code_order tenths_item).
  - vm_compute. reflexivity.
  - vm_compute. reflexivity.
Defined.

(* ------------------------------------------------------------------ *)
(** *** The sign of the amount *)

Lemma binary_round_aux_sign sx mx ex lx :
  match binary_round_aux prec emax sx mx ex lx with
  | S754_zero s | S754_infinity s | S754_finite s _ _ => s = sx
  | S754_nan => True
  end.
Proof.
  unfold binary_round_aux.
  destruct (shr_fexp prec emax mx ex lx) as [mrs' e'].
  destruct (shr_fexp prec emax
              (round_nearest_even (shr_m mrs') (loc_of_shr_record mrs'))
              e' loc_Exact) as [mrs'' e''].
  destruct (shr_m mrs''); [reflexivity | | exact I].
  destruct (Z.leb e'' (emax - prec)); reflexivity.
Qed.

Lemma sign_clear_leb x :
  sign_clear x <-> (0 <=? x) = true \/ is_nan x = true.
Proof.
  unfold sign_clear. rewrite is_nan_sf, leb_spec.
  change (Prim2SF 0) with (S754_zero false). unfold SFleb.
  destruct (Prim2SF x) as [s|[|]| |[|] m e]; cbn; split; intros H;
    try (left; reflexivity); try (right; reflexivity); try exact I;
    try reflexivity; try discriminate;
    destruct H as [H | H]; discriminate.
Qed.

Lemma leb_sign_clear x : (0 <=? x) = true -> sign_clear x.
Proof. intros H. apply sign_clear_leb. left. exact H. Qed.

Lemma sign_clear_mul a b : sign_clear a -> sign_clear b -> sign_clear (a * b).
Proof.
  unfold sign_clear. rewrite mul_spec. unfold SF64mul, SFmul.
  destruct (Prim2SF a) as [sa|sa| |sa ma ea], (Prim2SF b) as [sb|sb| |sb mb eb];
    intros Ha Hb; subst; try exact I; try reflexivity.
  pose proof (binary_round_aux_sign (xorb false false)
                (Zpos (ma * mb)) (ea + eb) loc_Exact) as H.
  destruct (binary_round_aux prec emax (xorb false false)
              (Zpos (ma * mb)) (ea + eb) loc_Exact); auto.
Qed.

Lemma sign_clear_add a b : sign_clear a -> sign_clear b -> sign_clear (a + b).
Proof.
  unfold sign_clear. rewrite add_spec. unfold SF64add, SFadd.
  destruct (Prim2SF a) as [sa|sa| |sa ma ea], (Prim2SF b) as [sb|sb| |sb mb eb];
    intros Ha Hb; subst; try exact I; try reflexivity;
    try (destruct sa, sb; exact I).
  cbn [cond_Zopp]. cbn [Z.add]. unfold binary_normalize, binary_round.
  destruct (shl_align
              (fst (shl_align ma ea (Z.min ea eb))
               + fst (shl_align mb eb (Z.min ea eb)))
              (Z.min ea eb)
              (fexp prec emax
                 (Zpos (digits2_pos
                          (fst (shl_align ma ea (Z.min ea eb))
                           + fst (shl_align mb eb (Z.min ea eb))))
                  + Z.min ea eb))) as [mz ez].
  pose proof (binary_round_aux_sign false (Zpos mz) ez loc_Exact) as H.
  destruct (binary_round_aux prec emax false (Zpos mz) ez loc_Exact); auto.
Qed.

Lemma sign_clear_zero : sign_clear 0.
Proof. exact I. Qed.

Lemma base_of_sign uom l h q r :
  sign_clear l -> sign_clear h -> sign_clear q -> sign_clear r ->
  sign_clear (base_of uom l h q r).
Proof.
  intros Hl Hh Hq Hr. unfold base_of.
  destruct (eq_str uom (text "SFT")).
  - repeat apply sign_clear_mul; assumption.
  - destruct (eq_str uom (text "RFT")); repeat apply sign_clear_mul; assumption.
Qed.

Lemma surcharge_sign uom p l h q :
  sign_clear p -> sign_clear l -> sign_clear h -> sign_clear q ->
  sign_clear (surcharge uom p l h q).
Proof.
  intros Hp Hl Hh Hq. unfold surcharge.
  destruct (eq_str uom (text "SFT")).
  - repeat apply sign_clear_mul; assumption.
  - destruct (eq_str uom (text "RFT")); repeat apply sign_clear_mul; assumption.
Qed.

Lemma with_material_sign item uom l h q base :
  price_not_negative item = true ->
  sign_clear l -> sign_clear h -> sign_clear q -> sign_clear base ->
  sign_clear (with_material base (material_addition item uom l h q)).
Proof.
  intros Hp Hl Hh Hq Hb.
  unfold with_material, material_addition. unfold price_not_negative in Hp.
  destruct (dget (text "material") item) as [[|b|z|f|s|material]|];
    try exact Hb.
  destruct (truthy (get_default material (text "selected") VNone));
    [|exact Hb].
  apply sign_clear_add; [exact Hb|].
  destruct (get_default material (text "selected") VNone);
    try exact sign_clear_zero.
  destruct (get_default material (text "price_additions") (VDict []));
    try exact sign_clear_zero.
  destruct (dget s d) as [price|]; [|exact sign_clear_zero].
  destruct (number_of price); [|exact sign_clear_zero].
  apply surcharge_sign; try assumption. apply leb_sign_clear. exact Hp.
Qed.

Lemma mapping_cost_sign uom l h q add_ons cost :
  forallb (fun kv => rate_not_negative (snd kv)) add_ons = true ->
  sign_clear l -> sign_clear h -> sign_clear q -> sign_clear cost ->
  sign_clear (mapping_cost uom l h q add_ons cost).
Proof.
  intros Hf Hl Hh Hq. revert cost Hf.
  induction add_ons as [|[name info] rest IH]; intros cost Hf Hc.
  - exact Hc.
  - cbn [forallb snd] in Hf. apply andb_true_iff in Hf. destruct Hf as [H1 H2].
    cbn [mapping_cost]. destruct info; try (apply IH; assumption).
    apply IH; [exact H2|]. unfold rate_not_negative in H1.
    destruct (truthy (get_default d (text "selected") (VBool false)));
      [|exact Hc].
    cbn [negb orb] in H1. apply sign_clear_add; [exact Hc|].
    apply surcharge_sign; try assumption. apply leb_sign_clear. exact H1.
Qed.

Lemma legacy_sum_sign l h q segments cost :
  sign_clear l -> sign_clear h -> sign_clear q -> sign_clear cost ->
  sign_clear (legacy_sum l h q segments cost).
Proof.
  intros Hl Hh Hq. revert cost.
  induction segments as [|s rest IH]; intros cost Hc.
  - exact Hc.
  - cbn [legacy_sum]. apply IH. unfold legacy_charge.
    destruct (reads s (text "profile door")).
    + apply sign_clear_add; [exact Hc|].
      repeat apply sign_clear_mul; try assumption. reflexivity.
    + destruct (reads s (text "lights")); [|exact Hc].
      apply sign_clear_add; [exact Hc|].
      repeat apply sign_clear_mul; try assumption. reflexivity.
Qed.

Lemma add_on_cost_sign item uom l h q :
  rates_not_negative item = true ->
  sign_clear l -> sign_clear h -> sign_clear q ->
  sign_clear (add_on_cost item uom l h q).
Proof.
  intros Hr Hl Hh Hq. unfold add_on_cost. unfold rates_not_negative in Hr.
  destruct (dget (text "add_ons") item) as [[|b|z|f|s|add_ons]|];
    try exact sign_clear_zero.
  - destruct s; [exact sign_clear_zero|].
    destruct (eq_str uom (text "SFT")); [|exact sign_clear_zero].
    apply legacy_sum_sign; try assumption. exact sign_clear_zero.
  - apply mapping_cost_sign; try assumption. exact sign_clear_zero.
Qed.

(** An amount is never negative: on a shaped record whose four fields,
    selected surcharge and selected add-on rates are all at least 0, the
    amount is at least 0, or it is nan, which it is when a product
    overflows to infinity and meets a zero. *)
Theorem amount_not_negative_or_nan :
  (forall item,
     line_item_shaped item = true ->
     inputs_not_negative item = true ->
     exists x,
       calculate_item_amount item = Ok x
       /\ ((0 <=? x) = true \/ is_nan x = true))
  /\ calculate_item_amount overflowing_item = Ok nan.
Proof.
  split; [|vm_compute; reflexivity].
  intros item H Hn. rewrite (ieee_amount_spec item H). cbv zeta.
  eexists. split; [reflexivity|]. apply sign_clear_leb.
  unfold inputs_not_negative in Hn.
  repeat (apply andb_true_iff in Hn; destruct Hn as [Hn ?]).
  apply sign_clear_add.
  - apply with_material_sign; try (apply leb_sign_clear; assumption);
      try assumption.
    apply base_of_sign; apply leb_sign_clear; assumption.
  - apply add_on_cost_sign; try (apply leb_sign_clear; assumption);
      assumption.
Qed.

Lemma amount_not_negative_or_nan_witness :
  exists x,
    calculate_item_amount fitted_item = Ok x
    /\ ((0 <=? x) = true \/ is_nan x = true).
Proof.
  apply (proj1 amount_not_negative_or_nan); vm_compute; reflexivity.
Defined.

(* ------------------------------------------------------------------ *)
(** *** The grand total of a project *)

(** The grand total of a project is the subtotal plus the GST less the
    discount, in that order: with [x] the subtotal as a float and [g] and
    [d] the hundredths of the [gst] and [discount] settings, 18 and 0
    when absent, it is [x + x * g - x * d], which is not
    [x * (100 + 18 - 0) / 100] on a subtotal of 1234.56.  A setting that
    does not divide, a string for one, raises [TypeError], the GST first;
    an int beyond the doubles raises [OverflowError]. *)
Theorem grand_total_in_code_order :
  (forall sum p m s,
     calculate_room_totals (IeeeController.line_items p) = Ok m ->
     sum (map snd m) = Ok s ->
     let gst :=
       get_default (IeeeController.settings p) (text "gst") (VInt 18) in
     let discount :=
       get_default (IeeeController.settings p) (text "discount") (VInt 0) in
     (forall x g d,
        num_to_float s = Ok x ->
        over_100 gst = Ok g ->
        over_100 discount = Ok d ->
        IeeeController.calculate_grand_total sum p
        = Ok (x + x * g - x * d))
     /\ (forall e,
           over_100 gst = Raise e ->
           IeeeController.calculate_grand_total sum p = Raise e)
     /\ (forall g e,
           over_100 gst = Ok g ->
           num_to_float s = Raise e ->
           IeeeController.calculate_grand_total sum p = Raise e)
     /\ (forall x g e,
           num_to_float s = Ok x ->
           over_100 gst = Ok g ->
           over_100 discount = Raise e ->
           IeeeController.calculate_grand_total sum p = Raise e))
  /\ IeeeController.calculate_grand_total sum_in_order one_item_project
     = Ok 1456.7808
  /\ 1234.56 * (100 + 18 - 0) / 100 = 1456.7807999999998
  /\ IeeeController.calculate_grand_total sum_in_order two_room_project
     = Ok 17671.5
  /\ IeeeController.calculate_grand_total sum_in_order text_gst_project
     = Raise TypeError
  /\ over_100 (VInt 28) = Ok 0.28
  /\ 100 * 0.28 = 28.000000000000004
  /\ over_100 (VBool true) = Ok 0.01
  /\ over_100 VNone = Raise TypeError
  /\ over_100 (VInt (10 ^ 400)) = Raise OverflowError
  /\ num_to_float (NInt (10 ^ 400)) = Raise OverflowError.
Proof.
  split; [|repeat split; vm_compute; reflexivity].
  intros sum p m s Hm Hs gst discount.
  assert (Hsub : IeeeController.calculate_subtotal sum p = Ok s).
  { unfold IeeeController.calculate_subtotal,
      IeeeController.calculate_room_totals, calculate_subtotal.
    rewrite Hm. cbn [bind]. exact Hs. }
  unfold IeeeController.calculate_grand_total, IeeeController.calculate_gst,
    IeeeController.calculate_discount, calculate_gst, calculate_discount,
    calculate_grand_total.
  rewrite Hsub. cbn [bind]. fold gst. fold discount.
  repeat split.
  - intros x g d Hx Hg Hd. rewrite Hg, Hx, Hd. reflexivity.
  - intros e Hg. rewrite Hg. reflexivity.
  - intros g e Hg Hx. rewrite Hg, Hx. reflexivity.
  - intros x g e Hx Hg Hd. rewrite Hg, Hx, Hd. reflexivity.
Qed.

Lemma grand_total_in_code_order_witness :
  IeeeController.calculate_grand_total sum_in_order two_room_project
  = Ok (15300 + 15300 * 0.28 - 15300 * 0.125).
Proof.
  refine (proj1 (proj1 grand_total_in_code_order sum_in_order
                   two_room_project
                   [(VStr (text "Hall"), NInt 12100);
                    (VStr (text "Kitchen"), NInt 3200)]
                   (NInt 15300) _ _)
            15300 0.28 0.125 _ _ _);
    vm_compute; reflexivity.
Defined.

(* ------------------------------------------------------------------ *)
(** *** The subtotal of whole amounts *)

Lemma totals_sum_init room m :
  whole_totals (totals_init room m) = whole_totals m
  /\ totals_sum (totals_init room m) = totals_sum m.
Proof.
  unfold totals_init. induction m as [|[k [z|f]] m [IH1 IH2]]; cbn.
  - split; reflexivity.
  - split; [exact IH1 | rewrite IH2; reflexivity].
  - split; [reflexivity | exact IH2].
Qed.

Lemma totals_add_whole room item amount m :
  dget (text "amount") item = Some amount ->
  exact_amount item = true ->
  whole_totals m = true ->
  forall m',
    totals_add room amount m = Ok m' ->
    whole_totals m' = true
    /\ totals_sum m' = (totals_sum m + int_of item)%Z.
Proof.
  intros Ha He. induction m as [|[k v] m IH]; intros Hw m' H.
  - discriminate.
  - cbn [whole_totals forallb snd] in Hw. apply andb_true_iff in Hw.
    destruct Hw as [Hv Hw]. destruct v as [z|f]; [|discriminate].
    cbn [totals_add] in H. destruct (key_eqb room k).
    + rewrite (py_add_exact z item amount Ha He) in H. cbn [bind] in H.
      injection H as <-. split.
      * cbn [whole_totals forallb snd]. exact Hw.
      * cbn [totals_sum]. lia.
    + destruct (totals_add room amount m) as [m''|e]; [|discriminate].
      cbn [bind] in H. injection H as <-.
      destruct (IH Hw m'' eq_refl) as [H1 H2]. split.
      * cbn [whole_totals forallb snd]. exact H1.
      * cbn [totals_sum]. rewrite H2. lia.
Qed.

Lemma room_loop_whole items :
  forall m m',
    forallb exact_amount items = true ->
    whole_totals m = true ->
    room_loop items m = Ok m' ->
    whole_totals m' = true
    /\ totals_sum m' = (totals_sum m + amounts_sum items)%Z.
Proof.
  induction items as [|item rest IH]; intros m m' He Hw H.
  - injection H as <-. split; [exact Hw | cbn; lia].
  - cbn [forallb] in He. apply andb_true_iff in He. destruct He as [He1 He2].
    cbn [room_loop] in H. unfold getitem in H.
    destruct (dget (text "room") item) as [room|]; [|discriminate].
    destruct (dget (text "amount") item) as [amount|] eqn:Ea; [|discriminate].
    cbn [bind] in H.
    destruct (accumulate room amount m) as [m1|e] eqn:Eacc; [|discriminate].
    cbn [bind] in H. unfold accumulate in Eacc.
    destruct (hashable room); [|discriminate].
    assert (H1 : whole_totals m1 = true
                 /\ totals_sum m1 = (totals_sum m + int_of item)%Z).
    { destruct (totals_get room m).
      - apply (totals_add_whole room item amount m Ea He1 Hw m1 Eacc).
      - destruct (totals_sum_init room m) as [Hi1 Hi2].
        rewrite <- Hi2.
        apply (totals_add_whole room item amount _ Ea He1); [|exact Eacc].
        rewrite Hi1. exact Hw. }
    destruct H1 as [Hw1 Hs1].
    destruct (IH m1 m' He2 Hw1 H) as [Hw' Hs'].
    split; [exact Hw'|]. rewrite Hs', Hs1. cbn [amounts_sum]. lia.
Qed.

Lemma sum_from_whole m :
  forall c,
    whole_totals m = true ->
    sum_from (NInt c) (map snd m) = Ok (NInt (c + totals_sum m)).
Proof.
  induction m as [|[k v] m IH]; intros c Hw.
  - cbn. rewrite Z.add_0_r. reflexivity.
  - cbn [whole_totals forallb snd] in Hw. apply andb_true_iff in Hw.
    destruct Hw as [Hv Hw]. destruct v as [z|f]; [|discriminate].
    cbn [map snd sum_from py_add bind]. rewrite (IH _ Hw).
    cbn [totals_sum]. f_equal. f_equal. lia.
Qed.

(** The subtotal of whole amounts is their sum: when every item has a
    hashable room and an int or bool amount, the room totals exist and
    [sum], adding them from 0, returns the int that is the exact sum of
    all the amounts.  With float amounts the subtotal by rooms can differ
    from the amounts added in list order. *)
Theorem subtotal_of_whole_amounts :
  (forall line_items,
     forallb complete line_items = true ->
     forallb keyed line_items = true ->
     forallb exact_amount line_items = true ->
     exists m,
       calculate_room_totals line_items = Ok m
       /\ calculate_subtotal sum_in_order m
          = Ok (NInt (amounts_sum line_items)))
  /\ (exists m,
        calculate_room_totals interleaved_rooms = Ok m
        /\ calculate_subtotal sum_in_order m
           = Ok (NFloat 400.78999999999996))
  /\ amounts_in_order interleaved_rooms 0 = 400.79.
Proof.
  split; [|split; [eexists; split|]; vm_compute; reflexivity].
  intros items Hc Hk He.
  destruct (exact_loop_spec items [] Hc Hk He all_ints_nil)
    as (m & Hm & _ & _).
  exists m. split; [exact Hm|].
  destruct (room_loop_whole items [] m He eq_refl Hm) as [Hw Hs].
  unfold calculate_subtotal, sum_in_order.
  rewrite (sum_from_whole m 0 Hw), Hs. reflexivity.
Qed.

Lemma subtotal_of_whole_amounts_witness :
  exists m,
    calculate_room_totals whole_amounts = Ok m
    /\ calculate_subtotal sum_in_order m = Ok (NInt 3500).
Proof.
  apply (proj1 subtotal_of_whole_amounts whole_amounts); reflexivity.
Defined.
